(** * NI-DAQmx BLACS workers: acquisition streaming, wait monitoring and
      measurement-window extraction

    A shallow embedding of the parts of
    [NI_DAQmx/blacs_workers.py] and [NI_DAQmx/models/NI_PCIe_6363.py]
    whose behaviour the specification describes:

    - [NI_DAQmxAcquisitionWorker]: [read], [start_task], [stop_task],
      [extract_measurements];
    - [Ni_DAQmxWaitMonitorWorker]: [wait_for_rising_edge],
      [send_resume_trigger], [transition_to_buffered],
      [transition_to_manual];
    - [NI_PCIe_6363.__init__] and its [CAPABILITIES] table;

    and of the code around them: the life cycle of the acquisition worker
    ([init], [shutdown], [transition_to_buffered], [transition_to_manual],
    [abort_buffered]) and the methods of [NI_DAQmxOutputWorker].

    Python floats and numpy [float64] values are IEEE-754 binary64 numbers;
    they are modelled by the Standard Library's executable specification
    ([spec_float] at precision 53), so that every arithmetic step rounds as
    it does in the program.  Worker objects are records threaded through
    the methods; a raised exception is the [Raise] result. *)

From Stdlib Require Import ZArith List Bool Lia String.
From Stdlib Require Import Floats.SpecFloat.
From stdpp Require Import base option list strings pretty gmap.

Local Open Scope string_scope.
Local Open Scope list_scope.
Local Open Scope Z_scope.

(** ** Exceptions and results *)

Inductive exn : Type :=
  | RuntimeError (msg : string)
  | ValueError (msg : string)
  | OverflowError (msg : string)
  | TypeError (msg : string)
  | AttributeError (msg : string)
  | KeyError (key : string)
  | NotImplementedError (msg : string)
  | AssertionError.

Inductive result (A : Type) : Type :=
  | Ok (a : A)
  | Raise (e : exn).
Arguments Ok {A} a.
Arguments Raise {A} e.

Definition rbind {A B : Type} (r : result A) (k : A -> result B) : result B :=
  match r with
  | Ok a => k a
  | Raise e => Raise e
  end.

Notation "'let*' p ':=' r 'in' k" := (rbind r (fun p => k))
  (at level 10, p pattern, r at level 100, k at level 200).


(** ** Binary64 arithmetic *)

Module F64.

Definition prec : Z := 53.
Definition emax : Z := 1024.

Definition add : spec_float -> spec_float -> spec_float := SFadd prec emax.
Definition sub : spec_float -> spec_float -> spec_float := SFsub prec emax.
Definition mul : spec_float -> spec_float -> spec_float := SFmul prec emax.
Definition div : spec_float -> spec_float -> spec_float := SFdiv prec emax.
Definition opp : spec_float -> spec_float := SFopp.
Definition abs : spec_float -> spec_float := SFabs.
Definition ltb : spec_float -> spec_float -> bool := SFltb.
Definition leb : spec_float -> spec_float -> bool := SFleb.
Definition eqb : spec_float -> spec_float -> bool := SFeqb.
(** [x > y] is [y < x]; both are false on NaN. *)
Definition gtb (x y : spec_float) : bool := SFltb y x.

Definition zero : spec_float := S754_zero false.
Definition nan : spec_float := S754_nan.

(** Conversion of a Python int: round to nearest, ties to even. *)
Definition of_Z (z : Z) : spec_float := binary_normalize prec emax z 0 false.

Definition valid (x : spec_float) : bool := valid_binary prec emax x.

Definition is_finite (x : spec_float) : bool :=
  match x with
  | S754_zero _ | S754_finite _ _ _ => true
  | _ => false
  end.

(** The decimal literal [m]e[e].  For [e < 0] it is the correctly rounded
    quotient of two integers that binary64 holds exactly (the literals
    used here have [|m| < 2^53] and [10^-e <= 10^22]), which is the
    double nearest to the decimal, as Python reads it. *)
Definition dec (m e : Z) : spec_float :=
  if 0 <=? e then of_Z (m * 10 ^ e) else div (of_Z m) (of_Z (10 ^ (- e))).

(** Exact integer parts of a finite value [(-1)^s * m * 2^e]. *)
Definition signed (s : bool) (m : positive) : Z := cond_Zopp s (Zpos m).

Definition floorZ (x : spec_float) : option Z :=
  match x with
  | S754_zero _ => Some 0
  | S754_finite s m e =>
      Some (if 0 <=? e then signed s m * 2 ^ e else signed s m / 2 ^ (- e))
  | _ => None
  end.

Definition ceilZ (x : spec_float) : option Z :=
  match x with
  | S754_zero _ => Some 0
  | S754_finite s m e =>
      Some (if 0 <=? e then signed s m * 2 ^ e
            else - ((- signed s m) / 2 ^ (- e)))
  | _ => None
  end.

Definition truncZ (x : spec_float) : option Z :=
  match x with
  | S754_zero _ => Some 0
  | S754_finite s m e =>
      Some (if 0 <=? e then signed s m * 2 ^ e
            else Z.quot (signed s m) (2 ^ (- e)))
  | _ => None
  end.

Definition not_an_int (x : spec_float) : exn :=
  match x with
  | S754_nan => ValueError "cannot convert float NaN to integer"
  | _ => OverflowError "cannot convert float infinity to integer"
  end.

Definition lift_int (f : spec_float -> option Z) (x : spec_float) : result Z :=
  match f x with
  | Some z => Ok z
  | None => Raise (not_an_int x)
  end.

(** [int(x)]: truncation towards zero. *)
Definition to_int : spec_float -> result Z := lift_int truncZ.
(** [int(np.floor(x))] and [int(np.ceil(x))]: the floor and the ceiling
    of a double are doubles, so the two steps compose to the exact integer
    (NaN and the infinities pass through [np.floor] and fail in [int]). *)
Definition int_floor : spec_float -> result Z := lift_int floorZ.
Definition int_ceil : spec_float -> result Z := lift_int ceilZ.

End F64.

(** ** Binary32, for [astype(np.float32)] *)

Module F32.

Definition prec : Z := 24.
Definition emax : Z := 128.

(** Rounding of a binary64 value to binary32. *)
Definition of_f64 (x : spec_float) : spec_float :=
  match x with
  | S754_finite s m e => binary_round prec emax s m e
  | _ => x
  end.

End F32.

(** ** One-dimensional numpy arrays *)

Module Np.

Fixpoint cumsum_from (acc : spec_float) (a : list spec_float) : list spec_float :=
  match a with
  | [] => []
  | x :: r => let s := F64.add acc x in s :: cumsum_from s r
  end.

(** [np.cumsum(a)]: running sums, accumulated left to right. *)
Definition cumsum (a : list spec_float) : list spec_float :=
  match a with
  | [] => []
  | x :: r => x :: cumsum_from x r
  end.

(** [np.insert(a, 0, 0)]. *)
Definition insert0 (a : list spec_float) : list spec_float := F64.zero :: a.

(** [a[::2]]. *)
Fixpoint every_second {A : Type} (a : list A) : list A :=
  match a with
  | [] => []
  | x :: r => x :: match r with [] => [] | _ :: r' => every_second r' end
  end.

(** [np.diff(a)]: [a[1:] - a[:-1]]. *)
Fixpoint diff (a : list spec_float) : list spec_float :=
  match a with
  | [] => []
  | x :: r => match r with [] => [] | y :: _ => F64.sub y x :: diff r end
  end.

(** An elementwise binary operation on two 1-D arrays, with numpy's
    broadcasting: equal lengths, or one operand of length one. *)
Definition broadcast2 {A B C : Type} (f : A -> B -> C) (a : list A) (b : list B)
  : result (list C) :=
  if Nat.eqb (length a) (length b) then Ok (zip_with f a b)
  else match a, b with
       | [x], _ => Ok (map (f x) b)
       | _, [y] => Ok (map (fun x => f x y) a)
       | _, _ => Raise (ValueError "operands could not be broadcast together")
       end.

(** [dst[...] = src] for a destination of [n] elements: [src] has [n]
    elements, or one element that is repeated. *)
Definition assign {A : Type} (n : nat) (src : list A) : result (list A) :=
  if Nat.eqb (length src) n then Ok src
  else match src with
       | [x] => Ok (repeat x n)
       | _ => Raise (ValueError "could not broadcast input array")
       end.

(** Python's clamping of a slice bound against a length. *)
Definition clamp (n : nat) (i : Z) : nat :=
  if i <? 0 then Z.to_nat (Z.max (i + Z.of_nat n) 0)
  else Nat.min (Z.to_nat i) n.

(** [a[i:j]]; negative bounds count from the end, bounds beyond the array
    are clamped, and nothing is raised. *)
Definition slice {A : Type} (a : list A) (i j : Z) : list A :=
  let lo := clamp (length a) i in
  let hi := clamp (length a) j in
  firstn (hi - lo) (skipn lo a).

Fixpoint arange (k : nat) (from : Z) : list spec_float :=
  match k with
  | O => []
  | S k' => F64.of_Z from :: arange k' (from + 1)
  end.

Fixpoint set_last {A : Type} (a : list A) (v : A) : list A :=
  match a with
  | [] => []
  | [_] => [v]
  | x :: r => x :: set_last r v
  end.

(** [np.linspace(start, stop, num, endpoint=True)]. *)
Definition linspace (start stop : spec_float) (num : Z) : result (list spec_float) :=
  if num <? 0 then Raise (ValueError "Number of samples must be non-negative")
  else
    let n := Z.to_nat num in
    let dv := num - 1 in
    let delta := F64.sub stop start in
    let y := arange n 0 in
    let y1 :=
      if 1 <? num then
        let step := F64.div delta (F64.of_Z dv) in
        if F64.eqb step F64.zero
        then map (fun v => F64.mul (F64.div v (F64.of_Z dv)) delta) y
        else map (fun v => F64.mul v step) y
      else map (fun v => F64.mul v delta) y in
    let y2 := map (fun v => F64.add v start) y1 in
    Ok (if 1 <? num then set_last y2 stop else y2).

End Np.

(** ** NI_DAQmxAcquisitionWorker *)

Module Acq.

(** One sample of every channel of a task. *)
Definition row : Type := list spec_float.

(** A PyDAQmx [Task] as the worker uses it: the integer behind
    [taskHandle.value], what [start_task] configured, and the samples the
    device has acquired into the driver's buffer and that no
    [ReadAnalogF64] has fetched yet. *)
Record Task : Type := mkTask {
  taskHandle : Z;
  task_chans : list string;
  task_rate : spec_float;
  every_n_samples : Z;
  start_trigger : bool;
  unread : list row
}.

(** What [read] can receive as [task_handle]: the driver's callback passes
    the integer handle, [stop_task] passes the [Task] object itself. *)
Inductive pyval : Type :=
  | PyInt (z : Z)
  | PyNone
  | PyTask (t : Task).

(** [v != h] for an integer [h].  PyDAQmx's [Task] defines neither
    [__eq__] nor [__ne__], so a [Task] object (like [None]) compares
    unequal to every integer. *)
Definition py_ne (v : pyval) (h : Z) : bool :=
  match v with
  | PyInt z => negb (z =? h)
  | PyNone => true
  | PyTask _ => true
  end.

Definition MAX_READ_INTERVAL : spec_float := F64.dec 2 (-1).
Definition MAX_READ_PTS : Z := 10000.

Record worker : Type := mkWorker {
  AI_start_delay : spec_float;
  task : option Task;
  read_array : option (list row);
  buffered_mode : bool;
  h5_file : option string;
  acquired_data : option (list (list row));
  buffered_rate : option spec_float;
  buffered_chans : option (list string);
  (** the handle the driver gives the next [Task()] *)
  next_handle : Z
}.

Definition set_task (w : worker) (t : option Task) (arr : option (list row)) : worker :=
  mkWorker (AI_start_delay w) t arr (buffered_mode w) (h5_file w)
           (acquired_data w) (buffered_rate w) (buffered_chans w) (next_handle w).

Definition set_acquired_data (w : worker) (d : option (list (list row))) : worker :=
  mkWorker (AI_start_delay w) (task w) (read_array w) (buffered_mode w) (h5_file w)
           d (buffered_rate w) (buffered_chans w) (next_handle w).

Definition set_next_handle (w : worker) (h : Z) : worker :=
  mkWorker (AI_start_delay w) (task w) (read_array w) (buffered_mode w) (h5_file w)
           (acquired_data w) (buffered_rate w) (buffered_chans w) h.

(** [task.ReadAnalogF64(num_samples, -1, ..., read_array, size, samples_read, None)]:
    fetches [num_samples] rows, or every available row when [num_samples]
    is [-1], never more than the array holds. *)
Definition ReadAnalogF64 (t : Task) (num_samples : Z) (capacity : nat)
  : list row * Task :=
  let want := if num_samples <? 0 then length (unread t) else Z.to_nat num_samples in
  let k := Nat.min want capacity in
  (firstn k (unread t),
   mkTask (taskHandle t) (task_chans t) (task_rate t) (every_n_samples t)
          (start_trigger t) (skipn k (unread t))).

(** The rows read land at the start of the staging array. *)
Definition fill (arr rows : list row) : list row := rows ++ skipn (length rows) arr.

(** [read(self, task_handle, event_type, num_samples, callback_data=None)] *)
Definition read (w : worker) (task_handle : pyval) (num_samples : Z)
  : result (Z * worker) :=
  match task w with
  | None => Ok (0, w)
  | Some t =>
      if py_ne task_handle (taskHandle t) then Ok (0, w)
      else
        match read_array w with
        | None => Raise (AttributeError "'NoneType' object has no attribute 'size'")
        | Some arr =>
            let '(rows, t') := ReadAnalogF64 t num_samples (length arr) in
            let w1 := set_task w (Some t') (Some (fill arr rows)) in
            let data := map (map F32.of_f64) rows in
            if buffered_mode w then
              match acquired_data w with
              | Some acc => Ok (0, set_acquired_data w1 (Some (acc ++ [data])))
              | None => Raise (AttributeError "'NoneType' object has no attribute 'append'")
              end
            else Ok (0, w1)
        end
  end.

(** [num_samples = min(self.MAX_READ_PTS, int(rate * self.MAX_READ_INTERVAL))] *)
Definition num_samples_for (rate : spec_float) : result Z :=
  let* n := F64.to_int (F64.mul rate MAX_READ_INTERVAL) in
  Ok (Z.min MAX_READ_PTS n).

(** [np.zeros((n, c), dtype=np.float64)] *)
Definition zeros (n : Z) (c : nat) : result (list row) :=
  if n <? 0 then Raise (ValueError "negative dimensions are not allowed")
  else Ok (repeat (repeat F64.zero c) (Z.to_nat n)).

(** [start_task(self, chans, rate)] *)
Definition start_task (w : worker) (chans : list string) (rate : spec_float)
  : result worker :=
  match task w with
  | Some _ => Raise (RuntimeError "Task already running")
  | None =>
      let num_chans := length chans in
      let* num_samples := num_samples_for rate in
      let* arr := zeros num_samples num_chans in
      let t := mkTask (next_handle w) chans rate num_samples (buffered_mode w) [] in
      Ok (set_next_handle (set_task w (Some t) (Some arr)) (next_handle w + 1))
  end.

(** [stop_task(self)] *)
Definition stop_task (w : worker) : result worker :=
  match task w with
  | None => Raise (RuntimeError "Task not running")
  | Some t =>
      (* Read remaining data: self.read(self.task, None, -1) *)
      let* (_, w1) := read w (PyTask t) (-1) in
      (* StopTask, ClearTask, then both attributes back to None *)
      Ok (set_task w1 None None)
  end.

(** *** extract_measurements *)

(** A row of the [AI] table of the shot file. *)
Record acquisition : Type := mkAcquisition {
  connection : string;
  label : string;
  t_start : spec_float;
  t_end : spec_float
}.

(** A row of [/data/waits]: scheduled time and resolved duration. *)
Record wait : Type := mkWait {
  wait_time : spec_float;
  wait_duration : spec_float
}.

Definition eps : spec_float := F64.dec 2 (-16).

(** [wait_durations[(wait_times < t)].sum()], summed left to right
    (numpy regroups the additions of arrays of eight or more elements). *)
Definition durations_before (waits : list wait) (t : spec_float) : spec_float :=
  fold_left F64.add
    (map wait_duration (filter (fun w => F64.ltb (wait_time w) t) waits))
    F64.zero.

Definition shift (waits : option (list wait)) (t : spec_float) : spec_float :=
  match waits with
  | Some ws => F64.add t (durations_before ws t)
  | None => t
  end.

(** The sample indices of a window with (shifted) bounds [ts] and [te]. *)
Definition sample_indices (rate t0 ts te : spec_float) : result (Z * Z) :=
  let* i_start := F64.int_ceil (F64.mul rate (F64.sub ts t0)) in
  let* i_end := F64.int_floor (F64.mul rate (F64.sub te t0)) in
  let i_start :=
    if F64.gtb (F64.sub (F64.add t0 (F64.div (F64.of_Z (i_start - 1)) rate)) ts)
               (F64.opp eps)
    then i_start - 1 else i_start in
  let i_end :=
    if F64.ltb (F64.sub (F64.sub te t0) (F64.div (F64.of_Z i_end) rate)) eps
    then i_end - 1 else i_end in
  Ok (i_start, i_end).

(** A written dataset: its [t] and [values] columns. *)
Definition series : Type := list (spec_float * spec_float).

(** The body of the loop after the shift: indices, time axis, slice of
    the channel's waveform and the record array that is written. *)
Definition measurement_of (rate t0 : spec_float) (chan : list spec_float)
    (ts te : spec_float) : result series :=
  let* (i_start, i_end) := sample_indices rate t0 ts te in
  let t_i := F64.add t0 (F64.div (F64.of_Z i_start) rate) in
  let t_f := F64.add t0 (F64.div (F64.of_Z i_end) rate) in
  let* times := Np.linspace t_i t_f (i_end - i_start + 1) in
  let values := Np.slice chan i_start (i_end + 1) in
  let* ts_col := Np.assign (length values) times in
  let* vs_col := Np.assign (length values) values in
  Ok (zip ts_col vs_col).

(** One iteration of the loop over the [AI] table: the indices and the
    time axis are computed before the channel is looked up in [raw_data],
    so that their exceptions come first. *)
Definition extract_one (rate t0 : spec_float) (waits : option (list wait))
    (raw_data : gmap string (list spec_float)) (a : acquisition)
  : result (string * series) :=
  let ts := shift waits (t_start a) in
  let te := shift waits (t_end a) in
  let* (i_start, i_end) := sample_indices rate t0 ts te in
  let t_i := F64.add t0 (F64.div (F64.of_Z i_start) rate) in
  let t_f := F64.add t0 (F64.div (F64.of_Z i_end) rate) in
  let* _ := Np.linspace t_i t_f (i_end - i_start + 1) in
  match raw_data !! connection a with
  | None => Raise (ValueError "no field of name")
  | Some chan =>
      let* s := measurement_of rate t0 chan ts te in
      Ok (label a, s)
  end.

(** [measurements.create_dataset(label, data=data)] *)
Definition create_dataset (traces : list (string * series)) (d : string * series)
  : result (list (string * series)) :=
  if existsb (String.eqb (fst d)) (map fst traces)
  then Raise (RuntimeError "Unable to create dataset (name already exists)")
  else Ok (traces ++ [d]).

(** The loop: datasets written before an exception stay in the file. *)
Fixpoint extract_measurements (rate t0 : spec_float) (waits : option (list wait))
    (raw_data : gmap string (list spec_float)) (acquisitions : list acquisition)
    (traces : list (string * series)) : list (string * series) * option exn :=
  match acquisitions with
  | [] => (traces, None)
  | a :: rest =>
      match (let* d := extract_one rate t0 waits raw_data a in
             create_dataset traces d) with
      | Ok traces' => extract_measurements rate t0 waits raw_data rest traces'
      | Raise e => (traces, Some e)
      end
  end.

End Acq.

(** ** Ni_DAQmxWaitMonitorWorker

    [daqmx_read], the body of the reader thread, is not embedded: it calls
    [wait_for_edge] and reads [kill_lock], [current_time] and [pulse_width],
    none of which the class defines.  It stores nothing in the worker: the
    only assignment to [half_periods] is the empty list of
    [transition_to_buffered].

    Two attributes that [stop_task] reads are not created by [init]:
    [daqlock], which no line of the class assigns, and [task_running], which
    only [transition_to_buffered] assigns, on the wait monitor.  Reading an
    attribute that does not exist raises [AttributeError]. *)

Module WaitMon.

(** A row of the [waits] table of the shot file. *)
Record wait_row : Type := mkWaitRow {
  label : string;
  time : spec_float;
  timeout : spec_float
}.

(** A row of the [/data/waits] table the worker writes. *)
Record outcome : Type := mkOutcome {
  o_label : string;
  o_time : spec_float;
  o_timeout : spec_float;
  o_duration : spec_float;
  o_timed_out : bool
}.

(** The shot file, as far as this worker reads and writes it. *)
Record h5file : Type := mkFile {
  waits : list wait_row;
  waits_attrs : gmap string string;
  data_waits : option (list outcome)
}.

(** What the worker does to the outside: driver calls, the reader thread,
    posted events. *)
Inductive event : Type :=
  | AcquisitionTaskStarted (chan : string)
  | TimeoutTaskCreated (chan : string)
  | WriteDigitalLines (v : Z)
  | Sleep (seconds : spec_float)
  | ThreadStarted
  | TasksStopped
  | Posted (name : string).

(** The attributes of the worker.  [daqlock] tells whether the attribute
    of that name exists; [task_running] is [None] as long as it has not
    been assigned.  The attributes from [is_wait_monitor_device] to
    [timeout_trigger_type] and [half_periods] are assigned by
    [transition_to_buffered] and read only after [stop_task] has returned
    or by the reader thread; the values they are given before the first
    shot are not read. *)
Record worker : Type := mkWorker {
  MAX_name : string;
  daqlock : bool;
  abort : bool;
  is_wait_monitor_device : bool;
  waits_in_use : bool;
  wait_table : list wait_row;
  timeout_trigger_type : string;
  task_running : option bool;
  half_periods : list spec_float;
  log : list event
}.

Definition emit (w : worker) (evs : list event) : worker :=
  mkWorker (MAX_name w) (daqlock w) (abort w) (is_wait_monitor_device w)
           (waits_in_use w) (wait_table w) (timeout_trigger_type w)
           (task_running w) (half_periods w) (log w ++ evs).

Definition set_abort (w : worker) (b : bool) : worker :=
  mkWorker (MAX_name w) (daqlock w) b (is_wait_monitor_device w)
           (waits_in_use w) (wait_table w) (timeout_trigger_type w)
           (task_running w) (half_periods w) (log w).

(** *** init *)

(** [init] creates [h5_file], the two unused task attributes, [abort] and
    the three events, and nothing else. *)
Definition init (MAX_name : string) : worker :=
  mkWorker MAX_name false false false false [] EmptyString None [] [].

(** *** wait_for_rising_edge *)

(** The loop runs beside the thread that sets [self.abort] and beside the
    counter: [abort_at k] is the flag as the [k]-th test of the loop finds
    it, [read_at k] what the [k]-th [ReadCounterF64] delivers within its
    timeout ([None]: [SamplesNotYetAvailableError]). *)
Record environment : Type := mkEnv {
  abort_at : nat -> bool;
  read_at : nat -> option spec_float
}.

Inductive wait_outcome : Type :=
  | Returned (v : option spec_float)
  | Raised (e : exn)
  | Blocked.   (* still in the loop when the observation ends *)

Definition poll_interval : spec_float := F64.dec 2 (-1).

(** The [while True] loop from its [k]-th iteration, observed for [fuel]
    iterations; the second component lists the timeout of every
    [ReadCounterF64] call made, in order. *)
Fixpoint wait_loop (timeout : option spec_float) (read_timeout : spec_float)
    (env : environment) (k fuel : nat) : wait_outcome * list spec_float :=
  match fuel with
  | O => (Blocked, [])
  | S fuel' =>
      if abort_at env k then (Raised (RuntimeError "Aborted"), [])
      else
        match read_at env k with
        | Some v => (Returned (Some v), [read_timeout])
        | None =>
            match timeout with
            | None =>
                let '(r, calls) := wait_loop timeout read_timeout env (S k) fuel' in
                (r, read_timeout :: calls)
            | Some _ => (Returned None, [read_timeout])
            end
        end
  end.

(** [wait_for_rising_edge(self, timeout=None)] *)
Definition wait_for_rising_edge (timeout : option spec_float) (env : environment)
    (fuel : nat) : wait_outcome * list spec_float :=
  let read_timeout :=
    match timeout with
    | None => poll_interval
    | Some t => t
    end in
  wait_loop timeout read_timeout env 0 fuel.

(** *** send_resume_trigger *)

(** The driver is taken to write the one sample it is given, so that the
    [assert written.value == 1] after each write holds. *)
Definition send_resume_trigger (w : worker) (pulse_width : spec_float)
  : worker * result unit :=
  let values :=
    if String.eqb (timeout_trigger_type w) "rising" then Some (1, 0)
    else if String.eqb (timeout_trigger_type w) "falling" then Some (0, 1)
    else None in
  match values with
  | None =>
      (w, Raise (ValueError "timeout_trigger_type must be either 'rising' or 'falling'."))
  | Some (trigger_value, rearm_value) =>
      (emit w [WriteDigitalLines trigger_value; Sleep pulse_width;
               WriteDigitalLines rearm_value], Ok tt)
  end.

(** *** stop_task *)

Definition stop_task (w : worker) : worker * result unit :=
  (* with self.daqlock: *)
  if daqlock w then
    match task_running w with
    | None =>
        (w, Raise (AttributeError
              "'Ni_DAQmxWaitMonitorWorker' object has no attribute 'task_running'"))
    | Some true =>
        (mkWorker (MAX_name w) (daqlock w) (abort w) (is_wait_monitor_device w)
                  (waits_in_use w) (wait_table w) (timeout_trigger_type w)
                  (Some false) (half_periods w) (log w ++ [TasksStopped]), Ok tt)
    | Some false => (w, Ok tt)
    end
  else
    (w, Raise (AttributeError
          "'Ni_DAQmxWaitMonitorWorker' object has no attribute 'daqlock'")).

(** *** transition_to_buffered *)

Definition attr (f : h5file) (key : string) : result string :=
  match waits_attrs f !! key with
  | Some v => Ok v
  | None => Raise (KeyError key)
  end.

Definition transition_to_buffered (w : worker) (device_name : string) (f : h5file)
  : worker * result unit :=
  (* self.is_wait_monitor_device = False *)
  let w0 := mkWorker (MAX_name w) (daqlock w) (abort w) false (waits_in_use w)
                     (wait_table w) (timeout_trigger_type w) (task_running w)
                     (half_periods w) (log w) in
  if Nat.eqb (length (waits f)) 0 then
    (* There are no waits. Do nothing. *)
    (mkWorker (MAX_name w0) (daqlock w0) (abort w0) false false []
              (timeout_trigger_type w0) (task_running w0) (half_periods w0)
              (log w0), Ok tt)
  else
    let w1 := mkWorker (MAX_name w0) (daqlock w0) (abort w0) false true
                       (wait_table w0) (timeout_trigger_type w0) (task_running w0)
                       (half_periods w0) (log w0) in
    match (let* acquisition_device := attr f "wait_monitor_acquisition_device" in
           let* acquisition_connection := attr f "wait_monitor_acquisition_connection" in
           let* timeout_device := attr f "wait_monitor_timeout_device" in
           let* timeout_connection := attr f "wait_monitor_timeout_connection" in
           Ok (acquisition_device, acquisition_connection,
               timeout_device, timeout_connection)) with
    | Raise e => (w1, Raise e)
    | Ok (acquisition_device, acquisition_connection,
          timeout_device, timeout_connection) =>
        let trigger_type :=
          match waits_attrs f !! "wait_monitor_timeout_trigger_type" with
          | Some v => v
          | None => "rising"
          end in
        let w2 := mkWorker (MAX_name w1) (daqlock w1) (abort w1) false true
                           (waits f) trigger_type (task_running w1)
                           (half_periods w1) (log w1) in
        if String.eqb timeout_device device_name
           || String.eqb acquisition_device device_name then
          if negb (String.eqb timeout_device device_name)
             && String.eqb acquisition_device device_name then
            (w2, Raise (NotImplementedError
               "Ni_DAQmx worker must be both the wait monitor timeout device and acquisition device."))
          else
            let acquisition_chan := (MAX_name w ++ "/" ++ acquisition_connection)%string in
            let timeout_chan := (MAX_name w ++ "/" ++ timeout_connection)%string in
            let arm :=
              if String.eqb trigger_type "falling" then [WriteDigitalLines 1] else [] in
            (mkWorker (MAX_name w2) (daqlock w2) (abort w2) true true (waits f)
                      trigger_type (Some true) []
                      (log w2 ++ [AcquisitionTaskStarted acquisition_chan;
                                  TimeoutTaskCreated timeout_chan]
                              ++ arm ++ [ThreadStarted]),
             Ok tt)
        else (w2, Ok tt)
    end.

(** *** transition_to_manual *)

(** The wait durations and time-out flags, as computed from the recorded
    half periods and the wait table. *)
Definition resolve (half_periods : list spec_float) (table : list wait_row)
  : result (list spec_float * list bool) :=
  let edge_times := Np.cumsum half_periods in
  let edge_times := Np.insert0 edge_times in
  let rising_edge_times := Np.every_second edge_times in
  let periods := Np.diff rising_edge_times in
  let resume_times := map time table in
  let resume_times := Np.insert0 resume_times in
  let run_periods := Np.diff resume_times in
  let* wait_durations := Np.broadcast2 F64.sub periods run_periods in
  let* waits_timed_out := Np.broadcast2 F64.gtb wait_durations (map timeout table) in
  Ok (wait_durations, waits_timed_out).

(** A record of [np.empty]: its content is whatever the memory held. *)
Definition blank : outcome := mkOutcome EmptyString F64.zero F64.zero F64.zero false.

Fixpoint records (ls : list string) (ts tos ds : list spec_float) (fs : list bool)
  : list outcome :=
  match ls, ts, tos, ds, fs with
  | l :: ls', t :: ts', to :: tos', d :: ds', f :: fs' =>
      mkOutcome l t to d f :: records ls' ts' tos' ds' fs'
  | _, _, _, _, _ => []
  end.

(** The record array built under [with h5py.File(...)]: [np.empty] of
    one record per wait, the five columns assigned when the worker
    monitors waits that are in use. *)
Definition wait_data (w : worker) (resolved : option (list spec_float * list bool))
  : result (list outcome) :=
  let n := length (wait_table w) in
  match resolved with
  | Some (wait_durations, waits_timed_out) =>
      let* ls := Np.assign n (map label (wait_table w)) in
      let* ts := Np.assign n (map time (wait_table w)) in
      let* tos := Np.assign n (map timeout (wait_table w)) in
      let* ds := Np.assign n wait_durations in
      let* fs := Np.assign n waits_timed_out in
      Ok (records ls ts tos ds fs)
  | None => Ok (repeat blank n)
  end.

(** [hdf5_file.create_dataset('/data/waits', data=data)] *)
Definition create_data_waits (f : h5file) (data : list outcome) : result h5file :=
  match data_waits f with
  | Some _ => Raise (RuntimeError "Unable to create dataset (name already exists)")
  | None => Ok (mkFile (waits f) (waits_attrs f) (Some data))
  end.

(** [transition_to_manual(self, abort=False)]: the worker and the shot
    file afterwards, and how the call ends. *)
Definition transition_to_manual (w : worker) (f : h5file) (abort : bool)
  : worker * h5file * result bool :=
  let w := set_abort w abort in
  match stop_task w with
  | (w, Raise e) => (w, f, Raise e)
  | (w, Ok _) =>
      (* Reset the abort flag so that unexpected exceptions are still raised: *)
      let w := set_abort w false in
      if abort then (w, f, Ok true)
      else
        let monitoring := is_wait_monitor_device w && waits_in_use w in
        match (if monitoring
               then let* r := resolve (half_periods w) (wait_table w) in Ok (Some r)
               else Ok None) with
        | Raise e => (w, f, Raise e)
        | Ok resolved =>
            match (let* data := wait_data w resolved in
                   if is_wait_monitor_device w then create_data_waits f data
                   else Ok f) with
            | Raise e => (w, f, Raise e)
            | Ok f' =>
                if is_wait_monitor_device w
                then (emit w [Posted "wait_durations_analysed"], f', Ok true)
                else (w, f', Ok true)
            end
        end
  end.

(** *** The workers the class makes

    A worker is made by [init] and changed by the methods; the states of
    the file and the arguments are arbitrary. *)
Inductive made : worker -> Prop :=
  | made_init (MAX_name : string) : made (init MAX_name)
  | made_transition_to_buffered (w : worker) (device_name : string) (f : h5file) :
      made w -> made (fst (transition_to_buffered w device_name f))
  | made_send_resume_trigger (w : worker) (pulse_width : spec_float) :
      made w -> made (fst (send_resume_trigger w pulse_width))
  | made_transition_to_manual (w : worker) (f : h5file) (abort : bool) :
      made w -> made (fst (fst (transition_to_manual w f abort))).

End WaitMon.

(** ** NI_PCIe_6363 *)

Module NI_PCIe_6363.

(** The Python values that occur in capability tables and keyword
    arguments. *)
#[warnings="-register-all"]
Inductive value : Type :=
  | VFloat (x : spec_float)
  | VInt (z : Z)
  | VBool (b : bool)
  | VStr (s : string)
  | VList (l : list value)
  | VDict (d : list (string * value)).

Definition port (num_lines : Z) (supports_buffered : bool) : value :=
  VDict [("num_lines", VInt num_lines); ("supports_buffered", VBool supports_buffered)].

Definition CAPABILITIES : gmap string value :=
  list_to_map
    [("AO_range", VList [VFloat (F64.opp (F64.of_Z 10)); VFloat (F64.of_Z 10)]);
     ("max_AI_multi_chan_rate", VFloat (F64.of_Z 1000000));
     ("max_AI_single_chan_rate", VFloat (F64.of_Z 2000000));
     (* 2857142.8571428573 *)
     ("max_AO_sample_rate", VFloat (S754_finite false 6135667565714286 (-31)));
     ("max_DO_sample_rate", VFloat (F64.of_Z 10000000));
     ("num_AI", VInt 32);
     ("num_AO", VInt 4);
     ("num_CI", VInt 4);
     ("ports", VDict [("port0", port 32 true);
                      ("port1", port 8 false);
                      ("port2", port 8 false)]);
     ("supports_buffered_AO", VBool true);
     ("supports_buffered_DO", VBool true)].

(** [d.copy()]: a new dict with the same items. *)
Definition dict_copy (d : gmap string value) : gmap string value := d.

(** [d.update(other)]: every item of [other] is stored into [d]. *)
Definition dict_update (d other : gmap string value) : gmap string value :=
  map_fold (fun k v acc => <[k:=v]> acc) d other.

(** [NI_PCIe_6363.__init__(self, *args, **kwargs)]: the positional and
    keyword arguments handed to [NI_DAQmx.__init__]. *)
Definition init (args : list value) (kwargs : gmap string value)
  : list value * gmap string value :=
  (* Any provided kwargs take precedent over capabilities *)
  let combined_kwargs := dict_copy CAPABILITIES in
  let combined_kwargs := dict_update combined_kwargs kwargs in
  (args, combined_kwargs).

End NI_PCIe_6363.

(** ** NI_DAQmxAcquisitionWorker: a shot from start to end

    [init], [shutdown], [transition_to_buffered], [transition_to_manual]
    and the part of [extract_measurements] around its loop.  The order
    [sorted(set(chans), key=split_conn_AI)] depends on [split_conn_AI] of
    the package's [utils] module and is a parameter, [sorted_set]. *)

Module AcqShot.

(** [range(n)] *)
Definition py_range (n : Z) : list Z := map Z.of_nat (seq 0 (Z.to_nat n)).

(** The attributes the worker is created with. *)
Record config : Type := mkConfig {
  device_name : string;
  num_AI : Z
}.

(** The device's group of the shot file: its [AI] table, if it has one, and
    the [acquisition_rate] among its device properties. *)
Record device_group : Type := mkGroup {
  AI : option (list Acq.acquisition);
  acquisition_rate : option spec_float
}.

(** The shot file, as far as this worker reads and writes it: the device's
    group, the length of the [waits] table, the groups created under
    [/data], the table [/data/waits] and the datasets of [/data/traces]. *)
Record h5file : Type := mkFile {
  device : option device_group;
  n_waits : nat;
  data_groups : list string;
  data_waits : option (list Acq.wait);
  traces : option (list (string * Acq.series))
}.

(** [['ai%d' % i for i in range(self.num_AI)]] *)
Definition manual_mode_chans (cfg : config) : list string :=
  map (fun i : Z => "ai" +:+ pretty i) (py_range (num_AI cfg)).

Definition manual_mode_rate : spec_float := F64.of_Z 1000.

(** The per-shot attributes replaced, the others kept. *)
Definition with_shot (w : Acq.worker) (mode : bool) (file : option string)
    (data : option (list (list Acq.row))) (rate : option spec_float)
    (chans : option (list string)) : Acq.worker :=
  Acq.mkWorker (Acq.AI_start_delay w) (Acq.task w) (Acq.read_array w) mode file
               data rate chans (Acq.next_handle w).

(** [init(self)], for a worker with the given start delay and a driver
    whose next task gets the given handle. *)
Definition init (cfg : config) (AI_start_delay : spec_float) (next_handle : Z)
  : result Acq.worker :=
  let w := Acq.mkWorker AI_start_delay None None false None None None None
                        next_handle in
  Acq.start_task w (manual_mode_chans cfg) manual_mode_rate.

(** [shutdown(self)] *)
Definition shutdown (w : Acq.worker) : result Acq.worker :=
  match Acq.task w with
  | Some _ => Acq.stop_task w
  | None => Ok w
  end.

(** [np.concatenate(chunks)] along the first axis. *)
Definition concatenate (chunks : option (list (list Acq.row))) : result (list Acq.row) :=
  match chunks with
  | None => Raise (TypeError "'NoneType' object is not iterable")
  | Some [] => Raise (ValueError "need at least one array to concatenate")
  | Some cs => Ok (concat cs)
  end.

(** [rows.view(dtype)] with one binary32 field per channel, reshaped to one
    dimension: the rows must be as wide as there are channels and the
    names distinct; the field of the [j]-th channel is the [j]-th column. *)
Definition view (chans : list string) (rows : list Acq.row)
  : result (gmap string (list spec_float)) :=
  if negb (bool_decide (NoDup chans)) then
    Raise (ValueError "field occurs more than once")
  else if forallb (fun r : Acq.row => Nat.eqb (length r) (length chans)) rows then
    Ok (list_to_map
          (imap (fun j c => (c, map (fun r : Acq.row => nth j r F64.zero) rows)) chans))
  else Raise (ValueError "When changing to a larger dtype, its size must be a divisor of the total size in bytes of the last axis of the array.").

(** [extract_measurements(self, raw_data, waits_in_use)]: the file
    afterwards and how the call ends.  Waiting for the event
    [wait_durations_analysed] is not embedded. *)
Definition extract_measurements (cfg : config) (w : Acq.worker) (f : h5file)
    (raw_data : gmap string (list spec_float)) (waits_in_use : bool)
  : h5file * result unit :=
  match (if waits_in_use then
           match data_waits f with
           | Some ws => Ok (Some ws)
           | None => Raise (KeyError "/data/waits")
           end
         else Ok None) with
  | Raise e => (f, Raise e)
  | Ok waits =>
      match device f ≫= AI with
      | None => (f, Ok tt)   (* No acquisitions! *)
      | Some acquisitions =>
          let measurements := default [] (traces f) in
          match acquisitions, Acq.buffered_rate w with
          | [], _ =>
              (mkFile (device f) (n_waits f) (data_groups f) (data_waits f)
                      (Some measurements), Ok tt)
          | _ :: _, None =>
              (mkFile (device f) (n_waits f) (data_groups f) (data_waits f)
                      (Some measurements),
               Raise (TypeError "unsupported operand type(s) for *: 'NoneType' and 'float'"))
          | _ :: _, Some rate =>
              let '(measurements', e) :=
                Acq.extract_measurements rate (Acq.AI_start_delay w) waits raw_data
                  acquisitions measurements in
              (mkFile (device f) (n_waits f) (data_groups f) (data_waits f)
                      (Some measurements'),
               match e with
               | Some e => Raise e
               | None => Ok tt
               end)
          end
      end
  end.

(** [transition_to_manual(self, abort=False)]: the worker and the file
    afterwards, and the value returned or the exception raised. *)
Definition transition_to_manual (cfg : config) (w : Acq.worker) (f : h5file)
    (abort : bool) : Acq.worker * h5file * result (option bool) :=
  if negb (Acq.buffered_mode w) then (w, f, Ok None)
  else
    match Acq.stop_task w with
    | Raise e => (w, f, Raise e)
    | Ok w1 =>
        let w2 := with_shot w1 false (Acq.h5_file w1) (Acq.acquired_data w1)
                    (Acq.buffered_rate w1) (Acq.buffered_chans w1) in
        match Acq.start_task w2 (manual_mode_chans cfg) manual_mode_rate with
        | Raise e => (w2, f, Raise e)
        | Ok w3 =>
            if abort then (with_shot w3 false None None None None, f, Ok None)
            else
              match Acq.h5_file w3 with
              | None => (w3, f, Raise (TypeError "expected str, bytes or os.PathLike object, not NoneType"))
              | Some _ =>
                  if existsb (String.eqb (device_name cfg)) (data_groups f) then
                    (w3, f, Raise (ValueError "Unable to create group (name already exists)"))
                  else
                    let f1 := mkFile (device f) (n_waits f)
                                (data_groups f ++ [device_name cfg])
                                (data_waits f) (traces f) in
                    let waits_in_use := Nat.ltb 0 (n_waits f) in
                    match Acq.buffered_chans w3 with
                    | None => (w3, f1, Raise (TypeError "'NoneType' object is not iterable"))
                    | Some chans =>
                        match (let* rows := concatenate (Acq.acquired_data w3) in
                               view chans rows) with
                        | Raise e => (w3, f1, Raise e)
                        | Ok raw_data =>
                            let w4 := with_shot w3 false (Acq.h5_file w3) None
                                        (Acq.buffered_rate w3) None in
                            let '(f2, r) :=
                              extract_measurements cfg w4 f1 raw_data waits_in_use in
                            match r with
                            | Raise e => (w4, f2, Raise e)
                            | Ok _ =>
                                (with_shot w4 false None None None None, f2,
                                 Ok (Some true))
                            end
                        end
                    end
              end
        end
    end.

Section Sorted.

(** [sorted_set chans] stands for [sorted(set(chans), key=split_conn_AI)]. *)
Variable sorted_set : list string -> list string.

(** [transition_to_buffered(self, device_name, h5file, initial_values, fresh)] *)
Definition transition_to_buffered (w : Acq.worker) (device_name path : string)
    (f : h5file) : Acq.worker * result unit :=
  match device f with
  | None => (w, Raise (KeyError ("/devices/" +:+ device_name)))
  | Some group =>
      match AI group with
      | None => (w, Ok tt)   (* No acquisition *)
      | Some AI_table =>
          let chans := map Acq.connection AI_table in
          let w1 := with_shot w (Acq.buffered_mode w) (Some path)
                      (Acq.acquired_data w) (Acq.buffered_rate w)
                      (Some (sorted_set chans)) in
          match acquisition_rate group with
          | None => (w1, Raise (KeyError "acquisition_rate"))
          | Some rate =>
              let w2 := with_shot w1 (Acq.buffered_mode w1) (Acq.h5_file w1)
                          (Some []) (Some rate) (Acq.buffered_chans w1) in
              match Acq.stop_task w2 with
              | Raise e => (w2, Raise e)
              | Ok w3 =>
                  let w4 := with_shot w3 true (Acq.h5_file w3) (Acq.acquired_data w3)
                              (Acq.buffered_rate w3) (Acq.buffered_chans w3) in
                  match Acq.start_task w4 (sorted_set chans) rate with
                  | Raise e => (w4, Raise e)
                  | Ok w5 => (w5, Ok tt)
                  end
              end
          end
      end
  end.

End Sorted.

(** [abort_buffered] and [abort_transition_to_buffered] *)
Definition abort_buffered (cfg : config) (w : Acq.worker) (f : h5file)
  : Acq.worker * h5file * result (option bool) :=
  transition_to_manual cfg w f true.

End AcqShot.

(** ** NI_DAQmxOutputWorker

    The worker object is threaded through the methods by a state monad
    whose computations can raise; every call into the driver is appended to
    a log.  The driver is taken to accept every call, except
    [WaitUntilTaskDone], whose outcome [transition_to_manual] handles.
    Three things come from outside this file and are parameters: the list
    [sorted(self.ports, key=split_conn_port)], with [split_conn_port] from
    the package's [utils] module, and numpy's conversions of a front panel
    value on assignment into the [float64] and [uint8] arrays.  A table of
    the shot file has at least one column, and the columns of the [AO] table
    share one floating point type, so that [astype(np.float64)] keeps every
    value.  The bit test of [program_buffered_DO] is the one on integers,
    which is what numpy computes for a line below the width of the port's
    sample type. *)

Module Out.

(** An entry of [self.ports]. *)
Record port : Type := mkPort {
  num_lines : Z;
  supports_buffered : bool
}.

(** The attributes the worker is created with; [ports] is the dict in its
    insertion order. *)
Record config : Type := mkConfig {
  MAX_name : string;
  num_AO : Z;
  ports : list (string * port);
  Vmin : spec_float;
  Vmax : spec_float;
  static_AO : bool;
  static_DO : bool;
  clock_terminal : string;
  clock_mirror_terminal : option string;
  clock_limit : spec_float;
  DO_hardware_names : list string
}.

(** Calls into the driver and the logger, with the arguments that vary. *)
Inductive call : Type :=
  | Task (t : nat)
  | CreateAOVoltageChan (t : nat) (con : string) (vmin vmax : spec_float)
  | CreateDOChan (t : nat) (con : string)
  | StartTask (t : nat)
  | StopTask (t : nat)
  | ClearTask (t : nat)
  | WaitUntilTaskDone (t : nat)
  | CfgSampClkTiming (t : nat) (terminal : string) (rate : spec_float) (npts : Z)
  | WriteAnalogF64 (t : nat) (npts : Z) (autostart : bool) (data : list (list spec_float))
  | WriteDigitalLines (t : nat) (data : list Z)
  | WriteDigital (bits : Z) (t : nat) (npts : Z) (data : list Z)
  | ConnectTerms (a b : string)
  | DisconnectTerms (a b : string)
  | Info (name : string) (current total : Z).

(** What the driver answers: its version, and at the end of a shot whether
    a task is done within the second [WaitUntilTaskDone] allows, and the two
    unsigned 64-bit counters that are logged. *)
Record driver : Type := mkDriver {
  version : Z * Z * Z;
  task_done : nat -> bool;
  write_pos : nat -> Z;
  generated : nat -> Z
}.

(** What a method can raise: one of the exceptions above, an
    [IndexError], the [Exception] of [check_version] for a version, or the
    error that [WaitUntilTaskDone] raises for a task. *)
Inductive error : Type :=
  | Python (e : exn)
  | IndexError (msg : string)
  | Exception (major minor patch : Z)
  | DAQError (t : nat).

Inductive outcome (A : Type) : Type :=
  | Return (a : A)
  | Throw (e : error).
Arguments Return {A} a.
Arguments Throw {A} e.

(** The sample type of a column of the [DO] table. *)
Inductive dtype : Type := U8 | U16 | U32 | OtherType.

(** The [DO] table: a column name and sample type per port, and the rows. *)
Record DO_table : Type := mkDO {
  DO_names : list (string * dtype);
  DO_rows : list (list Z)
}.

(** The [AO] table: a column name per channel, and the rows. *)
Record AO_table : Type := mkAO {
  AO_names : list string;
  AO_rows : list (list spec_float)
}.

(** The device's group of the shot file. *)
Record group : Type := mkGroup {
  AO : option AO_table;
  DO : option DO_table
}.

(** A final value: an [int] for a digital line, a float for an analog
    output. *)
Inductive final : Type :=
  | Line (v : Z)
  | Volts (x : spec_float).

(** [range(n)] *)
Definition py_range (n : Z) : list Z := map Z.of_nat (seq 0 (Z.to_nat n)).

(** The line ranges of a port, in multiples of 8. *)
Definition do_ranges (num_lines : Z) : list (Z * Z) :=
  let ranges := map (fun i => (8 * i, 8 * i + 7)) (py_range (num_lines / 8)) in
  let div := num_lines / 8 in
  let remainder := num_lines mod 8 in
  if remainder =? 0 then ranges
  else ranges ++ [(div * 8, div * 8 + remainder - 1)].

(** [sep.join(l)] *)
Fixpoint join (sep : string) (l : list string) : string :=
  match l with
  | [] => EmptyString
  | [x] => x
  | x :: r => x +:+ sep +:+ join sep r
  end.

(** ['%s/line%d' % (port_str, line)] *)
Definition line_name (port_str : string) (line : Z) : string :=
  port_str +:+ "/line" +:+ pretty line.

(** [int(bool((1 << line) & value))] *)
Definition line_value (value line : Z) : Z :=
  if Z.land (Z.shiftl 1 line) value =? 0 then 0 else 1.

(** [d.get(key)] on a dict kept as the list of its items. *)
Definition dict_get {A : Type} (d : list (string * A)) (key : string) : option A :=
  snd <$> find (fun kv => String.eqb (fst kv) key) d.

(** The width of the write method of a sample type, if there is one. *)
Definition width (ty : dtype) : option Z :=
  match ty with
  | U8 => Some 8
  | U16 => Some 16
  | U32 => Some 32
  | OtherType => None
  end.

(** The column of a table at position [j]. *)
Definition column {A : Type} (d : A) (rows : list (list A)) (j : nat) : list A :=
  map (fun r => nth j r d) rows.

Section Worker.

(** The type of front panel values and numpy's conversions on assignment. *)
Variable value : Type.
Variable as_float64 : value -> spec_float.
Variable as_uint8 : value -> Z.

(** [sorted_ports keys] stands for [sorted(self.ports, key=split_conn_port)],
    which raises when [split_conn_port] does. *)
Variable sorted_ports : list string -> result (list string).

Record worker : Type := mkWorker {
  AO_task : option nat;
  DO_task : option nat;
  AO_data : option (list spec_float);
  DO_data : option (list Z);
  initial_values : option (gmap string value);
  (** the number the next [Task()] is known by *)
  next_task : nat;
  log : list call
}.

(** *** The monad *)

Definition M (A : Type) : Type := worker -> worker * outcome A.

Definition ret {A : Type} (a : A) : M A := fun w => (w, Return a).

Definition throw {A : Type} (e : error) : M A := fun w => (w, Throw e).

Definition raise {A : Type} (e : exn) : M A := throw (Python e).

Definition bind {A B : Type} (m : M A) (k : A -> M B) : M B :=
  fun w =>
    match m w with
    | (w1, Return a) => k a w1
    | (w1, Throw e) => (w1, Throw e)
    end.

Notation "'let+' x ':=' m 'in' k" := (bind m (fun x => k))
  (at level 10, x pattern, m at level 100, k at level 200).

Definition get : M worker := fun w => (w, Return w).

Definition emit (c : call) : M unit :=
  fun w => (mkWorker (AO_task w) (DO_task w) (AO_data w) (DO_data w)
                     (initial_values w) (next_task w) (log w ++ [c]), Return tt).

(** [Task()] *)
Definition new_task : M nat :=
  fun w => (mkWorker (AO_task w) (DO_task w) (AO_data w) (DO_data w)
                     (initial_values w) (S (next_task w))
                     (log w ++ [Task (next_task w)]), Return (next_task w)).

Definition set_AO_task (t : option nat) : M unit :=
  fun w => (mkWorker t (DO_task w) (AO_data w) (DO_data w) (initial_values w)
                     (next_task w) (log w), Return tt).

Definition set_DO_task (t : option nat) : M unit :=
  fun w => (mkWorker (AO_task w) t (AO_data w) (DO_data w) (initial_values w)
                     (next_task w) (log w), Return tt).

Definition set_AO_data (d : list spec_float) : M unit :=
  fun w => (mkWorker (AO_task w) (DO_task w) (Some d) (DO_data w) (initial_values w)
                     (next_task w) (log w), Return tt).

Definition set_DO_data (d : list Z) : M unit :=
  fun w => (mkWorker (AO_task w) (DO_task w) (AO_data w) (Some d) (initial_values w)
                     (next_task w) (log w), Return tt).

Definition set_initial_values (v : gmap string value) : M unit :=
  fun w => (mkWorker (AO_task w) (DO_task w) (AO_data w) (DO_data w) (Some v)
                     (next_task w) (log w), Return tt).

(** A [for] loop. *)
Fixpoint for_each {A : Type} (l : list A) (body : A -> M unit) : M unit :=
  match l with
  | [] => ret tt
  | x :: r => let+ _ := body x in for_each r body
  end.

(** A value that must not be [None]. *)
Definition the {A : Type} (o : option A) (e : exn) : M A :=
  match o with
  | Some a => ret a
  | None => raise e
  end.

Definition lift {A : Type} (r : result A) : M A :=
  match r with
  | Ok a => ret a
  | Raise e => raise e
  end.

(** [d[key]] *)
Definition item {A : Type} (d : list (string * A)) (key : string) : M A :=
  the (dict_get d key) (KeyError key).

Definition no_attribute : exn :=
  AttributeError "object has no attribute".

(** [a[-1]] *)
Definition last_row {A : Type} (rows : list A) : M A :=
  match last rows with
  | Some r => ret r
  | None => throw (IndexError "index -1 is out of bounds for axis 0 with size 0")
  end.

(** *** stop_and_clear_tasks, shutdown *)

Definition stop_and_clear_tasks : M unit :=
  let+ w := get in
  let+ _ := match AO_task w with
            | Some t => let+ _ := emit (StopTask t) in
                        let+ _ := emit (ClearTask t) in
                        set_AO_task None
            | None => ret tt
            end in
  let+ w := get in
  match DO_task w with
  | Some t => let+ _ := emit (StopTask t) in
              let+ _ := emit (ClearTask t) in
              set_DO_task None
  | None => ret tt
  end.

Definition shutdown : M unit := stop_and_clear_tasks.

(** *** check_version *)

Definition check_version (drv : driver) : M unit :=
  let '(major, minor, patch) := version drv in
  if (major =? 14) && (minor <? 2) then throw (Exception major minor patch)
  else ret tt.

(** *** setup_manual_mode_tasks *)

Definition setup_manual_mode_tasks (cfg : config) : M unit :=
  (* Create tasks: *)
  let+ _ := if 0 <? num_AO cfg then
              let+ t := new_task in
              let+ _ := set_AO_task (Some t) in
              set_AO_data (repeat F64.zero (Z.to_nat (num_AO cfg)))
            else set_AO_task None in
  let+ _ := match ports cfg with
            | _ :: _ =>
                let num_DO := foldr Z.add 0 (map (fun kv => num_lines (snd kv)) (ports cfg)) in
                let+ t := new_task in
                let+ _ := set_DO_task (Some t) in
                if num_DO <? 0 then raise (ValueError "negative dimensions are not allowed")
                else set_DO_data (repeat 0 (Z.to_nat num_DO))
            | [] => set_DO_task None
            end in
  (* Setup AO channels *)
  let+ _ := for_each (py_range (num_AO cfg)) (fun i =>
              let con := MAX_name cfg +:+ "/ao" +:+ pretty i in
              let+ w := get in
              let+ t := the (AO_task w) no_attribute in
              emit (CreateAOVoltageChan t con (Vmin cfg) (Vmax cfg))) in
  (* Setup DO channels *)
  let+ names := lift (sorted_ports (map fst (ports cfg))) in
  let+ _ := for_each names (fun port_str =>
              let+ p := item (ports cfg) port_str in
              (* need to create chans in multiples of 8: *)
              for_each (do_ranges (num_lines p)) (fun '(start, stop) =>
                let con := MAX_name cfg +:+ "/" +:+ port_str +:+ "/line"
                           +:+ pretty start +:+ ":" +:+ pretty stop in
                let+ w := get in
                let+ t := the (DO_task w) no_attribute in
                emit (CreateDOChan t con))) in
  (* Start tasks: *)
  let+ w := get in
  let+ _ := match AO_task w with
            | Some t => emit (StartTask t)
            | None => ret tt
            end in
  match DO_task w with
  | Some t => emit (StartTask t)
  | None => ret tt
  end.

(** *** init *)

Definition init (cfg : config) (drv : driver) : M unit :=
  let+ _ := check_version drv in
  setup_manual_mode_tasks cfg.

(** *** program_manual *)

(** [a[i] = v] on an array attribute, for an index that is not negative. *)
Definition store {A : Type} (a : option (list A)) (i : nat) (v : A) : M (list A) :=
  let+ l := the a no_attribute in
  if Nat.ltb i (length l) then ret (<[i:=v]> l)
  else throw (IndexError "index is out of bounds for axis 0").

Definition program_manual (cfg : config) (front_panel_values : gmap string value)
  : M unit :=
  let+ _ := for_each (py_range (num_AO cfg)) (fun i =>
              let+ v := the (front_panel_values !! ("ao" +:+ pretty i))
                            (KeyError ("ao" +:+ pretty i)) in
              let+ w := get in
              let+ d := store (AO_data w) (Z.to_nat i) (as_float64 v) in
              set_AO_data d) in
  let+ w := get in
  let+ _ := match AO_task w with
            | Some t =>
                let+ d := the (AO_data w) no_attribute in
                emit (WriteAnalogF64 t 1 true [d])
            | None => ret tt
            end in
  let+ _ := for_each (imap (fun i conn => (i, conn)) (DO_hardware_names cfg))
              (fun '(i, conn) =>
                 let+ v := the (front_panel_values !! conn) (KeyError conn) in
                 let+ w := get in
                 let+ d := store (DO_data w) i (as_uint8 v) in
                 set_DO_data d) in
  let+ w := get in
  match DO_task w with
  | Some t =>
      let+ d := the (DO_data w) no_attribute in
      emit (WriteDigitalLines t d)
  | None => ret tt
  end.

(** *** get_output_tables, set_mirror_clock_terminal_connected *)

Definition get_output_tables (device : option group) (device_name : string)
  : M (option AO_table * option DO_table) :=
  let+ g := the device (KeyError device_name) in
  ret (AO g, DO g).

Definition set_mirror_clock_terminal_connected (cfg : config) (connected : bool)
  : M unit :=
  match clock_mirror_terminal cfg with
  | None => ret tt
  | Some mirror =>
      if connected then emit (ConnectTerms (clock_terminal cfg) mirror)
      else emit (DisconnectTerms (clock_terminal cfg) mirror)
  end.

(** *** program_buffered_DO *)

(** [write_methods[data.dtype.type]]: the width of the write method. *)
Definition write_method (ty : dtype) : M Z :=
  the (width ty) (KeyError "dtype").

(** The lines of one port, stored into [final_values]. *)
Definition port_final_values (port_str : string) (num_lines port_final_value : Z)
    (final_values : gmap string final) : gmap string final :=
  fold_left (fun fv line =>
               <[line_name port_str line := Line (line_value port_final_value line)]> fv)
            (py_range num_lines) final_values.

(** The first loop over the ports: channels and final values. *)
Fixpoint collect_DO (cfg : config) (t : nat) (table : DO_table)
    (names : list (nat * string)) (final_values : gmap string final)
  : M (gmap string final) :=
  match names with
  | [] => ret final_values
  | (j, port_str) :: rest =>
      let con := MAX_name cfg +:+ "/" +:+ port_str in
      let+ _ := emit (CreateDOChan t con) in
      (* Collect the final values of the lines on this port: *)
      let+ port_final_value := last_row (column 0 (DO_rows table) j) in
      let+ p := item (ports cfg) port_str in
      collect_DO cfg t table rest
        (port_final_values port_str (num_lines p) port_final_value final_values)
  end.

Definition indexed_names (table : DO_table) : list (nat * (string * dtype)) :=
  imap (fun j n => (j, n)) (DO_names table).

Definition program_buffered_DO (cfg : config) (table : option DO_table)
  : M (gmap string final) :=
  match table with
  | None => ret ∅
  | Some table =>
      let+ t := new_task in
      let+ _ := set_DO_task (Some t) in
      let+ final_values :=
        collect_DO cfg t table
          (map (fun jn => (fst jn, fst (snd jn))) (indexed_names table)) ∅ in
      let+ _ :=
        if static_DO cfg then
          (* Static DO. Start the task and write data, no timing configuration. *)
          let+ _ := emit (StartTask t) in
          for_each (indexed_names table) (fun '(j, (_, ty)) =>
            let data := column 0 (DO_rows table) j in
            let+ bits := write_method ty in
            emit (WriteDigital bits t 1 data))
        else
          let npts := Z.of_nat (length (DO_rows table)) - 1 in
          let+ _ := emit (CfgSampClkTiming t (clock_terminal cfg) (clock_limit cfg) npts) in
          let+ _ := for_each (indexed_names table) (fun '(j, (_, ty)) =>
                      (* All but the last sample as mentioned above *)
                      let data := removelast (column 0 (DO_rows table) j) in
                      let+ bits := write_method ty in
                      emit (WriteDigital bits t npts data)) in
          (* Go! *)
          emit (StartTask t) in
      ret final_values
  end.

(** *** program_buffered_AO *)

Definition program_buffered_AO (cfg : config) (table : option AO_table)
  : M (gmap string final) :=
  match table with
  | None => ret ∅
  | Some table =>
      let+ t := new_task in
      let+ _ := set_AO_task (Some t) in
      let channels := join ", " (map (fun c => MAX_name cfg +:+ "/" +:+ c) (AO_names table)) in
      let+ _ := emit (CreateAOVoltageChan t channels (Vmin cfg) (Vmax cfg)) in
      (* Collect the final values of the analog outs: *)
      let+ final_row := last_row (AO_rows table) in
      let final_values : gmap string final :=
        list_to_map (reverse (zip (AO_names table) (map Volts final_row))) in
      (* The table as a regular array of 64 bit floats: *)
      let data := AO_rows table in
      let+ _ :=
        if static_AO cfg then
          let+ _ := emit (StartTask t) in
          emit (WriteAnalogF64 t 1 true data)
        else
          let npts := Z.of_nat (length (AO_rows table)) - 1 in
          let+ _ := emit (CfgSampClkTiming t (clock_terminal cfg) (clock_limit cfg) npts) in
          let+ _ := emit (WriteAnalogF64 t npts false (removelast data)) in
          emit (StartTask t) in
      ret final_values
  end.

(** *** transition_to_buffered *)

(** [d.update(other)] *)
Definition update (d other : gmap string final) : gmap string final := other ∪ d.

Definition transition_to_buffered (cfg : config) (device_name : string)
    (device : option group) (initial : gmap string value) : M (gmap string final) :=
  (* Store the initial values in case we have to abort and restore them: *)
  let+ _ := set_initial_values initial in
  (* Stop the manual mode output tasks, if any: *)
  let+ _ := stop_and_clear_tasks in
  (* Get the data to be programmed into the output tasks: *)
  let+ tables := get_output_tables device device_name in
  (* Mirror the clock terminal, if applicable: *)
  let+ _ := set_mirror_clock_terminal_connected cfg true in
  (* Program the output tasks and retrieve the final values of each output: *)
  let+ DO_final_values := program_buffered_DO cfg (snd tables) in
  let+ AO_final_values := program_buffered_AO cfg (fst tables) in
  let final_values := update (update ∅ DO_final_values) AO_final_values in
  ret final_values.

(** *** transition_to_manual *)

(** The counter as it is logged: the all-ones value reads as -1. *)
Definition logged (v : Z) : Z := if v =? 2 ^ 64 - 1 then -1 else v.

(** The body of the loop over the buffered tasks. *)
Definition finish_task (drv : driver) (abort : bool) (entry : nat * bool * string)
  : M unit :=
  let '(t, static, name) := entry in
  let+ _ :=
    if abort then ret tt
    else
      let+ _ :=
        if static then ret tt
        else
          (* Wait for task completion with a 1 second timeout: *)
          let+ _ := emit (WaitUntilTaskDone t) in
          (* Log where we were up to in sample generation, regardless of
             whether the above succeeded: *)
          let current := logged (generated drv t) in
          let total := logged (write_pos drv t) in
          let+ _ := emit (Info name current total) in
          if task_done drv t then ret tt else throw (DAQError t) in
      emit (StopTask t) in
  emit (ClearTask t).

(** The list [tasks] that [transition_to_manual] builds. *)
Definition held_tasks (cfg : config) (w : worker) : list (nat * bool * string) :=
  match AO_task w with
  | Some t => [(t, static_AO cfg, "AO")]
  | None => []
  end ++
  match DO_task w with
  | Some t => [(t, static_DO cfg, "DO")]
  | None => []
  end.

Definition transition_to_manual (cfg : config) (drv : driver) (abort : bool) : M bool :=
  let+ w := get in
  let tasks := held_tasks cfg w in
  let+ _ := set_AO_task None in
  let+ _ := set_DO_task None in
  let+ _ := for_each tasks (finish_task drv abort) in
  (* Remove the mirroring of the clock terminal, if applicable: *)
  let+ _ := set_mirror_clock_terminal_connected cfg false in
  (* Set up manual mode tasks again: *)
  let+ _ := setup_manual_mode_tasks cfg in
  let+ _ :=
    if abort then
      (* Reprogram the initial states: *)
      let+ w := get in
      let+ init := the (initial_values w) no_attribute in
      program_manual cfg init
    else ret tt in
  ret true.

Definition abort_transition_to_buffered (cfg : config) (drv : driver) : M bool :=
  transition_to_manual cfg drv true.

Definition abort_buffered (cfg : config) (drv : driver) : M bool :=
  transition_to_manual cfg drv true.

End Worker.

Arguments AO_task {value} w.
Arguments DO_task {value} w.
Arguments AO_data {value} w.
Arguments DO_data {value} w.
Arguments initial_values {value} w.
Arguments next_task {value} w.
Arguments log {value} w.
Arguments mkWorker {value}.
Arguments ret {value A} a w.
Arguments throw {value A} e w.
Arguments raise {value A} e w.
Arguments bind {value A B} m k w.
Arguments get {value} w.
Arguments emit {value} c w.
Arguments new_task {value} w.
Arguments set_AO_task {value} t w.
Arguments set_DO_task {value} t w.
Arguments set_AO_data {value} d w.
Arguments set_DO_data {value} d w.
Arguments set_initial_values {value} v w.
Arguments for_each {value A} l body w.
Arguments the {value A} o e w.
Arguments lift {value A} r w.
Arguments item {value A} d key w.
Arguments last_row {value A} rows w.
Arguments stop_and_clear_tasks {value} w.
Arguments shutdown {value} w.
Arguments check_version {value} drv w.
Arguments setup_manual_mode_tasks {value} sorted_ports cfg w.
Arguments init {value} sorted_ports cfg drv w.
Arguments store {value A} a i v w.
Arguments program_manual {value} as_float64 as_uint8 cfg front_panel_values w.
Arguments get_output_tables {value} device device_name w.
Arguments set_mirror_clock_terminal_connected {value} cfg connected w.
Arguments write_method {value} ty w.
Arguments collect_DO {value} cfg t table names final_values w.
Arguments program_buffered_DO {value} cfg table w.
Arguments program_buffered_AO {value} cfg table w.
Arguments transition_to_buffered {value} cfg device_name device initial w.
Arguments finish_task {value} drv abort entry w.
Arguments held_tasks {value} cfg w.
Arguments transition_to_manual {value} as_float64 as_uint8 sorted_ports cfg drv abort w.
Arguments abort_transition_to_buffered {value} as_float64 as_uint8 sorted_ports cfg drv w.
Arguments abort_buffered {value} as_float64 as_uint8 sorted_ports cfg drv w.

End Out.

(** ** Vocabulary for the properties of the output worker *)

(** The lines a range [(start, stop)] names. *)
Definition lines_of (r : Z * Z) : list Z := seqZ (fst r) (snd r - fst r + 1).

(** The characters of a string. *)
Definition chars (s : string) : list Ascii.ascii := list_ascii_of_string s.

(** A string of decimal digits holds no letter e. *)
Definition no_e (s : string) : Prop :=
  Forall (fun c => c <> Ascii.Ascii true false true false false true true false) (chars s).

(** The worker with another log. *)
Definition with_log {value : Type} (w : Out.worker value) (l : list Out.call)
  : Out.worker value :=
  Out.mkWorker (Out.AO_task w) (Out.DO_task w) (Out.AO_data w) (Out.DO_data w)
               (Out.initial_values w) (Out.next_task w) l.

(** What the first loop of [program_buffered_DO] needs of a column. *)
Definition column_ok (cfg : Out.config) (table : Out.DO_table) (jn : nat * string) : Prop :=
  exists v p, last (Out.column 0 (Out.DO_rows table) (fst jn)) = Some v
              /\ Out.dict_get (Out.ports cfg) (snd jn) = Some p.

(** A column of the [DO] table that [program_buffered_DO] can program: a port
    of the device, with a sample type that has a write method and holds
    every line of the port. *)
Definition programmable (cfg : Out.config) (n : string * Out.dtype) : Prop :=
  exists p b, Out.dict_get (Out.ports cfg) (fst n) = Some p
              /\ Out.width (snd n) = Some b /\ Out.num_lines p <= b.

(** [m] only adds calls that satisfy [P] to the log, whether it returns or
    raises. *)
Definition emits {value A : Type} (P : Out.call -> Prop) (m : Out.M value A) : Prop :=
  forall w, exists s, Out.log (fst (m w)) = Out.log w ++ s /\ Forall P s.

(** The calls that create and start a task. *)
Definition creates (c : Out.call) : Prop :=
  match c with
  | Out.Task _ | Out.CreateAOVoltageChan _ _ _ _ | Out.CreateDOChan _ _
  | Out.StartTask _ => True
  | _ => False
  end.

(** The calls that create, start or program a task, as opposed to those
    that wait for, stop or clear one. *)
Definition sets_up (c : Out.call) : Prop :=
  match c with
  | Out.StopTask _ | Out.ClearTask _ | Out.WaitUntilTaskDone _ => False
  | _ => True
  end.

(** The calls that bring the manual mode back without programming an
    output. *)
Definition restarts (c : Out.call) : Prop :=
  match c with
  | Out.DisconnectTerms _ _ => True
  | _ => creates c
  end.

(** The calls [transition_to_manual] makes for one task at the end of a shot
    that is not aborted. *)
Definition finish_calls (drv : Out.driver) (e : nat * bool * string) : list Out.call :=
  let '(t, static, name) := e in
  (if static then []
   else [Out.WaitUntilTaskDone t;
         Out.Info name (Out.logged (Out.generated drv t)) (Out.logged (Out.write_pos drv t))])
  ++ [Out.StopTask t; Out.ClearTask t].

(** The task of an entry has finished its output: it is static, or the
    driver reports it done. *)
Definition finished (drv : Out.driver) (e : nat * bool * string) : Prop :=
  snd (fst e) = true \/ Out.task_done drv (fst (fst e)) = true.

(** * Scenarios

    Concrete workers, shot files and environments on which the models are
    evaluated below. *)

Module Scenario.

(** A buffered-mode acquisition on one channel: a running task with
    handle 1, one chunk already delivered by the callback, and two
    samples acquired by the device since. *)
Definition streaming_task : Acq.Task :=
  Acq.mkTask 1 ["ai0"] (F64.of_Z 1000) 200 true
             [[F64.dec 15 (-1)]; [F64.dec 25 (-1)]].

Definition streaming : Acq.worker :=
  Acq.mkWorker F64.zero (Some streaming_task)
               (Some (repeat [F64.zero] 200)) true (Some "shot.h5")
               (Some [[[F32.of_f64 (F64.dec 5 (-1))]]]) (Some (F64.of_Z 1000))
               (Some ["ai0"]) 2.

(** A wait-monitor worker before its first shot. *)
Definition idle_monitor : WaitMon.worker := WaitMon.init "ni_card".

Definition monitor_attrs (trigger_type : option string) : gmap string string :=
  let base : gmap string string :=
    list_to_map
      [("wait_monitor_acquisition_device", "ni_card");
       ("wait_monitor_acquisition_connection", "ctr0");
       ("wait_monitor_timeout_device", "ni_card");
       ("wait_monitor_timeout_connection", "port0/line0")] in
  match trigger_type with
  | Some v => <["wait_monitor_timeout_trigger_type" := v]> base
  | None => base
  end.

(** A single wait scheduled at 0.1 s with a 0.2 s timeout. *)
Definition one_wait : list WaitMon.wait_row :=
  [WaitMon.mkWaitRow "wait_a" (F64.dec 1 (-1)) (F64.dec 2 (-1))].


(** An edge wait during which the edge never comes and the abort flag is
    raised right after the wait has begun. *)
Definition abort_after_start : WaitMon.environment :=
  WaitMon.mkEnv (fun k => negb (Nat.eqb k 0)) (fun _ => None).

(** The shot file of a run with that single wait, before the run. *)
Definition shot_one_wait : WaitMon.h5file :=
  WaitMon.mkFile one_wait (monitor_attrs None) None.

(** The shot file of a run without waits; the attributes of the [waits]
    table still name this device as acquisition and timeout device. *)
Definition shot_no_waits : WaitMon.h5file :=
  WaitMon.mkFile [] (monitor_attrs None) None.

(** The half periods 0.1, 0.05, 0.2, 0.05 s. *)
Definition four_half_periods : list spec_float :=
  [F64.dec 1 (-1); F64.dec 5 (-2); F64.dec 2 (-1); F64.dec 5 (-2)].

(** The worker during the single-wait run. *)
Definition monitored : WaitMon.worker :=
  fst (WaitMon.transition_to_buffered idle_monitor "ni_card" shot_one_wait).

(** Equality of binary64 values up to 1e-15. *)
Definition close (x y : spec_float) : bool :=
  F64.ltb (F64.abs (F64.sub x y)) (F64.dec 1 (-15)).

Definition all_close (xs ys : list spec_float) : bool :=
  Nat.eqb (length xs) (length ys) && forallb (fun p => close (fst p) (snd p)) (zip xs ys).

(** An acquisition worker with no task. *)
Definition idle : Acq.worker :=
  Acq.mkWorker F64.zero None None false None None None None 1.

(** Ten samples 0, 1, ..., 9 of one channel, taken at 10 Hz from t = 0. *)
Definition ramp : list spec_float := map F64.of_Z [0; 1; 2; 3; 4; 5; 6; 7; 8; 9].

End Scenario.

(** Inputs for the further properties at the end of the file. *)

Module Example.

(** The streaming worker of above, in manual mode. *)
Definition manual_streaming : Acq.worker :=
  Acq.mkWorker F64.zero (Some Scenario.streaming_task)
               (Some (repeat [F64.zero] 200)) false None None None None 2.

(** A window from 0.2 s to 0.55 s in the ramp, whose samples are taken at
    10 Hz from t = 0. *)
Definition inner_window : spec_float * spec_float := (F64.dec 2 (-1), F64.dec 55 (-2)).

(** An edge wait during which the edge comes with the third read and the
    abort flag is never raised. *)
Definition edge_at_third_read : WaitMon.environment :=
  WaitMon.mkEnv (fun _ => false)
                (fun k => if Nat.eqb k 2 then Some (F64.dec 5 (-2)) else None).


(** A shot file that names another device as the timeout device and this
    one as the acquisition device. *)
Definition shot_acquisition_only : WaitMon.h5file :=
  WaitMon.mkFile Scenario.one_wait
    (<["wait_monitor_timeout_device" := "other_card"]> (Scenario.monitor_attrs None))
    None.

(** A shot file with a falling timeout trigger. *)
Definition shot_falling : WaitMon.h5file :=
  WaitMon.mkFile Scenario.one_wait (Scenario.monitor_attrs (Some "falling")) None.

(** An acquisition device with two inputs, and a shot that asks for one
    measurement on each at 1 kHz. *)
Definition two_inputs : AcqShot.config := AcqShot.mkConfig "ni_card" 2.

Definition shot_two_traces (rate : spec_float) : AcqShot.h5file :=
  AcqShot.mkFile
    (Some (AcqShot.mkGroup
             (Some [Acq.mkAcquisition "ai1" "probe" (F64.dec 1 (-1)) (F64.dec 2 (-1));
                    Acq.mkAcquisition "ai0" "pump" (F64.dec 1 (-1)) (F64.dec 3 (-1))])
             (Some rate)))
    0 [] None None.

(** A shot file without an [AI] table for the device. *)
Definition shot_no_acquisition : AcqShot.h5file :=
  AcqShot.mkFile (Some (AcqShot.mkGroup None (Some (F64.of_Z 1000)))) 0 [] None None.

(** The worker of that device after [init]: the manual-mode task runs. *)
Definition manual_worker : Acq.worker :=
  Acq.mkWorker F64.zero
    (Some (Acq.mkTask 1 ["ai0"; "ai1"] (F64.of_Z 1000) 200 false []))
    (Some (repeat [F64.zero; F64.zero] 200)) false None None None None 2.

(** An output card with the channels of the PCIe-6363, whose front panel
    values are booleans. *)
Definition output_card : Out.config :=
  Out.mkConfig "ni_card" 4
    [("port0", Out.mkPort 32 true); ("port1", Out.mkPort 8 false);
     ("port2", Out.mkPort 8 false)]
    (F64.of_Z (-10)) (F64.of_Z 10) false false "/ni_card/PFI0" None
    (F64.of_Z 1000000) ["port0/line0"; "port0/line1"].

Definition as_float64 (b : bool) : spec_float := F64.of_Z (Z.b2z b).

Definition as_uint8 (b : bool) : Z := Z.b2z b.

(** The ports of this card are listed in their order already. *)
Definition sorted_ports (keys : list string) : result (list string) := Ok keys.

(** The output worker before its first task. *)
Definition new_output_worker : Out.worker bool :=
  Out.mkWorker None None None None None 0 [].

(** The output worker during a shot: task 2 plays the analog table, task 3
    the digital one. *)
Definition output_worker_in_shot : Out.worker bool :=
  Out.mkWorker (Some 2%nat) (Some 3%nat) (Some (repeat F64.zero 4)) (Some (repeat 0 48))
               (Some ∅) 4 [].

(** A driver for which every task is done, and one for which task 3 is
    not; neither has generated a sample. *)
Definition driver_done : Out.driver :=
  Out.mkDriver (19, 0, 0) (fun _ => true) (fun _ => 2 ^ 64 - 1) (fun _ => 2 ^ 64 - 1).

Definition driver_busy : Out.driver :=
  Out.mkDriver (19, 0, 0) (fun t => negb (Nat.eqb t 3)) (fun _ => 3) (fun _ => 1).

(** A digital table of three samples on port 0, which ends with lines 1 and
    2 high. *)
Definition DO_table : Out.DO_table :=
  Out.mkDO [("port0", Out.U32)] [[5]; [6]; [6]].

(** An analog table of three samples on two channels. *)
Definition AO_table : Out.AO_table :=
  Out.mkAO ["ao0"; "ao1"]
    [[F64.zero; F64.of_Z 1]; [F64.dec 5 (-1); F64.of_Z 2]; [F64.dec 5 (-1); F64.of_Z 2]].

End Example.

(** * Properties *)

(** ** The chunk callback and stopping the stream *)

Lemma read_no_task (w : Acq.worker) (task_handle : Acq.pyval) (num_samples : Z) :
  Acq.task w = None -> Acq.read w task_handle num_samples = Ok (0, w).
Proof. intros H. unfold Acq.read. rewrite H. reflexivity. Qed.

Lemma read_other_handle (w : Acq.worker) (t : Acq.Task) (task_handle : Acq.pyval)
    (num_samples : Z) :
  Acq.task w = Some t ->
  Acq.py_ne task_handle (Acq.taskHandle t) = true ->
  Acq.read w task_handle num_samples = Ok (0, w).
Proof. intros H Hne. unfold Acq.read. rewrite H, Hne. reflexivity. Qed.

(** C9: a call of [read] that arrives when no task is active, or whose
    handle differs from the active task's handle value, returns 0, raises
    nothing and leaves every attribute of the worker as it was. *)
Theorem read_stale_handle_is_discarded (w : Acq.worker) (task_handle : Acq.pyval)
    (num_samples : Z) :
  Acq.task w = None \/
  (exists t, Acq.task w = Some t /\ Acq.py_ne task_handle (Acq.taskHandle t) = true) ->
  Acq.read w task_handle num_samples = Ok (0, w).
Proof.
  intros [Hnone | (t & Ht & Hne)].
  - now apply read_no_task.
  - now apply read_other_handle with t.
Qed.

Lemma read_stale_handle_is_discarded_witness :
  Acq.read Scenario.streaming (Acq.PyInt 7) 200 = Ok (0, Scenario.streaming).
Proof.
  apply read_stale_handle_is_discarded.
  right. exists Scenario.streaming_task. split; reflexivity.
Defined.

(** Whatever the device has acquired, [stop_task] clears the task and the
    staging array and changes nothing else: the [Task] object it hands to
    [read] never equals the integer handle, so [read] returns at once. *)
Lemma stop_task_running (w : Acq.worker) (t : Acq.Task) :
  Acq.task w = Some t -> Acq.stop_task w = Ok (Acq.set_task w None None).
Proof.
  intros H. unfold Acq.stop_task. rewrite H.
  rewrite (read_other_handle w t (Acq.PyTask t) (-1) H eq_refl).
  reflexivity.
Qed.

Lemma stop_task_not_running (w : Acq.worker) :
  Acq.task w = None -> Acq.stop_task w = Raise (RuntimeError "Task not running").
Proof. intros H. unfold Acq.stop_task. rewrite H. reflexivity. Qed.

(** C1: on the streaming worker, whose device holds two samples that no
    callback has delivered, [stop_task] ends with the accumulated data
    unchanged: the two samples are lost.  The same final read made with the
    integer handle appends them as one more chunk. *)
Theorem stop_task_drops_undelivered_samples :
  Acq.unread Scenario.streaming_task = [[F64.dec 15 (-1)]; [F64.dec 25 (-1)]] /\
  (exists w', Acq.stop_task Scenario.streaming = Ok w' /\
              Acq.task w' = None /\
              Acq.acquired_data w' = Acq.acquired_data Scenario.streaming) /\
  (exists w', Acq.read Scenario.streaming (Acq.PyInt 1) (-1) = Ok (0, w') /\
              Acq.acquired_data w' =
                Some [[[F32.of_f64 (F64.dec 5 (-1))]];
                      [[F32.of_f64 (F64.dec 15 (-1))]; [F32.of_f64 (F64.dec 25 (-1))]]]).
Proof.
  split; [reflexivity|]. split.
  - eexists. split; [eapply stop_task_running; reflexivity|]. split; reflexivity.
  - eexists. split; [vm_compute; reflexivity|]. vm_compute. reflexivity.
Qed.

(** ** The wait monitor's edge wait *)

Lemma wait_loop_polls (rt : spec_float) (env : WaitMon.environment) (k : nat) :
  forall start fuel : nat,
    (forall j : nat, (j < k)%nat ->
       WaitMon.abort_at env (start + j) = false /\
       WaitMon.read_at env (start + j) = None) ->
    WaitMon.abort_at env (start + k) = true ->
    (k < fuel)%nat ->
    WaitMon.wait_loop None rt env start fuel
    = (WaitMon.Raised (RuntimeError "Aborted"), repeat rt k).
Proof.
  induction k as [|k IH]; intros start fuel Hquiet Habort Hfuel.
  - destruct fuel as [|fuel]; [lia|]. simpl.
    rewrite Nat.add_0_r in Habort. rewrite Habort. reflexivity.
  - destruct fuel as [|fuel]; [lia|]. simpl.
    destruct (Hquiet 0%nat ltac:(lia)) as [Ha Hr].
    rewrite Nat.add_0_r in Ha, Hr. rewrite Ha, Hr.
    rewrite (IH (S start) fuel).
    + reflexivity.
    + intros j Hj. replace (S start + j)%nat with (start + S j)%nat by lia.
      apply Hquiet. lia.
    + replace (S start + k)%nat with (start + S k)%nat by lia. exact Habort.
    + lia.
Qed.

(** C7 (as the code has it): let the abort flag be found set at the
    [k]-th test of the loop, no edge having come before.  Without a timeout
    the wait is cut into [k] reads of 0.2 s each and then raises
    [RuntimeError('Aborted')].  With a finite timeout [t] the loop body runs
    once: the flag is tested before the only read, which is made with the
    whole of [t]; a flag raised after that test ([k > 0]) is not seen and
    the call returns [None] when the read times out. *)
Theorem wait_for_rising_edge_abort (timeout : option spec_float)
    (env : WaitMon.environment) (k fuel : nat) :
  (forall j : nat, (j < k)%nat ->
     WaitMon.abort_at env j = false /\ WaitMon.read_at env j = None) ->
  WaitMon.abort_at env k = true ->
  (k < fuel)%nat ->
  WaitMon.wait_for_rising_edge timeout env fuel =
    match timeout with
    | None => (WaitMon.Raised (RuntimeError "Aborted"), repeat WaitMon.poll_interval k)
    | Some t =>
        if Nat.eqb k 0 then (WaitMon.Raised (RuntimeError "Aborted"), [])
        else (WaitMon.Returned None, [t])
    end.
Proof.
  intros Hquiet Habort Hfuel. unfold WaitMon.wait_for_rising_edge.
  destruct timeout as [t|].
  - destruct fuel as [|fuel]; [lia|]. simpl.
    destruct k as [|k].
    + rewrite Habort. reflexivity.
    + destruct (Hquiet 0%nat ltac:(lia)) as [Ha Hr]. rewrite Ha, Hr. reflexivity.
  - apply wait_loop_polls; auto.
Qed.

Lemma wait_for_rising_edge_abort_witness :
  WaitMon.wait_for_rising_edge None Scenario.abort_after_start 5
  = (WaitMon.Raised (RuntimeError "Aborted"), [WaitMon.poll_interval]).
Proof.
  apply (wait_for_rising_edge_abort None Scenario.abort_after_start 1 5).
  - intros j Hj. assert (j = 0%nat) as -> by lia. split; reflexivity.
  - reflexivity.
  - lia.
Defined.

(** C7 (as stated) fails for a finite timeout: a 10 s wait is one read of
    10 s, longer than the 0.2 s polling interval, and the abort flag raised
    during it does not end the wait with an exception. *)
Lemma finite_timeout_is_one_blocking_read :
  WaitMon.wait_for_rising_edge (Some (F64.of_Z 10)) Scenario.abort_after_start 5
  = (WaitMon.Returned None, [F64.of_Z 10]) /\
  F64.leb (F64.of_Z 10) WaitMon.poll_interval = false /\
  WaitMon.abort_at Scenario.abort_after_start 1 = true.
Proof. repeat split. Qed.

(** ** The timeout trigger polarity *)




(** ** The capability table of the NI PCIe-6363 *)

Lemma dict_update_lookup (d other : gmap string NI_PCIe_6363.value) (k : string) :
  NI_PCIe_6363.dict_update d other !! k
  = match other !! k with
    | Some v => Some v
    | None => d !! k
    end.
Proof.
  unfold NI_PCIe_6363.dict_update.
  apply (map_fold_weak_ind
           (fun r (m : gmap string NI_PCIe_6363.value) =>
              r !! k = match m !! k with Some v => Some v | None => d !! k end)).
  - rewrite lookup_empty. reflexivity.
  - intros i x m r Hi IH.
    destruct (decide (i = k)) as [->|Hne].
    + rewrite !lookup_insert_eq. reflexivity.
    + rewrite !lookup_insert_ne by exact Hne. exact IH.
Qed.

(** C10: the keyword arguments that [NI_PCIe_6363.__init__] forwards to
    [NI_DAQmx.__init__] hold, under every key, the caller's value when the
    caller gave one and the entry of [CAPABILITIES] (if any) otherwise; the
    positional arguments are forwarded as they came. *)
Theorem init_kwargs_override_capabilities (args : list NI_PCIe_6363.value)
    (kwargs : gmap string NI_PCIe_6363.value) (k : string) :
  fst (NI_PCIe_6363.init args kwargs) = args /\
  snd (NI_PCIe_6363.init args kwargs) !! k
  = match kwargs !! k with
    | Some v => Some v
    | None => NI_PCIe_6363.CAPABILITIES !! k
    end.
Proof.
  split; [reflexivity|].
  unfold NI_PCIe_6363.init, NI_PCIe_6363.dict_copy. cbn [snd].
  apply dict_update_lookup.
Qed.

(** ** Binary64 facts *)

Lemma digits2_pos_bounds (m : positive) :
  2 ^ (Zpos (digits2_pos m) - 1) <= Zpos m < 2 ^ Zpos (digits2_pos m).
Proof.
  induction m as [m IH|m IH|]; cbn [digits2_pos].
  - rewrite Pos2Z.inj_succ.
    replace (Z.succ (Zpos (digits2_pos m)) - 1) with (Z.succ (Zpos (digits2_pos m) - 1)) by lia.
    rewrite !Z.pow_succ_r by lia. lia.
  - rewrite Pos2Z.inj_succ.
    replace (Z.succ (Zpos (digits2_pos m)) - 1) with (Z.succ (Zpos (digits2_pos m) - 1)) by lia.
    rewrite !Z.pow_succ_r by lia. lia.
  - cbn. lia.
Qed.

(** Rounding keeps the sign it is given. *)
Lemma binary_round_aux_sign (s : bool) (mx ex : Z) (lx : location) :
  match binary_round_aux F64.prec F64.emax s mx ex lx with
  | S754_zero s' | S754_infinity s' | S754_finite s' _ _ => s' = s
  | S754_nan => True
  end.
Proof.
  unfold binary_round_aux.
  destruct (shr_fexp F64.prec F64.emax mx ex lx) as [mrs e'].
  destruct (shr_fexp F64.prec F64.emax _ e' loc_Exact) as [mrs' e''].
  destruct (shr_m mrs'); [reflexivity| |exact I].
  destruct (e'' <=? F64.emax - F64.prec); reflexivity.
Qed.

(** The product of a positive rate and a positive finite constant is not
    negative. *)
Lemma mul_positive_sign (x : spec_float) (my : positive) (ey : Z) :
  F64.ltb F64.zero x = true ->
  match F64.mul x (S754_finite false my ey) with
  | S754_zero s | S754_finite s _ _ => s = false
  | _ => True
  end.
Proof.
  intros Hpos.
  destruct x as [s|s| |s m e]; try discriminate Hpos.
  - exact I.
  - destruct s; [discriminate Hpos|].
    unfold F64.mul, SFmul. cbn [xorb].
    pose proof (binary_round_aux_sign false (Zpos (m * my)) (e + ey) loc_Exact) as H.
    destruct (binary_round_aux F64.prec F64.emax false (Zpos (m * my)) (e + ey) loc_Exact);
      auto.
Qed.

(** On a non-negative finite value truncation is the floor. *)
Lemma truncZ_nonneg (x : spec_float) :
  match x with S754_zero _ | S754_finite false _ _ => True | _ => False end ->
  F64.truncZ x = F64.floorZ x /\ exists n, F64.floorZ x = Some n /\ 0 <= n.
Proof.
  destruct x as [s|s| |s m e]; try contradiction.
  - intros _. split; [reflexivity|]. exists 0. split; [reflexivity|lia].
  - destruct s; [contradiction|]. intros _. cbn [F64.truncZ F64.floorZ F64.signed cond_Zopp].
    destruct (0 <=? e) eqn:He.
    + split; [reflexivity|]. eexists. split; [reflexivity|].
      apply Z.leb_le in He. apply Z.mul_nonneg_nonneg; [lia|]. apply Z.pow_nonneg. lia.
    + apply Z.leb_gt in He.
      assert (0 < 2 ^ (- e)) by (apply Z.pow_pos_nonneg; lia).
      rewrite Z.quot_div_nonneg by lia.
      split; [reflexivity|]. eexists. split; [reflexivity|].
      apply Z.div_pos; lia.
Qed.

(** A well-formed non-negative finite value is at least 1.0 exactly when
    its integer part is at least 1. *)
Lemma floorZ_ge_1 (m : positive) (e n : Z) :
  F64.valid (S754_finite false m e) = true ->
  F64.floorZ (S754_finite false m e) = Some n ->
  1 <= n <-> F64.leb (F64.of_Z 1) (S754_finite false m e) = true.
Proof.
  intros Hvalid Hfloor.
  unfold F64.valid, valid_binary, bounded, canonical_mantissa, fexp, emin in Hvalid.
  apply andb_true_iff in Hvalid as [Hcanon _]. apply Z.eqb_eq in Hcanon.
  pose proof (digits2_pos_bounds m) as [Hlo Hhi].
  cbn [F64.floorZ F64.signed cond_Zopp] in Hfloor. injection Hfloor as <-.
  change (F64.of_Z 1) with (S754_finite false 4503599627370496 (-52)).
  unfold F64.leb, SFleb, SFcompare. unfold F64.prec, F64.emax in *.
  set (d := Zpos (digits2_pos m)) in *.
  assert (Hd : d + e - 53 <= e /\ (-1074 < e -> d = 53)) by lia.
  clear Hcanon. destruct Hd as [Hd1 Hd2].
  destruct (Z.compare_spec (-52) e) as [He|He|He].
  - (* e = -52 *)
    subst e. clear Hlo Hhi Hd1 Hd2.
    change (0 <=? -52) with false. cbv iota.
    change (2 ^ (- (-52))) with 4503599627370496.
    rewrite Pos.compare_cont_spec. cbn [Pos.switch_Eq].
    rewrite Pos2Z.inj_compare.
    destruct (Z.compare_spec 4503599627370496 (Zpos m)) as [Hm|Hm|Hm].
    + rewrite <- Hm. split; [reflexivity|]. intros _. vm_compute. discriminate.
    + split; [reflexivity|]. intros _.
      apply Z.div_le_lower_bound; lia.
    + split; [|discriminate]. intros H1.
      rewrite Z.div_small in H1 by lia. lia.
  - (* -52 < e *)
    split; [reflexivity|]. intros _.
    rewrite Hd2 in Hlo by lia. change (2 ^ (53 - 1)) with 4503599627370496 in Hlo.
    clear Hhi Hd1 Hd2.
    destruct (0 <=? e) eqn:H0.
    + apply Z.leb_le in H0.
      assert (0 < 2 ^ e) by (apply Z.pow_pos_nonneg; lia).
      generalize dependent (2 ^ e). intros. nia.
    + apply Z.leb_gt in H0.
      assert (0 < 2 ^ (- e)) by (apply Z.pow_pos_nonneg; lia).
      assert (2 ^ (- e) <= 2 ^ 51) by (apply Z.pow_le_mono_r; lia).
      change (2 ^ 51) with 2251799813685248 in *.
      generalize dependent (2 ^ (- e)). intros.
      apply Z.div_le_lower_bound; lia.
  - (* e < -52 *)
    split; [|discriminate]. intros H1. exfalso.
    assert (H0 : (0 <=? e) = false) by (apply Z.leb_gt; lia).
    rewrite H0 in H1.
    assert (2 ^ d <= 2 ^ 53) by (apply Z.pow_le_mono_r; lia).
    assert (2 ^ 53 <= 2 ^ (- e)) by (apply Z.pow_le_mono_r; lia).
    clear Hlo Hd1 Hd2.
    generalize dependent (2 ^ d). generalize dependent (2 ^ 53).
    generalize dependent (2 ^ (- e)). intros.
    rewrite Z.div_small in H1 by lia. lia.
Qed.

(** *** Rounding yields well-formed values

    [binary_round_aux] shifts the mantissa down to 53 bits (or to the
    smallest exponent), rounds, and shifts once more if rounding carried
    into a 54th bit. *)

Lemma Zdigits2_bounds (m : Z) :
  0 < m -> 2 ^ (Zdigits2 m - 1) <= m < 2 ^ Zdigits2 m.
Proof.
  destruct m as [|p|p]; try lia. intros _. apply digits2_pos_bounds.
Qed.

Lemma Zdigits2_unique (m k : Z) :
  2 ^ (k - 1) <= m < 2 ^ k -> 0 < m -> Zdigits2 m = k.
Proof.
  intros [Hlo Hhi] Hm.
  destruct (Zdigits2_bounds m Hm) as [Dlo Dhi].
  assert (0 < Zdigits2 m) by (destruct m; try lia; reflexivity).
  assert (0 < k).
  { destruct (Z_lt_le_dec 0 k); [assumption|].
    destruct (Z.eq_dec k 0) as [->|]; [cbn in Hhi; lia|].
    rewrite Z.pow_neg_r in Hhi by lia. lia. }
  assert (k - 1 < Zdigits2 m).
  { apply (Z.pow_lt_mono_r_iff 2); lia. }
  assert (Zdigits2 m - 1 < k).
  { apply (Z.pow_lt_mono_r_iff 2); lia. }
  lia.
Qed.

Lemma shr_1_m (mrs : shr_record) :
  0 <= shr_m mrs -> shr_m (shr_1 mrs) = shr_m mrs / 2.
Proof.
  destruct mrs as [m r s]. cbn [shr_m]. intros Hm.
  rewrite <- Z.div2_div.
  destruct m as [|p|p]; [reflexivity| |lia].
  destruct p; reflexivity.
Qed.

Lemma iter_shr_1_m (p : positive) :
  forall mrs : shr_record,
    0 <= shr_m mrs ->
    shr_m (SpecFloat.iter_pos shr_1 p mrs) = shr_m mrs / 2 ^ Zpos p.
Proof.
  induction p as [p IH|p IH|]; intros mrs Hm; cbn [SpecFloat.iter_pos].
  - assert (H2 : 0 <= shr_m (shr_1 mrs)).
    { rewrite shr_1_m by assumption. apply Z.div_pos; lia. }
    assert (H3 : 0 <= shr_m (SpecFloat.iter_pos shr_1 p (shr_1 mrs))).
    { rewrite IH by assumption. apply Z.div_pos; [assumption|]. apply Z.pow_pos_nonneg; lia. }
    rewrite IH by assumption. rewrite IH by assumption. rewrite shr_1_m by assumption.
    assert (0 < 2 ^ Zpos p) by (apply Z.pow_pos_nonneg; lia).
    rewrite !Z.div_div by lia.
    f_equal. rewrite (Pos2Z.inj_xI p).
    rewrite Z.pow_add_r, Z.pow_mul_r by lia.
    replace (2 ^ 2) with (2 * 2) by reflexivity. rewrite Z.pow_mul_l.
    change (2 ^ 1) with 2. ring.
  - assert (H3 : 0 <= shr_m (SpecFloat.iter_pos shr_1 p mrs)).
    { rewrite IH by assumption. apply Z.div_pos; [assumption|]. apply Z.pow_pos_nonneg; lia. }
    rewrite IH by assumption. rewrite IH by assumption.
    assert (0 < 2 ^ Zpos p) by (apply Z.pow_pos_nonneg; lia).
    rewrite !Z.div_div by lia.
    f_equal. rewrite (Pos2Z.inj_xO p).
    rewrite (Z.pow_mul_r 2 2 (Zpos p)) by lia.
    replace (2 ^ 2) with (2 * 2) by reflexivity. rewrite Z.pow_mul_l. reflexivity.
  - rewrite shr_1_m by assumption. reflexivity.
Qed.

(** The mantissa and exponent after one shifting step of [binary_round_aux]. *)
Lemma shr_fexp_m (m e : Z) (l : location) :
  0 <= m ->
  0 <= fexp 53 1024 (Zdigits2 m + e) - e ->
  shr_m (fst (shr_fexp 53 1024 m e l)) = m / 2 ^ (fexp 53 1024 (Zdigits2 m + e) - e) /\
  snd (shr_fexp 53 1024 m e l) = fexp 53 1024 (Zdigits2 m + e).
Proof.
  intros Hm Hn. unfold shr_fexp, shr.
  destruct (fexp 53 1024 (Zdigits2 m + e) - e) as [|n|n] eqn:En; try lia.
  - cbn [fst snd]. split; [|lia].
    destruct l as [|[| |]]; cbn [shr_record_of_loc shr_m]; now rewrite Z.div_1_r.
  - cbn [fst snd]. split; [|lia].
    rewrite iter_shr_1_m; destruct l as [|[| |]]; cbn [shr_record_of_loc shr_m]; auto.
Qed.

Lemma round_nearest_even_bounds (m : Z) (l : location) :
  m <= round_nearest_even m l <= m + 1.
Proof.
  unfold round_nearest_even. destruct l as [|[| |]]; try lia.
  destruct (Z.even m); lia.
Qed.

Lemma finite_valid (s : bool) (m : positive) (e : Z) :
  fexp 53 1024 (Zdigits2 (Zpos m) + e) = e ->
  valid_binary 53 1024
    (if e <=? 1024 - 53 then S754_finite s m e else S754_infinity s) = true.
Proof.
  intros Hc. destruct (e <=? 1024 - 53) eqn:He; [|reflexivity].
  cbn [valid_binary]. unfold bounded, canonical_mantissa.
  cbn [Zdigits2] in Hc. rewrite Hc, Z.eqb_refl, He. reflexivity.
Qed.

Lemma second_step_valid (s : bool) (m1 e' : Z) :
  0 <= m1 ->
  (-1074 <= e' /\ 2 ^ 52 <= m1 <= 2 ^ 53) \/ (e' = -1074 /\ m1 <= 2 ^ 52) ->
  valid_binary 53 1024
    (let '(mrs'', e'') := shr_fexp 53 1024 m1 e' loc_Exact in
     match shr_m mrs'' with
     | Z0 => S754_zero s
     | Zpos m => if e'' <=? 1024 - 53 then S754_finite s m e'' else S754_infinity s
     | Zneg _ => S754_nan
     end) = true.
Proof.
  intros Hm1 Hcase.
  destruct (Z.eq_dec m1 0) as [->|Hnz].
  { destruct Hcase as [[_ [Hlo _]] | [-> _]].
    - change (2 ^ 52) with 4503599627370496 in Hlo. lia.
    - reflexivity. }
  assert (Hpos : 0 < m1) by lia.
  pose proof (Zdigits2_bounds m1 Hpos) as [Dlo Dhi].
  set (d1 := Zdigits2 m1) in *.
  assert (Hd1 : 0 < d1) by (unfold d1; destruct m1; try lia; reflexivity).
  change (2 ^ 52) with 4503599627370496 in Hcase.
  change (2 ^ 53) with 9007199254740992 in Hcase.
  assert (Hn2 : (d1 <= 53 /\ fexp 53 1024 (d1 + e') = e') \/
                (m1 = 9007199254740992 /\ d1 = 54 /\ -1074 <= e')).
  { destruct Hcase as [[He [Hlo Hhi]] | [He Hhi]].
    - destruct (Z.eq_dec m1 9007199254740992) as [Heq|Hne].
      + right. split; [assumption|]. split; [|assumption].
        unfold d1. rewrite Heq. reflexivity.
      + left. assert (d1 = 53) as ->.
        { apply Zdigits2_unique; [|assumption].
          change (2 ^ (53 - 1)) with 4503599627370496.
          change (2 ^ 53) with 9007199254740992. lia. }
        split; [lia|]. unfold fexp, emin. lia.
    - assert (d1 <= 53).
      { assert (d1 - 1 < 53); [|lia].
        apply (Z.pow_lt_mono_r_iff 2); [lia|lia|].
        change (2 ^ 53) with 9007199254740992. lia. }
      left. split; [assumption|]. subst e'. unfold fexp, emin. lia. }
  destruct Hn2 as [[Hd Hf] | (Heq & Hd & He)].
  - destruct (shr_fexp_m m1 e' loc_Exact) as [Hm He]; [lia|fold d1; lia|].
    fold d1 in Hm, He. rewrite Hf in Hm, He. rewrite Z.sub_diag in Hm.
    rewrite Z.div_1_r in Hm.
    destruct (shr_fexp 53 1024 m1 e' loc_Exact) as [mrs'' e'']. cbn [fst snd] in *.
    rewrite Hm, He.
    destruct m1 as [|m|m]; try lia.
    apply finite_valid. fold d1. exact Hf.
  - destruct (shr_fexp_m m1 e' loc_Exact) as [Hm He']; [lia|fold d1; unfold fexp, emin; lia|].
    fold d1 in Hm, He'. rewrite Hd in Hm, He'.
    assert (Hf : fexp 53 1024 (54 + e') = e' + 1) by (unfold fexp, emin; lia).
    rewrite Hf in Hm, He'.
    replace (e' + 1 - e') with 1 in Hm by lia.
    replace (m1 / 2 ^ 1) with 4503599627370496 in Hm by (rewrite Heq; reflexivity).
    destruct (shr_fexp 53 1024 m1 e' loc_Exact) as [mrs'' e'']. cbn [fst snd] in *.
    rewrite Hm, He'.
    apply finite_valid. cbn [Zdigits2 digits2_pos].
    change (Zpos (digits2_pos 4503599627370496)) with 53.
    unfold fexp, emin. lia.
Qed.

Lemma binary_round_aux_valid (s : bool) (mx ex : Z) (lx : location) :
  0 < mx ->
  ex <= fexp 53 1024 (Zdigits2 mx + ex) ->
  valid_binary 53 1024 (binary_round_aux 53 1024 s mx ex lx) = true.
Proof.
  intros Hmx Hex. unfold binary_round_aux.
  destruct (shr_fexp_m mx ex lx) as [Hm He]; [lia|lia|].
  destruct (shr_fexp 53 1024 mx ex lx) as [mrs' e']. cbn [fst snd] in Hm, He.
  pose proof (round_nearest_even_bounds (shr_m mrs') (loc_of_shr_record mrs')) as Hr.
  set (m1 := round_nearest_even (shr_m mrs') (loc_of_shr_record mrs')) in *.
  pose proof (Zdigits2_bounds mx Hmx) as [Dlo Dhi].
  set (d := Zdigits2 mx) in *.
  assert (Hpow : forall n, 0 <= n -> 0 < 2 ^ n) by (intros; apply Z.pow_pos_nonneg; lia).
  assert (Hm' : 0 <= shr_m mrs').
  { rewrite Hm. apply Z.div_pos; [lia|]. apply Hpow. lia. }
  apply second_step_valid; [lia|].
  change (2 ^ 52) with 4503599627370496. change (2 ^ 53) with 9007199254740992.
  unfold fexp, emin in *.
  destruct (Z_le_gt_dec (-1074) (d + ex - 53)) as [Hnorm|Hsub].
  - left.
    assert (He1 : e' = d + ex - 53) by lia.
    assert (Hn : Z.max (d + ex - 53) (3 - 1024 - 53) - ex = d - 53) by lia.
    rewrite Hn in Hm.
    assert (0 <= d - 53) by lia.
    pose proof (Hpow (d - 53) ltac:(lia)) as Hp.
    assert (E1 : 2 ^ (d - 1) = 4503599627370496 * 2 ^ (d - 53)).
    { replace (d - 1) with (52 + (d - 53)) by lia. rewrite Z.pow_add_r by lia. reflexivity. }
    assert (E2 : 2 ^ d = 9007199254740992 * 2 ^ (d - 53)).
    { replace d with (53 + (d - 53)) at 1 by lia. rewrite Z.pow_add_r by lia. reflexivity. }
    rewrite E1 in Dlo. rewrite E2 in Dhi.
    assert (4503599627370496 <= shr_m mrs').
    { rewrite Hm. apply Z.div_le_lower_bound; lia. }
    assert (shr_m mrs' < 9007199254740992).
    { rewrite Hm. apply Z.div_lt_upper_bound; lia. }
    lia.
  - right.
    assert (He1 : e' = -1074) by lia.
    assert (Hn : Z.max (d + ex - 53) (3 - 1024 - 53) - ex = -1074 - ex) by lia.
    rewrite Hn in Hm.
    pose proof (Hpow (-1074 - ex) ltac:(lia)) as Hp.
    assert (E2 : 2 ^ d <= 4503599627370496 * 2 ^ (-1074 - ex)).
    { change 4503599627370496 with (2 ^ 52). rewrite <- Z.pow_add_r by lia.
      apply Z.pow_le_mono_r; lia. }
    assert (shr_m mrs' < 4503599627370496).
    { rewrite Hm. apply Z.div_lt_upper_bound; lia. }
    lia.
Qed.

Lemma digits2_pos_mul (mx my : positive) :
  Zpos (digits2_pos mx) + Zpos (digits2_pos my) - 1 <= Zpos (digits2_pos (mx * my)).
Proof.
  pose proof (digits2_pos_bounds mx) as [Xlo _].
  pose proof (digits2_pos_bounds my) as [Ylo _].
  pose proof (digits2_pos_bounds (mx * my)) as [_ Phi].
  set (dx := Zpos (digits2_pos mx)) in *.
  set (dy := Zpos (digits2_pos my)) in *.
  set (d := Zpos (digits2_pos (mx * my))) in *.
  assert (0 < dx) by reflexivity. assert (0 < dy) by reflexivity.
  assert (0 < d) by reflexivity.
  assert (dx + dy - 2 < d); [|lia].
  apply (Z.pow_lt_mono_r_iff 2); [lia|lia|].
  replace (dx + dy - 2) with ((dx - 1) + (dy - 1)) by lia.
  rewrite Z.pow_add_r by lia. rewrite Pos2Z.inj_mul in Phi.
  assert (0 < 2 ^ (dx - 1)) by (apply Z.pow_pos_nonneg; lia).
  assert (0 < 2 ^ (dy - 1)) by (apply Z.pow_pos_nonneg; lia).
  generalize dependent (2 ^ (dx - 1)). generalize dependent (2 ^ (dy - 1)).
  generalize dependent (2 ^ d). intros. nia.
Qed.

(** Multiplication of well-formed binary64 values is well formed. *)
Lemma mul_valid (x y : spec_float) :
  F64.valid x = true -> F64.valid y = true -> F64.valid (F64.mul x y) = true.
Proof.
  unfold F64.valid, F64.mul, F64.prec, F64.emax.
  destruct x as [sx|sx| |sx mx ex], y as [sy|sy| |sy my ey]; try reflexivity.
  intros Hx Hy. cbn [valid_binary] in Hx, Hy. unfold SFmul.
  unfold bounded, canonical_mantissa, fexp, emin in Hx, Hy.
  apply andb_true_iff in Hx as [Hx _]. apply andb_true_iff in Hy as [Hy _].
  apply Z.eqb_eq in Hx, Hy.
  apply binary_round_aux_valid; [reflexivity|].
  pose proof (digits2_pos_mul mx my) as Hd.
  cbn [Zdigits2]. unfold fexp, emin.
  assert (0 < Zpos (digits2_pos mx)) by reflexivity.
  assert (0 < Zpos (digits2_pos my)) by reflexivity.
  lia.
Qed.

(** ** The callback interval chosen by start_task *)

(** C8 (as stated) fails: at the rate 1 Hz, which is positive, the product
    with 0.2 s truncates to 0, and [start_task] sets up a task with a
    callback every 0 samples and an empty staging array. *)
Lemma start_task_can_select_zero_samples :
  F64.ltb F64.zero (F64.of_Z 1) = true /\
  Acq.num_samples_for (F64.of_Z 1) = Ok 0 /\
  exists w', Acq.start_task Scenario.idle ["ai0"] (F64.of_Z 1) = Ok w' /\
             option_map Acq.every_n_samples (Acq.task w') = Some 0 /\
             Acq.read_array w' = Some [].
Proof.
  split; [reflexivity|]. split; [reflexivity|].
  eexists. split; [vm_compute; reflexivity|]. split; reflexivity.
Qed.

(** C8 (as the code has it): for a well-formed positive rate [r] whose
    binary64 product [p = r * 0.2] is finite, [start_task] on a worker
    without a task selects [min(10000, floor(p))] samples per callback, a
    number that is never negative and is at least 1 exactly when
    [p >= 1.0]. *)
Theorem start_task_num_samples (w : Acq.worker) (chans : list string)
    (rate : spec_float) :
  Acq.task w = None ->
  F64.valid rate = true ->
  F64.ltb F64.zero rate = true ->
  F64.is_finite (F64.mul rate Acq.MAX_READ_INTERVAL) = true ->
  exists n w',
    F64.floorZ (F64.mul rate Acq.MAX_READ_INTERVAL) = Some n /\
    Acq.start_task w chans rate = Ok w' /\
    Acq.task w' = Some (Acq.mkTask (Acq.next_handle w) chans rate
                          (Z.min 10000 n) (Acq.buffered_mode w) []) /\
    0 <= Z.min 10000 n /\
    (1 <= Z.min 10000 n <->
     F64.leb (F64.of_Z 1) (F64.mul rate Acq.MAX_READ_INTERVAL) = true).
Proof.
  intros Hidle Hwf Hpos Hfin.
  assert (Hvalid : F64.valid (F64.mul rate Acq.MAX_READ_INTERVAL) = true)
    by (apply mul_valid; [exact Hwf|reflexivity]).
  pose proof (mul_positive_sign rate 7205759403792794 (-55) Hpos) as Hsign.
  change (S754_finite false 7205759403792794 (-55)) with Acq.MAX_READ_INTERVAL in Hsign.
  set (p := F64.mul rate Acq.MAX_READ_INTERVAL) in *.
  assert (Hnonneg : match p with
                    | S754_zero _ | S754_finite false _ _ => True
                    | _ => False
                    end).
  { destruct p as [s|s| |s m e]; try discriminate Hfin; [exact I|].
    rewrite Hsign. exact I. }
  destruct (truncZ_nonneg p Hnonneg) as [Htrunc (n & Hfloor & Hn)].
  exists n.
  assert (Hnum : Acq.num_samples_for rate = Ok (Z.min 10000 n)).
  { unfold Acq.num_samples_for, F64.to_int, F64.lift_int. fold p.
    rewrite Htrunc, Hfloor. reflexivity. }
  assert (Hzeros : Acq.zeros (Z.min 10000 n) (length chans)
                   = Ok (repeat (repeat F64.zero (length chans))
                                (Z.to_nat (Z.min 10000 n)))).
  { unfold Acq.zeros.
    assert ((Z.min 10000 n <? 0) = false) as -> by (apply Z.ltb_ge; lia).
    reflexivity. }
  eexists. split; [exact Hfloor|]. split.
  { unfold Acq.start_task. rewrite Hidle, Hnum. cbn [rbind].
    rewrite Hzeros. cbn [rbind]. reflexivity. }
  split; [reflexivity|]. split; [lia|].
  destruct p as [s|s| |s m e]; try contradiction.
  - injection Hfloor as <-. split; [lia|]. destruct s; discriminate.
  - destruct s; [contradiction|].
    rewrite <- (floorZ_ge_1 m e n Hvalid Hfloor). lia.
Qed.

Lemma start_task_num_samples_witness :
  exists n w',
    F64.floorZ (F64.mul (F64.of_Z 1000) Acq.MAX_READ_INTERVAL) = Some n /\
    Acq.start_task Scenario.idle ["ai0"] (F64.of_Z 1000) = Ok w' /\
    Acq.task w' = Some (Acq.mkTask 1 ["ai0"] (F64.of_Z 1000)
                          (Z.min 10000 n) false []) /\
    0 <= Z.min 10000 n /\
    (1 <= Z.min 10000 n <->
     F64.leb (F64.of_Z 1) (F64.mul (F64.of_Z 1000) Acq.MAX_READ_INTERVAL) = true).
Proof.
  apply (start_task_num_samples Scenario.idle ["ai0"] (F64.of_Z 1000)); reflexivity.
Defined.

(** ** Sample indices of a measurement window *)

Lemma sub_diag_finite (x : spec_float) :
  F64.is_finite x = true -> F64.sub x x = S754_zero false.
Proof.
  destruct x as [s|s| |s m e]; try discriminate; intros _.
  - destruct s; reflexivity.
  - unfold F64.sub, SFsub. rewrite Z.sub_diag. reflexivity.
Qed.

Lemma eps_value : Acq.eps = S754_finite false 8112963841460668 (-105).
Proof. vm_compute. reflexivity. Qed.

Lemma ltb_abs_eps (x : spec_float) :
  F64.ltb (F64.abs x) Acq.eps = true -> F64.ltb x Acq.eps = true.
Proof.
  rewrite eps_value.
  destruct x as [s|s| |s m e]; try (intros H; discriminate H).
  - intros _. reflexivity.
  - destruct s; [intros _; reflexivity|]. exact (fun H => H).
Qed.

(** C4 (as stated) fails: at 10 Hz from t = 0, the end time 0.5 s is
    exactly the time of sample 5; the computed [i_end] is 4 and the written
    series stops at the sample before the boundary. *)
Lemma end_boundary_sample_is_left_out :
  F64.mul (F64.of_Z 10) (F64.sub (F64.dec 5 (-1)) F64.zero) = F64.of_Z 5 /\
  F64.div (F64.of_Z 5) (F64.of_Z 10) = F64.sub (F64.dec 5 (-1)) F64.zero /\
  Acq.sample_indices (F64.of_Z 10) F64.zero F64.zero (F64.dec 5 (-1)) = Ok (0, 4) /\
  option_map (map snd)
    (match Acq.measurement_of (F64.of_Z 10) F64.zero Scenario.ramp
             F64.zero (F64.dec 5 (-1)) with
     | Ok s => Some s
     | Raise _ => None
     end)
  = Some (map F64.of_Z [0; 1; 2; 3; 4]).
Proof. vm_compute. repeat split. Qed.

(** C4 (as the code has it): when the floor of [rate * (t_end - t0)] is
    [k] and the end of the window is the time [k / rate] of sample [k],
    exactly or to within 2e-16, the computed [i_end] is [k - 1]: the sample
    on the boundary is left out. *)
Theorem end_boundary_is_exclusive (rate t0 ts te : spec_float) (i0 k : Z) :
  F64.int_ceil (F64.mul rate (F64.sub ts t0)) = Ok i0 ->
  F64.int_floor (F64.mul rate (F64.sub te t0)) = Ok k ->
  (F64.is_finite (F64.sub te t0) = true /\
   F64.div (F64.of_Z k) rate = F64.sub te t0) \/
  F64.ltb (F64.abs (F64.sub (F64.sub te t0) (F64.div (F64.of_Z k) rate))) Acq.eps = true ->
  exists i_start, Acq.sample_indices rate t0 ts te = Ok (i_start, k - 1).
Proof.
  intros Hceil Hfloor Hboundary.
  assert (Hlt : F64.ltb (F64.sub (F64.sub te t0) (F64.div (F64.of_Z k) rate)) Acq.eps
                = true).
  { destruct Hboundary as [[Hfin Heq] | Hnear].
    - rewrite Heq, (sub_diag_finite _ Hfin), eps_value. reflexivity.
    - now apply ltb_abs_eps. }
  unfold Acq.sample_indices. rewrite Hceil, Hfloor. cbn [rbind]. rewrite Hlt.
  eexists. reflexivity.
Qed.

Lemma end_boundary_is_exclusive_witness :
  exists i_start,
    Acq.sample_indices (F64.of_Z 1000) F64.zero (F64.dec 1 (-1)) (F64.of_Z 1)
    = Ok (i_start, 1000 - 1).
Proof.
  apply (end_boundary_is_exclusive (F64.of_Z 1000) F64.zero (F64.dec 1 (-1))
           (F64.of_Z 1) 100 1000).
  - vm_compute. reflexivity.
  - vm_compute. reflexivity.
  - left. split; vm_compute; reflexivity.
Defined.

(** ** Windows that leave the accumulated buffer *)

Lemma length_arange (k : nat) (from : Z) : length (Np.arange k from) = k.
Proof.
  revert from. induction k as [|k IH]; intros from; cbn [Np.arange length].
  - reflexivity.
  - now rewrite IH.
Qed.

Lemma length_set_last {A : Type} (a : list A) (v : A) :
  length (Np.set_last a v) = length a.
Proof.
  induction a as [|x [|y r] IH]; try reflexivity.
  change (Np.set_last (x :: y :: r) v) with (x :: Np.set_last (y :: r) v).
  cbn [length] in *. now rewrite IH.
Qed.

Lemma linspace_length (start stop : spec_float) (num : Z) :
  0 <= num ->
  exists times, Np.linspace start stop num = Ok times /\
                length times = Z.to_nat num.
Proof.
  intros Hnum. unfold Np.linspace.
  assert ((num <? 0) = false) as -> by (apply Z.ltb_ge; lia).
  eexists. split; [reflexivity|].
  destruct (1 <? num).
  - rewrite length_set_last, length_map.
    destruct (F64.eqb _ F64.zero); now rewrite length_map, length_arange.
  - now rewrite !length_map, length_arange.
Qed.

Lemma slice_length {A : Type} (a : list A) (i j : Z) :
  length (Np.slice a i j)
  = Nat.min (Np.clamp (length a) j - Np.clamp (length a) i)
            (length a - Np.clamp (length a) i).
Proof. unfold Np.slice. now rewrite length_take, length_drop. Qed.

Lemma assign_same {A : Type} (src : list A) : Np.assign (length src) src = Ok src.
Proof. unfold Np.assign. now rewrite Nat.eqb_refl. Qed.

Lemma assign_mismatch {A : Type} (n : nat) (src : list A) :
  length src <> n -> length src <> 1%nat ->
  Np.assign n src = Raise (ValueError "could not broadcast input array").
Proof.
  intros Hn H1. unfold Np.assign.
  apply Nat.eqb_neq in Hn. rewrite Hn.
  destruct src as [|x [|y r]]; try reflexivity. now contradiction H1.
Qed.

Lemma assign_empty_from_one {A : Type} (src : list A) :
  length src = 1%nat -> Np.assign 0 src = Ok [].
Proof.
  destruct src as [|x [|y r]]; try discriminate. intros _. reflexivity.
Qed.

(** C5 (as stated) fails: on a buffer of ten samples taken at 10 Hz, the
    window from 2.0 s to 2.05 s maps to the single index 20, far outside
    the buffer; nothing is raised and an empty series is written.  A window
    before the start of the acquisition ([t0 = 1.0], indices -5 to -3) is
    read from the end of the buffer instead. *)
Lemma window_outside_buffer_is_not_rejected :
  Acq.sample_indices (F64.of_Z 10) F64.zero (F64.of_Z 2) (F64.dec 205 (-2))
  = Ok (20, 20) /\
  Acq.measurement_of (F64.of_Z 10) F64.zero Scenario.ramp
    (F64.of_Z 2) (F64.dec 205 (-2)) = Ok [] /\
  Acq.sample_indices (F64.of_Z 10) (F64.of_Z 1) (F64.dec 5 (-1)) (F64.dec 75 (-2))
  = Ok (-5, -3) /\
  option_map (map snd)
    (match Acq.measurement_of (F64.of_Z 10) (F64.of_Z 1) Scenario.ramp
             (F64.dec 5 (-1)) (F64.dec 75 (-2)) with
     | Ok s => Some s
     | Raise _ => None
     end)
  = Some (map F64.of_Z [5; 6; 7]).
Proof. vm_compute. repeat split. Qed.

(** C5 (as the code has it): there is no range check.  When the computed
    indices start at or after 0 and end at or after the length of the
    channel's waveform, the slice is cut short without an error; a window
    of two or more samples then fails with the [ValueError] of storing the
    longer time axis into the shorter record array, and a window of one
    sample yields an empty series. *)
Theorem window_past_the_end (rate t0 ts te : spec_float) (chan : list spec_float)
    (i_start i_end : Z) :
  Acq.sample_indices rate t0 ts te = Ok (i_start, i_end) ->
  0 <= i_start <= i_end ->
  Z.of_nat (length chan) <= i_end ->
  Acq.measurement_of rate t0 chan ts te
  = if i_start =? i_end then Ok []
    else Raise (ValueError "could not broadcast input array").
Proof.
  intros Hidx Hrange Hpast.
  unfold Acq.measurement_of. rewrite Hidx. cbn [rbind].
  destruct (linspace_length
              (F64.add t0 (F64.div (F64.of_Z i_start) rate))
              (F64.add t0 (F64.div (F64.of_Z i_end) rate))
              (i_end - i_start + 1)) as (times & -> & Hlen); [lia|].
  cbn [rbind].
  pose proof (slice_length chan i_start (i_end + 1)) as Hslice.
  unfold Np.clamp in Hslice.
  assert ((i_start <? 0) = false) as E1 by (apply Z.ltb_ge; lia).
  assert ((i_end + 1 <? 0) = false) as E2 by (apply Z.ltb_ge; lia).
  rewrite E1, E2 in Hslice.
  set (values := Np.slice chan i_start (i_end + 1)) in *.
  destruct (Z.eqb_spec i_start i_end) as [Heq|Hne].
  - assert (length values = 0%nat) as Hv by lia.
    rewrite Hv. rewrite assign_empty_from_one by lia. cbn [rbind].
    destruct values; [reflexivity|discriminate Hv].
  - rewrite assign_mismatch by lia. reflexivity.
Qed.

Lemma window_past_the_end_witness :
  Acq.measurement_of (F64.of_Z 10) F64.zero Scenario.ramp
    (F64.dec 5 (-1)) (F64.dec 205 (-2))
  = if 5 =? 20 then Ok []
    else Raise (ValueError "could not broadcast input array").
Proof.
  apply (window_past_the_end (F64.of_Z 10) F64.zero (F64.dec 5 (-1))
           (F64.dec 205 (-2)) Scenario.ramp 5 20).
  - vm_compute. reflexivity.
  - lia.
  - vm_compute. discriminate.
Defined.

(** ** Wait durations at the end of a shot *)

(** C2 (as stated) fails: for the four half periods and the single wait
    the resolution yields two durations, 0.05 and 0.15, not the one
    duration 0.15; and two durations do not fit the one record of the
    outcome array, so that no outcome results. *)
Lemma four_half_periods_give_two_durations :
  exists d1 d2,
    WaitMon.resolve Scenario.four_half_periods Scenario.one_wait
    = Ok ([d1; d2], [false; false]) /\
    Scenario.close d1 (F64.dec 5 (-2)) = true /\
    Scenario.close d2 (F64.dec 15 (-2)) = true /\
    WaitMon.wait_table Scenario.monitored = Scenario.one_wait /\
    WaitMon.wait_data Scenario.monitored (Some ([d1; d2], [false; false]))
    = Raise (ValueError "could not broadcast input array").
Proof.
  eexists. eexists. split; [vm_compute; reflexivity|].
  split; [vm_compute; reflexivity|]. split; [vm_compute; reflexivity|].
  split; vm_compute; reflexivity.
Qed.

(** C2 (as the code has it): the edge times are 0, 0.1, 0.15, 0.35, 0.4,
    the rising edges 0, 0.15, 0.4, the observed periods 0.15 and 0.25 and
    the scheduled period 0.1; the subtraction spreads the one scheduled
    period over both observed periods, which gives the two durations 0.05
    and 0.15, neither above the timeout.  Two durations do not fit the one
    record of the outcome array of the single-wait shot: filling it raises
    [ValueError], and no outcome results. *)
Theorem wait_resolution_of_four_half_periods :
  let hp := Scenario.four_half_periods in
  let edge_times := Np.insert0 (Np.cumsum hp) in
  let periods := Np.diff (Np.every_second edge_times) in
  let run_periods := Np.diff (Np.insert0 (map WaitMon.time Scenario.one_wait)) in
  Scenario.all_close edge_times
    [F64.zero; F64.dec 1 (-1); F64.dec 15 (-2); F64.dec 35 (-2); F64.dec 4 (-1)] = true /\
  Scenario.all_close periods [F64.dec 15 (-2); F64.dec 25 (-2)] = true /\
  run_periods = [F64.dec 1 (-1)] /\
  (exists d1 d2,
     WaitMon.resolve hp Scenario.one_wait = Ok ([d1; d2], [false; false]) /\
     Scenario.all_close [d1; d2] [F64.dec 5 (-2); F64.dec 15 (-2)] = true) /\
  WaitMon.wait_table Scenario.monitored = Scenario.one_wait /\
  (let* r := WaitMon.resolve hp (WaitMon.wait_table Scenario.monitored) in
   WaitMon.wait_data Scenario.monitored (Some r))
  = Raise (ValueError "could not broadcast input array").
Proof.
  cbv zeta. split; [vm_compute; reflexivity|]. split; [vm_compute; reflexivity|].
  split; [vm_compute; reflexivity|]. split.
  { eexists. eexists. split; [vm_compute; reflexivity|]. vm_compute. reflexivity. }
  split; vm_compute; reflexivity.
Qed.

(** ** The outcome table at the end of a shot *)

Lemma length_cumsum_from (acc : spec_float) (a : list spec_float) :
  length (Np.cumsum_from acc a) = length a.
Proof.
  revert acc. induction a as [|x r IH]; intros acc; cbn [Np.cumsum_from length].
  - reflexivity.
  - now rewrite IH.
Qed.

Lemma length_cumsum (a : list spec_float) : length (Np.cumsum a) = length a.
Proof.
  destruct a as [|x r]; [reflexivity|].
  cbn [Np.cumsum length]. now rewrite length_cumsum_from.
Qed.

Lemma length_every_second_odd {A : Type} (n : nat) :
  forall a : list A,
    length a = S (2 * n) -> length (Np.every_second a) = S n.
Proof.
  induction n as [|n IH]; intros a Ha.
  - destruct a as [|x [|y r]]; try discriminate. reflexivity.
  - destruct a as [|x [|y r]]; try discriminate.
    change (Np.every_second (x :: y :: r)) with (x :: Np.every_second r).
    cbn [length] in *. rewrite (IH r) by lia. reflexivity.
Qed.

Lemma length_diff (a : list spec_float) : length (Np.diff a) = pred (length a).
Proof.
  induction a as [|x [|y r] IH]; try reflexivity.
  change (Np.diff (x :: y :: r)) with (F64.sub y x :: Np.diff (y :: r)).
  cbn [length pred] in *. now rewrite IH.
Qed.

Lemma broadcast2_same_length {A B C : Type} (f : A -> B -> C) (a : list A) (b : list B) :
  length a = length b ->
  Np.broadcast2 f a b = Ok (zip_with f a b) /\ length (zip_with f a b) = length a.
Proof.
  intros H. unfold Np.broadcast2. rewrite H, Nat.eqb_refl.
  split; [reflexivity|]. rewrite length_zip_with. lia.
Qed.

(** Two half periods per wait resolve to one duration and one flag per
    wait. *)
Lemma resolve_two_edges_per_wait (hp : list spec_float) (table : list WaitMon.wait_row) :
  length hp = (2 * length table)%nat ->
  exists ds fs, WaitMon.resolve hp table = Ok (ds, fs) /\
                length ds = length table /\ length fs = length table.
Proof.
  intros Hhp. unfold WaitMon.resolve.
  set (periods := Np.diff (Np.every_second (Np.insert0 (Np.cumsum hp)))).
  set (run_periods := Np.diff (Np.insert0 (map WaitMon.time table))).
  assert (Hp : length periods = length table).
  { unfold periods. rewrite length_diff.
    rewrite (length_every_second_odd (length table)); [reflexivity|].
    unfold Np.insert0. cbn [length]. rewrite length_cumsum. lia. }
  assert (Hr : length run_periods = length table).
  { unfold run_periods, Np.insert0. rewrite length_diff. cbn [length pred].
    now rewrite length_map. }
  destruct (broadcast2_same_length F64.sub periods run_periods) as [-> Hd]; [lia|].
  cbn [rbind].
  destruct (broadcast2_same_length F64.gtb (zip_with F64.sub periods run_periods)
              (map WaitMon.timeout table)) as [-> Hf].
  { rewrite length_map. lia. }
  cbn [rbind]. eexists. eexists. split; [reflexivity|]. split; lia.
Qed.

Lemma assign_fits {A : Type} (n : nat) (src : list A) :
  length src = n -> Np.assign n src = Ok src.
Proof. intros <-. apply assign_same. Qed.

Lemma records_columns (ls : list string) :
  forall (ts tos ds : list spec_float) (fs : list bool),
    length ts = length ls -> length tos = length ls ->
    length ds = length ls -> length fs = length ls ->
    map WaitMon.o_label (WaitMon.records ls ts tos ds fs) = ls /\
    map WaitMon.o_time (WaitMon.records ls ts tos ds fs) = ts /\
    map WaitMon.o_timeout (WaitMon.records ls ts tos ds fs) = tos /\
    map WaitMon.o_duration (WaitMon.records ls ts tos ds fs) = ds /\
    map WaitMon.o_timed_out (WaitMon.records ls ts tos ds fs) = fs.
Proof.
  induction ls as [|l ls IH]; intros ts tos ds fs Ht Hto Hd Hf.
  - destruct ts, tos, ds, fs; try discriminate. repeat split.
  - destruct ts as [|t ts], tos as [|to tos], ds as [|d ds], fs as [|f fs];
      try discriminate.
    cbn [length] in *.
    destruct (IH ts tos ds fs) as (H1 & H2 & H3 & H4 & H5); try lia.
    cbn [WaitMon.records map WaitMon.o_label WaitMon.o_time WaitMon.o_timeout
         WaitMon.o_duration WaitMon.o_timed_out].
    rewrite H1, H2, H3, H4, H5. repeat split.
Qed.

(** [stop_task] on a worker without the attribute [daqlock]. *)
Lemma stop_task_without_daqlock (w : WaitMon.worker) :
  WaitMon.daqlock w = false ->
  WaitMon.stop_task w
  = (w, Raise (AttributeError
          "'Ni_DAQmxWaitMonitorWorker' object has no attribute 'daqlock'")).
Proof. intros H. unfold WaitMon.stop_task. now rewrite H. Qed.

Lemma transition_to_manual_without_daqlock (w : WaitMon.worker) (f : WaitMon.h5file)
    (abort : bool) :
  WaitMon.daqlock w = false ->
  WaitMon.transition_to_manual w f abort
  = (WaitMon.set_abort w abort, f,
     Raise (AttributeError
       "'Ni_DAQmxWaitMonitorWorker' object has no attribute 'daqlock'")).
Proof.
  intros H. unfold WaitMon.transition_to_manual.
  rewrite stop_task_without_daqlock by exact H. reflexivity.
Qed.

(** No method creates the attribute. *)
Lemma transition_to_buffered_daqlock (w : WaitMon.worker) (device_name : string)
    (f : WaitMon.h5file) :
  WaitMon.daqlock (fst (WaitMon.transition_to_buffered w device_name f))
  = WaitMon.daqlock w.
Proof.
  unfold WaitMon.transition_to_buffered.
  repeat (case_match; cbn [fst WaitMon.daqlock]); reflexivity.
Qed.

Lemma send_resume_trigger_daqlock (w : WaitMon.worker) (pulse_width : spec_float) :
  WaitMon.daqlock (fst (WaitMon.send_resume_trigger w pulse_width)) = WaitMon.daqlock w.
Proof.
  unfold WaitMon.send_resume_trigger.
  repeat (case_match; cbn [fst WaitMon.daqlock WaitMon.emit]); reflexivity.
Qed.

Lemma transition_to_manual_daqlock (w : WaitMon.worker) (f : WaitMon.h5file)
    (abort : bool) :
  WaitMon.daqlock (fst (fst (WaitMon.transition_to_manual w f abort)))
  = WaitMon.daqlock w.
Proof.
  destruct (WaitMon.daqlock w) eqn:Hlock.
  - unfold WaitMon.transition_to_manual, WaitMon.stop_task, WaitMon.set_abort,
      WaitMon.emit.
    cbn [WaitMon.daqlock]. rewrite Hlock.
    repeat (case_match; simplify_eq; cbn [fst snd WaitMon.daqlock]); try reflexivity;
      assumption.
  - rewrite transition_to_manual_without_daqlock by exact Hlock. exact Hlock.
Qed.

(** A worker made by the class has no [daqlock]. *)
Lemma made_without_daqlock (w : WaitMon.worker) :
  WaitMon.made w -> WaitMon.daqlock w = false.
Proof.
  induction 1 as [name|w d f _ IH|w pw _ IH|w f a _ IH].
  - reflexivity.
  - now rewrite transition_to_buffered_daqlock.
  - now rewrite send_resume_trigger_daqlock.
  - now rewrite transition_to_manual_daqlock.
Qed.

(** C3: the end of a shot on the wait monitor.  On a worker fresh from
    [init], [transition_to_buffered] for the single-wait shot that names
    the device as the timeout device marks it as the wait monitor, starts
    the reader thread and leaves the list of half periods empty.
    [transition_to_manual] without abort then raises [AttributeError] in
    [stop_task], which takes a lock that the class never creates: the file
    has no [/data/waits] table afterwards and no event is posted.  The
    lines that would build the table, applied to the empty list of half
    periods, raise [ValueError].  For the shot without waits the end of the
    shot raises in the same way. *)
Theorem shot_end_raises_before_outcomes_are_written :
  let b := WaitMon.transition_to_buffered Scenario.idle_monitor "ni_card"
             Scenario.shot_one_wait in
  let w1 := fst b in
  let r := WaitMon.transition_to_manual w1 Scenario.shot_one_wait false in
  snd b = Ok tt /\
  WaitMon.is_wait_monitor_device w1 = true /\
  WaitMon.waits_in_use w1 = true /\
  last (WaitMon.log w1) = Some WaitMon.ThreadStarted /\
  WaitMon.half_periods w1 = [] /\
  snd r = Raise (AttributeError
            "'Ni_DAQmxWaitMonitorWorker' object has no attribute 'daqlock'") /\
  WaitMon.data_waits (snd (fst r)) = None /\
  WaitMon.log (fst (fst r)) = WaitMon.log w1 /\
  (let* res := WaitMon.resolve (WaitMon.half_periods w1) (WaitMon.wait_table w1) in
   WaitMon.wait_data w1 (Some res))
  = Raise (ValueError "could not broadcast input array") /\
  (let b0 := WaitMon.transition_to_buffered Scenario.idle_monitor "ni_card"
               Scenario.shot_no_waits in
   let r0 := WaitMon.transition_to_manual (fst b0) Scenario.shot_no_waits false in
   snd b0 = Ok tt /\
   snd r0 = Raise (AttributeError
              "'Ni_DAQmxWaitMonitorWorker' object has no attribute 'daqlock'") /\
   WaitMon.data_waits (snd (fst r0)) = None).
Proof.
  cbv zeta.
  repeat (split; [vm_compute; reflexivity|]).
  repeat split; vm_compute; reflexivity.
Qed.

(** * Further properties

    Properties of the embedded code beyond the ones above. *)

(** ** The chunk callback *)

Lemma ReadAnalogF64_conserves (t : Acq.Task) (num_samples : Z) (capacity : nat) :
  fst (Acq.ReadAnalogF64 t num_samples capacity)
    ++ Acq.unread (snd (Acq.ReadAnalogF64 t num_samples capacity)) = Acq.unread t /\
  (length (fst (Acq.ReadAnalogF64 t num_samples capacity)) <= capacity)%nat /\
  Acq.taskHandle (snd (Acq.ReadAnalogF64 t num_samples capacity)) = Acq.taskHandle t.
Proof.
  unfold Acq.ReadAnalogF64. cbn [fst snd Acq.unread Acq.taskHandle].
  split; [apply take_drop|]. split; [|reflexivity].
  rewrite length_take. lia.
Qed.

(** X1: in buffered mode a call of [read] with the handle of the running
    task appends exactly one chunk to [acquired_data], made of the rows the
    driver handed over, rounded to binary32.  No sample is lost or read
    twice: these rows followed by the rows the task still holds are the
    rows it held before, and they are never more than the staging array
    has room for. *)
Theorem read_appends_one_chunk (w : Acq.worker) (t : Acq.Task) (arr : list Acq.row)
    (acc : list (list Acq.row)) (num_samples : Z) :
  Acq.task w = Some t ->
  Acq.read_array w = Some arr ->
  Acq.buffered_mode w = true ->
  Acq.acquired_data w = Some acc ->
  exists rows t' w',
    Acq.read w (Acq.PyInt (Acq.taskHandle t)) num_samples = Ok (0, w') /\
    Acq.acquired_data w' = Some (acc ++ [map (map F32.of_f64) rows]) /\
    Acq.task w' = Some t' /\
    rows ++ Acq.unread t' = Acq.unread t /\
    (length rows <= length arr)%nat /\
    Acq.taskHandle t' = Acq.taskHandle t /\
    Acq.buffered_mode w' = true.
Proof.
  intros Ht Harr Hbuf Hacc.
  destruct (ReadAnalogF64_conserves t num_samples (length arr)) as (Hcons & Hcap & Hh).
  unfold Acq.read. rewrite Ht. cbn [Acq.py_ne]. rewrite Z.eqb_refl. cbn [negb].
  rewrite Harr.
  destruct (Acq.ReadAnalogF64 t num_samples (length arr)) as [rows t'] eqn:E.
  cbn [fst snd] in *. rewrite Hbuf, Hacc.
  exists rows, t'. eexists. split; [reflexivity|].
  cbn [Acq.set_acquired_data Acq.set_task Acq.acquired_data Acq.task
       Acq.buffered_mode].
  repeat split; assumption.
Qed.

Lemma read_appends_one_chunk_witness :
  exists rows t' w',
    Acq.read Scenario.streaming (Acq.PyInt 1) 1 = Ok (0, w') /\
    Acq.acquired_data w'
    = Some ([[[F32.of_f64 (F64.dec 5 (-1))]]] ++ [map (map F32.of_f64) rows]) /\
    Acq.task w' = Some t' /\
    rows ++ Acq.unread t' = Acq.unread Scenario.streaming_task /\
    (length rows <= length (repeat [F64.zero] 200))%nat /\
    Acq.taskHandle t' = 1 /\
    Acq.buffered_mode w' = true.
Proof.
  apply (read_appends_one_chunk Scenario.streaming Scenario.streaming_task
           (repeat [F64.zero] 200) [[[F32.of_f64 (F64.dec 5 (-1))]]] 1);
    reflexivity.
Defined.

(** X2: in manual mode the rows that [read] fetches from the running task
    are dropped: they leave the driver's buffer and [acquired_data] stays
    as it was. *)
Theorem read_in_manual_mode_discards (w : Acq.worker) (t : Acq.Task)
    (arr : list Acq.row) (num_samples : Z) :
  Acq.task w = Some t ->
  Acq.read_array w = Some arr ->
  Acq.buffered_mode w = false ->
  exists rows t' w',
    Acq.read w (Acq.PyInt (Acq.taskHandle t)) num_samples = Ok (0, w') /\
    Acq.acquired_data w' = Acq.acquired_data w /\
    Acq.task w' = Some t' /\
    rows ++ Acq.unread t' = Acq.unread t /\
    length rows = Nat.min (if num_samples <? 0 then length (Acq.unread t)
                           else Z.to_nat num_samples)
                          (Nat.min (length arr) (length (Acq.unread t))).
Proof.
  intros Ht Harr Hbuf.
  unfold Acq.read. rewrite Ht. cbn [Acq.py_ne]. rewrite Z.eqb_refl. cbn [negb].
  rewrite Harr. unfold Acq.ReadAnalogF64. rewrite Hbuf.
  eexists. eexists. eexists. split; [reflexivity|].
  cbn [Acq.set_task Acq.acquired_data Acq.task Acq.unread].
  split; [reflexivity|]. split; [reflexivity|]. split; [apply take_drop|].
  rewrite length_take. lia.
Qed.

Lemma read_in_manual_mode_discards_witness :
  exists rows t' w',
    Acq.read Example.manual_streaming (Acq.PyInt 1) (-1) = Ok (0, w') /\
    Acq.acquired_data w' = None /\
    Acq.task w' = Some t' /\
    rows ++ Acq.unread t' = Acq.unread Scenario.streaming_task /\
    length rows = Nat.min (if -1 <? 0 then length (Acq.unread Scenario.streaming_task)
                           else Z.to_nat (-1))
                          (Nat.min (length (repeat [F64.zero] 200))
                                   (length (Acq.unread Scenario.streaming_task))).
Proof.
  apply (read_in_manual_mode_discards Example.manual_streaming
           Scenario.streaming_task (repeat [F64.zero] 200) (-1)); reflexivity.
Defined.

(** ** Starting and stopping the task *)

(** X3: the life cycle of the task.  After a successful [start_task] a
    second [start_task] raises; [stop_task] then succeeds and restores every
    attribute that [start_task] changed except the driver's handle counter,
    with [read_array] cleared; and a second [stop_task] raises. *)
Theorem start_stop_life_cycle (w w1 : Acq.worker) (chans chans' : list string)
    (rate rate' : spec_float) :
  Acq.task w = None ->
  Acq.start_task w chans rate = Ok w1 ->
  Acq.start_task w1 chans' rate' = Raise (RuntimeError "Task already running") /\
  exists w2,
    Acq.stop_task w1 = Ok w2 /\
    w2 = Acq.set_next_handle (Acq.set_task w None None) (Acq.next_handle w + 1) /\
    Acq.stop_task w2 = Raise (RuntimeError "Task not running").
Proof.
  intros Hidle Hstart. unfold Acq.start_task in Hstart. rewrite Hidle in Hstart.
  destruct (Acq.num_samples_for rate) as [n|e]; [|discriminate].
  cbn [rbind] in Hstart.
  destruct (Acq.zeros n (length chans)) as [arr|e]; [|discriminate].
  cbn [rbind] in Hstart. injection Hstart as <-.
  split; [reflexivity|].
  eexists. split; [eapply stop_task_running; reflexivity|].
  split; [reflexivity|]. reflexivity.
Qed.

Lemma start_stop_life_cycle_witness :
  Acq.start_task
    (Acq.set_next_handle
       (Acq.set_task Scenario.idle
          (Some (Acq.mkTask 1 ["ai0"] (F64.of_Z 1000) 200 false []))
          (Some (repeat [F64.zero] 200))) 2)
    ["ai1"] (F64.of_Z 10)
  = Raise (RuntimeError "Task already running") /\
  exists w2,
    Acq.stop_task
      (Acq.set_next_handle
         (Acq.set_task Scenario.idle
            (Some (Acq.mkTask 1 ["ai0"] (F64.of_Z 1000) 200 false []))
            (Some (repeat [F64.zero] 200))) 2) = Ok w2 /\
    w2 = Acq.set_next_handle (Acq.set_task Scenario.idle None None)
           (Acq.next_handle Scenario.idle + 1) /\
    Acq.stop_task w2 = Raise (RuntimeError "Task not running").
Proof.
  apply (start_stop_life_cycle Scenario.idle _ ["ai0"] ["ai1"]
           (F64.of_Z 1000) (F64.of_Z 10)).
  - reflexivity.
  - vm_compute. reflexivity.
Defined.

(** ** Measurement windows *)

Lemma measurement_of_columns (rate t0 ts te : spec_float) (chan : list spec_float)
    (i_start i_end : Z) (times : list spec_float) :
  Acq.sample_indices rate t0 ts te = Ok (i_start, i_end) ->
  Np.linspace (F64.add t0 (F64.div (F64.of_Z i_start) rate))
              (F64.add t0 (F64.div (F64.of_Z i_end) rate))
              (i_end - i_start + 1) = Ok times ->
  length times = length (Np.slice chan i_start (i_end + 1)) ->
  Acq.measurement_of rate t0 chan ts te
  = Ok (zip times (Np.slice chan i_start (i_end + 1))).
Proof.
  intros Hidx Hlin Hlen. unfold Acq.measurement_of.
  rewrite Hidx. cbn [rbind]. rewrite Hlin. cbn [rbind].
  rewrite <- Hlen at 1. rewrite assign_same. cbn [rbind].
  rewrite assign_same. reflexivity.
Qed.

Lemma linspace_last (start stop : spec_float) (num : Z) (times : list spec_float) :
  1 < num -> Np.linspace start stop num = Ok times -> last times = Some stop.
Proof.
  intros Hnum. unfold Np.linspace.
  assert ((num <? 0) = false) as -> by (apply Z.ltb_ge; lia).
  assert ((1 <? num) = true) as -> by (apply Z.ltb_lt; lia).
  intros [= <-].
  set (l := map _ _).
  assert (Hl : l <> []).
  { unfold l. intros Hnil. apply (f_equal length) in Hnil.
    rewrite length_map in Hnil. cbn [length] in Hnil.
    destruct (F64.eqb _ _); rewrite length_map, length_arange in Hnil; lia. }
  clearbody l. induction l as [|x [|y r] IH]; [congruence|reflexivity|].
  change (Np.set_last (x :: y :: r) stop) with (x :: Np.set_last (y :: r) stop).
  destruct (Np.set_last (y :: r) stop) as [|z r'] eqn:E.
  - apply (f_equal length) in E. rewrite length_set_last in E. discriminate E.
  - change (last (x :: z :: r')) with (last (z :: r')). apply IH. discriminate.
Qed.

(** X4: a window whose computed indices lie inside the channel's waveform
    yields the samples [i_start], ..., [i_end] of the waveform, in order
    and each once, each paired with a time; when there are two or more, the
    last time is exactly [t0 + i_end / rate]. *)
Theorem window_inside_buffer (rate t0 ts te : spec_float) (chan : list spec_float)
    (i_start i_end : Z) :
  Acq.sample_indices rate t0 ts te = Ok (i_start, i_end) ->
  0 <= i_start <= i_end ->
  i_end < Z.of_nat (length chan) ->
  exists s,
    Acq.measurement_of rate t0 chan ts te = Ok s /\
    map snd s = take (Z.to_nat (i_end - i_start + 1)) (drop (Z.to_nat i_start) chan) /\
    length s = Z.to_nat (i_end - i_start + 1) /\
    (i_start < i_end ->
     last (map fst s) = Some (F64.add t0 (F64.div (F64.of_Z i_end) rate))).
Proof.
  intros Hidx Hrange Hin.
  destruct (linspace_length
              (F64.add t0 (F64.div (F64.of_Z i_start) rate))
              (F64.add t0 (F64.div (F64.of_Z i_end) rate))
              (i_end - i_start + 1)) as (times & Hlin & Hlen); [lia|].
  assert (Hslice : Np.slice chan i_start (i_end + 1)
                   = take (Z.to_nat (i_end - i_start + 1)) (drop (Z.to_nat i_start) chan)).
  { unfold Np.slice, Np.clamp.
    assert ((i_start <? 0) = false) as -> by (apply Z.ltb_ge; lia).
    assert ((i_end + 1 <? 0) = false) as -> by (apply Z.ltb_ge; lia).
    f_equal; [lia|]. f_equal. lia. }
  assert (Hvals : length (Np.slice chan i_start (i_end + 1))
                  = Z.to_nat (i_end - i_start + 1)).
  { rewrite Hslice, length_take, length_drop. lia. }
  exists (zip times (Np.slice chan i_start (i_end + 1))).
  split; [apply measurement_of_columns; auto; lia|].
  split; [rewrite snd_zip by lia; exact Hslice|].
  split; [rewrite length_zip; lia|].
  intros Hlt. rewrite fst_zip by lia.
  eapply (linspace_last _ _ (i_end - i_start + 1)); [lia|exact Hlin].
Qed.

Lemma window_inside_buffer_witness :
  exists s,
    Acq.measurement_of (F64.of_Z 10) F64.zero Scenario.ramp
      (fst Example.inner_window) (snd Example.inner_window) = Ok s /\
    map snd s = take (Z.to_nat (5 - 2 + 1)) (drop (Z.to_nat 2) Scenario.ramp) /\
    length s = Z.to_nat (5 - 2 + 1) /\
    (2 < 5 ->
     last (map fst s) = Some (F64.add F64.zero (F64.div (F64.of_Z 5) (F64.of_Z 10)))).
Proof.
  apply (window_inside_buffer (F64.of_Z 10) F64.zero (fst Example.inner_window)
           (snd Example.inner_window) Scenario.ramp 2 5).
  - vm_compute. reflexivity.
  - lia.
  - vm_compute. reflexivity.
Defined.

(** X5: a window whose computed indices are negative, from [-len] up to
    [-2] at most, raises nothing: Python's slice counts them from the end,
    and the series holds the samples [len + i_start], ..., [len + i_end] of
    the waveform, taken long after the requested time. *)
Theorem window_before_start_reads_from_the_end (rate t0 ts te : spec_float)
    (chan : list spec_float) (i_start i_end : Z) :
  Acq.sample_indices rate t0 ts te = Ok (i_start, i_end) ->
  - Z.of_nat (length chan) <= i_start <= i_end ->
  i_end <= -2 ->
  exists s,
    Acq.measurement_of rate t0 chan ts te = Ok s /\
    map snd s = take (Z.to_nat (i_end - i_start + 1))
                     (drop (Z.to_nat (Z.of_nat (length chan) + i_start)) chan) /\
    length s = Z.to_nat (i_end - i_start + 1).
Proof.
  intros Hidx Hrange Hneg.
  destruct (linspace_length
              (F64.add t0 (F64.div (F64.of_Z i_start) rate))
              (F64.add t0 (F64.div (F64.of_Z i_end) rate))
              (i_end - i_start + 1)) as (times & Hlin & Hlen); [lia|].
  assert (Hslice : Np.slice chan i_start (i_end + 1)
                   = take (Z.to_nat (i_end - i_start + 1))
                          (drop (Z.to_nat (Z.of_nat (length chan) + i_start)) chan)).
  { unfold Np.slice, Np.clamp.
    assert ((i_start <? 0) = true) as -> by (apply Z.ltb_lt; lia).
    assert ((i_end + 1 <? 0) = true) as -> by (apply Z.ltb_lt; lia).
    f_equal; [lia|]. f_equal. lia. }
  assert (Hvals : length (Np.slice chan i_start (i_end + 1))
                  = Z.to_nat (i_end - i_start + 1)).
  { rewrite Hslice, length_take, length_drop. lia. }
  exists (zip times (Np.slice chan i_start (i_end + 1))).
  split; [apply measurement_of_columns; auto; lia|].
  split; [rewrite snd_zip by lia; exact Hslice|].
  rewrite length_zip; lia.
Qed.

Lemma window_before_start_reads_from_the_end_witness :
  exists s,
    Acq.measurement_of (F64.of_Z 10) (F64.of_Z 1) Scenario.ramp
      (F64.dec 5 (-1)) (F64.dec 75 (-2)) = Ok s /\
    map snd s = take (Z.to_nat (-3 - -5 + 1))
                     (drop (Z.to_nat (Z.of_nat (length Scenario.ramp) + -5))
                           Scenario.ramp) /\
    length s = Z.to_nat (-3 - -5 + 1).
Proof.
  apply (window_before_start_reads_from_the_end (F64.of_Z 10) (F64.of_Z 1)
           (F64.dec 5 (-1)) (F64.dec 75 (-2)) Scenario.ramp (-5) (-3)).
  - vm_compute. reflexivity.
  - vm_compute. split; discriminate.
  - lia.
Defined.

(** X6: a window whose computed [i_end] lies below [i_start]: when it is
    exactly one below, the window holds no sample and an empty series
    results without an error, wherever the indices lie; when it is lower,
    [np.linspace] is asked for a negative number of samples and raises
    [ValueError]. *)
Theorem window_without_samples (rate t0 ts te : spec_float) (chan : list spec_float)
    (i_start i_end : Z) :
  Acq.sample_indices rate t0 ts te = Ok (i_start, i_end) ->
  i_end < i_start ->
  Acq.measurement_of rate t0 chan ts te
  = if i_end =? i_start - 1 then Ok []
    else Raise (ValueError "Number of samples must be non-negative").
Proof.
  intros Hidx Hlt. unfold Acq.measurement_of. rewrite Hidx. cbn [rbind].
  destruct (Z.eqb_spec i_end (i_start - 1)) as [-> | Hne].
  - replace (i_start - 1 - i_start + 1) with 0 by lia.
    replace (i_start - 1 + 1) with i_start by lia.
    unfold Np.linspace. cbn [Z.ltb Z.compare Z.to_nat Np.arange map rbind].
    assert (Np.slice chan i_start i_start = []) as ->.
    { unfold Np.slice. rewrite Nat.sub_diag. reflexivity. }
    reflexivity.
  - unfold Np.linspace.
    assert ((i_end - i_start + 1 <? 0) = true) as -> by (apply Z.ltb_lt; lia).
    reflexivity.
Qed.

Lemma window_without_samples_witness :
  Acq.measurement_of (F64.of_Z 10) F64.zero Scenario.ramp
    (F64.dec 5 (-1)) (F64.dec 2 (-1))
  = if 1 =? 5 - 1 then Ok []
    else Raise (ValueError "Number of samples must be non-negative").
Proof.
  apply (window_without_samples (F64.of_Z 10) F64.zero (F64.dec 5 (-1))
           (F64.dec 2 (-1)) Scenario.ramp 5 1).
  - vm_compute. reflexivity.
  - lia.
Defined.

(** ** The loop over the requested measurements *)

Lemma create_dataset_fresh (traces traces' : list (string * Acq.series))
    (d : string * Acq.series) :
  Acq.create_dataset traces d = Ok traces' ->
  traces' = traces ++ [d] /\ ~ In (fst d) (map fst traces).
Proof.
  unfold Acq.create_dataset.
  destruct (existsb (String.eqb (fst d)) (map fst traces)) eqn:E; [discriminate|].
  intros [= <-]. split; [reflexivity|].
  intros Hin. apply not_true_iff_false in E. apply E.
  apply existsb_exists. exists (fst d). split; [exact Hin|apply String.eqb_refl].
Qed.

Lemma extract_measurements_spec (rate t0 : spec_float) (waits : option (list Acq.wait))
    (raw_data : gmap string (list spec_float)) (acquisitions : list Acq.acquisition) :
  forall traces : list (string * Acq.series),
    exists new,
      fst (Acq.extract_measurements rate t0 waits raw_data acquisitions traces)
      = traces ++ new /\
      map fst new = take (length new) (map Acq.label acquisitions) /\
      (NoDup (map fst traces) -> NoDup (map fst (traces ++ new))) /\
      match snd (Acq.extract_measurements rate t0 waits raw_data acquisitions traces) with
      | None => length new = length acquisitions
      | Some _ => (length new < length acquisitions)%nat
      end.
Proof.
  induction acquisitions as [|a rest IH]; intros traces.
  - exists []. cbn. rewrite app_nil_r. repeat split; auto.
  - cbn [Acq.extract_measurements].
    destruct (Acq.extract_one rate t0 waits raw_data a) as [d|e] eqn:Hone.
    + cbn [rbind].
      destruct (Acq.create_dataset traces d) as [traces'|e] eqn:Hcreate.
      * destruct (create_dataset_fresh _ _ _ Hcreate) as [-> Hfresh].
        destruct (IH (traces ++ [d])) as (new & Hfst & Hlabels & Hnodup & Hsnd).
        exists (d :: new). rewrite Hfst, <- app_assoc. cbn [app length map take].
        assert (Hd : fst d = Acq.label a).
        { unfold Acq.extract_one in Hone.
          destruct (Acq.sample_indices _ _ _ _) as [[i_start i_end]|];
            [|discriminate].
          cbn [rbind] in Hone.
          destruct (Np.linspace _ _ _); [|discriminate]. cbn [rbind] in Hone.
          destruct (raw_data !! Acq.connection a); [|discriminate].
          destruct (Acq.measurement_of _ _ _ _ _); [|discriminate].
          cbn [rbind] in Hone. now injection Hone as <-. }
        split; [reflexivity|]. split; [now rewrite Hd, Hlabels|].
        split.
        { intros Hnd. rewrite <- app_assoc in Hnodup. cbn [app] in Hnodup.
          apply Hnodup. rewrite map_app. cbn [map].
          apply NoDup_app. split; [exact Hnd|]. split.
          - intros x Hx Hx'. apply list_elem_of_In in Hx.
            apply list_elem_of_singleton in Hx'. subst x. contradiction.
          - apply NoDup_singleton. }
        destruct (snd (Acq.extract_measurements rate t0 waits raw_data rest
                         (traces ++ [d]))); lia.
      * exists []. cbn [fst snd length]. rewrite app_nil_r.
        repeat split; auto. lia.
    + exists []. cbn [rbind fst snd length]. rewrite app_nil_r.
      repeat split; auto. lia.
Qed.

(** X7: [extract_measurements] only ever adds datasets.  The datasets in
    the file before the loop stay, in place; the new ones follow, one per
    row of the [AI] table in table order and named by the rows' labels,
    and dataset names stay unique.  Without an exception every row has its
    dataset; with one, the loop has stopped early and the rows from the
    failing one on have none. *)
Theorem extract_measurements_appends (rate t0 : spec_float)
    (waits : option (list Acq.wait)) (raw_data : gmap string (list spec_float))
    (acquisitions : list Acq.acquisition) (traces : list (string * Acq.series)) :
  exists new,
    fst (Acq.extract_measurements rate t0 waits raw_data acquisitions traces)
    = traces ++ new /\
    map fst new = take (length new) (map Acq.label acquisitions) /\
    (NoDup (map fst traces) -> NoDup (map fst (traces ++ new))) /\
    match snd (Acq.extract_measurements rate t0 waits raw_data acquisitions traces) with
    | None => length new = length acquisitions
    | Some _ => (length new < length acquisitions)%nat
    end.
Proof. apply extract_measurements_spec. Qed.

(** ** Waiting for an edge *)

Lemma wait_loop_without_timeout (rt : spec_float) (env : WaitMon.environment)
    (fuel : nat) :
  forall k : nat,
    fst (WaitMon.wait_loop None rt env k fuel) <> WaitMon.Returned None /\
    Forall (eq rt) (snd (WaitMon.wait_loop None rt env k fuel)).
Proof.
  induction fuel as [|fuel IH]; intros k; cbn [WaitMon.wait_loop].
  - split; [discriminate|constructor].
  - destruct (WaitMon.abort_at env k); [split; [discriminate|constructor]|].
    destruct (WaitMon.read_at env k).
    + split; [discriminate|]. repeat constructor.
    + destruct (IH (S k)) as [Hr Hc].
      destruct (WaitMon.wait_loop None rt env (S k) fuel) as [r calls].
      cbn [fst snd] in *. split; [exact Hr|]. constructor; [reflexivity|exact Hc].
Qed.

(** X8: without a timeout [wait_for_rising_edge] never returns [None],
    however long it is observed: it returns a measured half period, raises,
    or is still waiting; and every read it makes has the timeout 0.2 s. *)
Theorem wait_without_timeout_never_returns_none (env : WaitMon.environment)
    (fuel : nat) :
  fst (WaitMon.wait_for_rising_edge None env fuel) <> WaitMon.Returned None /\
  Forall (eq WaitMon.poll_interval) (snd (WaitMon.wait_for_rising_edge None env fuel)).
Proof. apply wait_loop_without_timeout. Qed.

Lemma wait_loop_edge (rt : spec_float) (env : WaitMon.environment) (v : spec_float)
    (k : nat) :
  forall start fuel : nat,
    (forall j : nat, (j <= k)%nat -> WaitMon.abort_at env (start + j) = false) ->
    (forall j : nat, (j < k)%nat -> WaitMon.read_at env (start + j) = None) ->
    WaitMon.read_at env (start + k) = Some v ->
    (k < fuel)%nat ->
    WaitMon.wait_loop None rt env start fuel
    = (WaitMon.Returned (Some v), repeat rt (S k)).
Proof.
  induction k as [|k IH]; intros start fuel Hab Hquiet Hedge Hfuel.
  - destruct fuel as [|fuel]; [lia|]. cbn [WaitMon.wait_loop].
    pose proof (Hab 0%nat ltac:(lia)) as H0.
    rewrite Nat.add_0_r in H0, Hedge. rewrite H0, Hedge. reflexivity.
  - destruct fuel as [|fuel]; [lia|]. cbn [WaitMon.wait_loop].
    pose proof (Hab 0%nat ltac:(lia)) as H0.
    pose proof (Hquiet 0%nat ltac:(lia)) as H1.
    rewrite Nat.add_0_r in H0, H1. rewrite H0, H1.
    rewrite (IH (S start) fuel).
    + reflexivity.
    + intros j Hj. replace (S start + j)%nat with (start + S j)%nat by lia.
      apply Hab. lia.
    + intros j Hj. replace (S start + j)%nat with (start + S j)%nat by lia.
      apply Hquiet. lia.
    + replace (S start + k)%nat with (start + S k)%nat by lia. exact Hedge.
    + lia.
Qed.

(** X9: when the abort flag stays down and the counter delivers its first
    edge with the read number [k] (counted from 0), a wait without timeout
    returns that half period after [k + 1] reads of 0.2 s.  A wait with a
    finite timeout [t] reads once, with the timeout [t]: it returns the
    half period if the edge came with that read and [None] otherwise. *)
Theorem wait_returns_the_first_edge (timeout : option spec_float)
    (env : WaitMon.environment) (v : spec_float) (k fuel : nat) :
  (forall j : nat, (j <= k)%nat -> WaitMon.abort_at env j = false) ->
  (forall j : nat, (j < k)%nat -> WaitMon.read_at env j = None) ->
  WaitMon.read_at env k = Some v ->
  (k < fuel)%nat ->
  WaitMon.wait_for_rising_edge timeout env fuel =
    match timeout with
    | None => (WaitMon.Returned (Some v), repeat WaitMon.poll_interval (S k))
    | Some t =>
        (WaitMon.Returned (if Nat.eqb k 0 then Some v else None), [t])
    end.
Proof.
  intros Hab Hquiet Hedge Hfuel. unfold WaitMon.wait_for_rising_edge.
  destruct timeout as [t|].
  - destruct fuel as [|fuel]; [lia|]. cbn [WaitMon.wait_loop].
    rewrite (Hab 0%nat) by lia.
    destruct k as [|k].
    + rewrite Hedge. reflexivity.
    + rewrite (Hquiet 0%nat) by lia. reflexivity.
  - apply wait_loop_edge; auto.
Qed.

Lemma wait_returns_the_first_edge_witness :
  WaitMon.wait_for_rising_edge None Example.edge_at_third_read 10
  = (WaitMon.Returned (Some (F64.dec 5 (-2))), repeat WaitMon.poll_interval 3).
Proof.
  apply (wait_returns_the_first_edge None Example.edge_at_third_read
           (F64.dec 5 (-2)) 2 10).
  - reflexivity.
  - intros j Hj. destruct j as [|[|j]]; [reflexivity|reflexivity|lia].
  - reflexivity.
  - lia.
Defined.

(** ** The end of a shot on the wait monitor *)

Lemma length_every_second_any {A : Type} (a : list A) :
  length (Np.every_second a) = Nat.div2 (S (length a)) /\
  forall x : A, length (Np.every_second (x :: a)) = Nat.div2 (S (S (length a))).
Proof.
  induction a as [|y a [IH1 IH2]].
  - split; [reflexivity|]. intros x. reflexivity.
  - split; [apply IH2|]. intros x.
    change (Np.every_second (x :: y :: a)) with (x :: Np.every_second a).
    cbn [length]. rewrite IH1. reflexivity.
Qed.

(** The number of observed periods is half the number of half periods,
    rounded down. *)
Lemma length_periods (hp : list spec_float) :
  length (Np.diff (Np.every_second (Np.insert0 (Np.cumsum hp))))
  = Nat.div2 (length hp).
Proof.
  rewrite length_diff. unfold Np.insert0.
  rewrite (proj2 (length_every_second_any (Np.cumsum hp)) F64.zero).
  rewrite length_cumsum. reflexivity.
Qed.

Lemma length_run_periods (table : list WaitMon.wait_row) :
  length (Np.diff (Np.insert0 (map WaitMon.time table))) = length table.
Proof. rewrite length_diff. unfold Np.insert0. cbn [length pred]. apply length_map. Qed.

Lemma broadcast2_one_left {A B C : Type} (f : A -> B -> C) (a : list A) (b : list B) :
  length a = 1%nat ->
  exists l, Np.broadcast2 f a b = Ok l /\ length l = length b.
Proof.
  intros Ha. destruct a as [|x [|y r]]; try discriminate.
  unfold Np.broadcast2. destruct (Nat.eqb (length [x]) (length b)) eqn:E.
  - apply Nat.eqb_eq in E. eexists. split; [reflexivity|].
    rewrite length_zip_with. lia.
  - eexists. split; [reflexivity|]. apply length_map.
Qed.

Lemma broadcast2_one_right {A B C : Type} (f : A -> B -> C) (a : list A) (b : list B) :
  length b = 1%nat ->
  exists l, Np.broadcast2 f a b = Ok l /\ length l = length a.
Proof.
  intros Hb. destruct b as [|y [|z r]]; try discriminate.
  unfold Np.broadcast2. destruct (Nat.eqb (length a) (length [y])) eqn:E.
  - apply Nat.eqb_eq in E. eexists. split; [reflexivity|].
    rewrite length_zip_with. lia.
  - destruct a as [|x [|x' a']]; eexists; (split; [reflexivity|]);
      try reflexivity. now rewrite length_map.
Qed.

Lemma broadcast2_mismatch {A B C : Type} (f : A -> B -> C) (a : list A) (b : list B) :
  length a <> length b -> length a <> 1%nat -> length b <> 1%nat ->
  Np.broadcast2 f a b
  = Raise (ValueError "operands could not be broadcast together").
Proof.
  intros Hab Ha Hb. unfold Np.broadcast2.
  apply Nat.eqb_neq in Hab. rewrite Hab.
  destruct a as [|x [|x' a']]; [|now contradiction Ha|];
    destruct b as [|y [|y' b']]; try reflexivity; now contradiction Hb.
Qed.

(** The columns built at the end of a shot, by the number of periods. *)
Lemma wait_data_by_lengths (w : WaitMon.worker) (hp : list spec_float) :
  let p := Nat.div2 (length hp) in
  let n := length (WaitMon.wait_table w) in
  (p = n \/ p = 1%nat ->
   exists ds fs,
     WaitMon.resolve hp (WaitMon.wait_table w) = Ok (ds, fs) /\
     length ds = n /\ length fs = n) /\
  (p <> n -> p <> 1%nat ->
   exists msg,
     (let* r := WaitMon.resolve hp (WaitMon.wait_table w) in
      WaitMon.wait_data w (Some r)) = Raise (ValueError msg)).
Proof.
  intros p n.
  pose proof (length_periods hp) as Hp.
  pose proof (length_run_periods (WaitMon.wait_table w)) as Hr.
  fold p in Hp. fold n in Hr.
  unfold WaitMon.resolve.
  set (periods := Np.diff (Np.every_second (Np.insert0 (Np.cumsum hp)))) in *.
  set (run_periods := Np.diff (Np.insert0 (map WaitMon.time (WaitMon.wait_table w)))) in *.
  assert (Hto : length (map WaitMon.timeout (WaitMon.wait_table w)) = n)
    by apply length_map.
  split.
  - intros Hcase.
    assert (Hsub : exists ds, Np.broadcast2 F64.sub periods run_periods = Ok ds /\
                              length ds = n).
    { destruct (Nat.eq_dec p n) as [Heq|Hne].
      - destruct (broadcast2_same_length F64.sub periods run_periods) as [E L]; [lia|].
        eexists. split; [exact E|lia].
      - destruct (broadcast2_one_left F64.sub periods run_periods) as (l & E & L); [lia|].
        exists l. split; [exact E|lia]. }
    destruct Hsub as (ds & -> & Hds). cbn [rbind].
    destruct (broadcast2_same_length F64.gtb ds (map WaitMon.timeout (WaitMon.wait_table w)))
      as [-> Hfs]; [lia|].
    cbn [rbind]. eexists. eexists. split; [reflexivity|]. split; lia.
  - intros Hne H1.
    destruct (Nat.eq_dec n 1%nat) as [Hn1|Hn1].
    + destruct (broadcast2_one_right F64.sub periods run_periods) as (ds & -> & Hds);
        [lia|].
      cbn [rbind].
      destruct (broadcast2_one_right F64.gtb ds (map WaitMon.timeout (WaitMon.wait_table w)))
        as (fs & -> & Hfs); [lia|].
      cbn [rbind]. unfold WaitMon.wait_data. fold n.
      rewrite !assign_fits by (rewrite ?length_map; lia). cbn [rbind].
      rewrite (assign_mismatch n ds) by lia. cbn [rbind].
      eexists. reflexivity.
    + rewrite broadcast2_mismatch by lia. cbn [rbind]. eexists. reflexivity.
Qed.

(** X10: when the outcome array can be filled.  The lines of
    [transition_to_manual] that resolve the wait durations and fill the
    record array, applied to a list of half periods, succeed exactly when
    the half periods make as many periods as the shot has waits, or make
    one period; the array then has one record per wait, with the labels,
    times and time-outs of the wait table.  Otherwise they raise a
    [ValueError].  In particular they raise for every shot with waits when
    the list is empty, as [transition_to_buffered] leaves it. *)
Theorem outcome_array_filled_iff (w : WaitMon.worker) (hp : list spec_float) :
  let p := Nat.div2 (length hp) in
  let n := length (WaitMon.wait_table w) in
  let filled := let* r := WaitMon.resolve hp (WaitMon.wait_table w) in
                WaitMon.wait_data w (Some r) in
  (p = n \/ p = 1%nat ->
   exists recs,
     filled = Ok recs /\ length recs = n /\
     map WaitMon.o_label recs = map WaitMon.label (WaitMon.wait_table w) /\
     map WaitMon.o_time recs = map WaitMon.time (WaitMon.wait_table w) /\
     map WaitMon.o_timeout recs = map WaitMon.timeout (WaitMon.wait_table w)) /\
  (~ (p = n \/ p = 1%nat) -> exists msg, filled = Raise (ValueError msg)) /\
  (hp = [] -> n <> 0%nat -> exists msg, filled = Raise (ValueError msg)).
Proof.
  intros p n filled.
  destruct (wait_data_by_lengths w hp) as [Hok Hbad]. fold p n in Hok, Hbad.
  assert (Hraise : ~ (p = n \/ p = 1%nat) -> exists msg, filled = Raise (ValueError msg)).
  { intros Hnot. apply Hbad; intros Heq; apply Hnot; [now left|now right]. }
  split; [|split; [exact Hraise|]].
  - intros Hcase. destruct (Hok Hcase) as (ds & fs & Hres & Hds & Hfs).
    unfold filled. rewrite Hres. cbn [rbind]. unfold WaitMon.wait_data. fold n.
    rewrite !assign_fits by (rewrite ?length_map; lia). cbn [rbind].
    destruct (records_columns (map WaitMon.label (WaitMon.wait_table w))
                (map WaitMon.time (WaitMon.wait_table w))
                (map WaitMon.timeout (WaitMon.wait_table w)) ds fs)
      as (Hl & Ht & Hto & _ & _); rewrite ?length_map; try lia.
    eexists. split; [reflexivity|].
    split; [|split; [exact Hl|split; [exact Ht|exact Hto]]].
    rewrite <- (length_map WaitMon.o_label), Hl, length_map. reflexivity.
  - intros -> Hn. apply Hraise. subst p. cbn. lia.
Qed.

Lemma outcome_array_filled_iff_witness :
  exists recs,
    (let* r := WaitMon.resolve [F64.dec 1 (-1); F64.dec 5 (-2)]
                 (WaitMon.wait_table Scenario.monitored) in
     WaitMon.wait_data Scenario.monitored (Some r)) = Ok recs /\
    length recs = length (WaitMon.wait_table Scenario.monitored) /\
    map WaitMon.o_label recs
    = map WaitMon.label (WaitMon.wait_table Scenario.monitored) /\
    map WaitMon.o_time recs
    = map WaitMon.time (WaitMon.wait_table Scenario.monitored) /\
    map WaitMon.o_timeout recs
    = map WaitMon.timeout (WaitMon.wait_table Scenario.monitored).
Proof.
  apply (outcome_array_filled_iff Scenario.monitored [F64.dec 1 (-1); F64.dec 5 (-2)]).
  left. reflexivity.
Defined.

(** X11: the end of a shot on a worker made by the class.
    [transition_to_manual], aborting or not, raises [AttributeError] in
    [stop_task], which takes a lock that is created nowhere: it leaves the
    file as it was, stops no task and posts no event, and changes nothing
    of the worker but the abort flag, which keeps the value of the
    argument, so that it stays up after an abort. *)
Theorem end_of_shot_raises_in_stop_task (w : WaitMon.worker) (f : WaitMon.h5file)
    (abort : bool) :
  WaitMon.made w ->
  let r := WaitMon.transition_to_manual w f abort in
  snd r = Raise (AttributeError
            "'Ni_DAQmxWaitMonitorWorker' object has no attribute 'daqlock'") /\
  snd (fst r) = f /\
  fst (fst r) = WaitMon.set_abort w abort /\
  WaitMon.abort (fst (fst r)) = abort /\
  WaitMon.task_running (fst (fst r)) = WaitMon.task_running w /\
  WaitMon.log (fst (fst r)) = WaitMon.log w.
Proof.
  intros Hmade. cbv zeta.
  rewrite transition_to_manual_without_daqlock
    by (apply made_without_daqlock; exact Hmade).
  repeat split.
Qed.

Lemma end_of_shot_raises_in_stop_task_witness :
  let r := WaitMon.transition_to_manual Scenario.monitored Scenario.shot_one_wait true in
  snd r = Raise (AttributeError
            "'Ni_DAQmxWaitMonitorWorker' object has no attribute 'daqlock'") /\
  snd (fst r) = Scenario.shot_one_wait /\
  fst (fst r) = WaitMon.set_abort Scenario.monitored true /\
  WaitMon.abort (fst (fst r)) = true /\
  WaitMon.task_running (fst (fst r)) = WaitMon.task_running Scenario.monitored /\
  WaitMon.log (fst (fst r)) = WaitMon.log Scenario.monitored.
Proof.
  apply (end_of_shot_raises_in_stop_task Scenario.monitored Scenario.shot_one_wait true).
  apply WaitMon.made_transition_to_buffered. apply WaitMon.made_init.
Defined.



(** ** The start of a shot on the wait monitor *)

(** X13: which devices become the wait monitor.  For a shot with waits
    that does not name this device as the timeout device,
    [transition_to_buffered] touches no hardware and starts no thread, and
    leaves the worker unmarked: it returns normally when the device is not
    the acquisition device either, and raises [NotImplementedError] when it
    is. *)
Theorem not_the_timeout_device (w : WaitMon.worker) (device_name : string)
    (f : WaitMon.h5file) (acq_dev acq_conn to_dev to_conn : string) :
  WaitMon.waits f <> [] ->
  WaitMon.waits_attrs f !! "wait_monitor_acquisition_device" = Some acq_dev ->
  WaitMon.waits_attrs f !! "wait_monitor_acquisition_connection" = Some acq_conn ->
  WaitMon.waits_attrs f !! "wait_monitor_timeout_device" = Some to_dev ->
  WaitMon.waits_attrs f !! "wait_monitor_timeout_connection" = Some to_conn ->
  to_dev <> device_name ->
  let r := WaitMon.transition_to_buffered w device_name f in
  WaitMon.is_wait_monitor_device (fst r) = false /\
  WaitMon.waits_in_use (fst r) = true /\
  WaitMon.wait_table (fst r) = WaitMon.waits f /\
  WaitMon.log (fst r) = WaitMon.log w /\
  WaitMon.task_running (fst r) = WaitMon.task_running w /\
  snd r = if String.eqb acq_dev device_name
          then Raise (NotImplementedError
                 "Ni_DAQmx worker must be both the wait monitor timeout device and acquisition device.")
          else Ok tt.
Proof.
  intros Hwaits Had Hac Htd Htc Hne. cbv zeta.
  apply String.eqb_neq in Hne.
  unfold WaitMon.transition_to_buffered.
  destruct (WaitMon.waits f) as [|wt wts] eqn:Hw; [congruence|].
  cbn [length Nat.eqb].
  unfold WaitMon.attr. rewrite Had, Hac, Htd, Htc. cbn [rbind].
  rewrite Hne. cbn [orb negb andb].
  destruct (String.eqb acq_dev device_name); cbn; repeat split.
Qed.

Lemma not_the_timeout_device_witness :
  let r := WaitMon.transition_to_buffered Scenario.idle_monitor "ni_card"
             Example.shot_acquisition_only in
  WaitMon.is_wait_monitor_device (fst r) = false /\
  WaitMon.waits_in_use (fst r) = true /\
  WaitMon.wait_table (fst r) = WaitMon.waits Example.shot_acquisition_only /\
  WaitMon.log (fst r) = WaitMon.log Scenario.idle_monitor /\
  WaitMon.task_running (fst r) = WaitMon.task_running Scenario.idle_monitor /\
  snd r = if String.eqb "ni_card" "ni_card"
          then Raise (NotImplementedError
                 "Ni_DAQmx worker must be both the wait monitor timeout device and acquisition device.")
          else Ok tt.
Proof.
  apply (not_the_timeout_device Scenario.idle_monitor "ni_card"
           Example.shot_acquisition_only "ni_card" "ctr0" "other_card" "port0/line0");
    first [ reflexivity | discriminate ].
Defined.

(** X14: arming and firing the timeout trigger.  On the timeout device of
    a shot with waits, [transition_to_buffered] starts the counter task,
    creates the timeout task, writes 1 to the timeout line when the
    polarity is "falling" and nothing otherwise ("rising" when the
    attribute is missing), and only then starts the reader thread.  With
    one of the two polarities [send_resume_trigger] then writes the
    trigger level, sleeps for the pulse width and writes the opposite
    level, which for "falling" is the level the line was armed with. *)
Theorem timeout_line_is_armed_and_rearmed (w : WaitMon.worker) (device_name : string)
    (f : WaitMon.h5file) (acq_dev acq_conn to_conn : string)
    (pulse_width : spec_float) :
  WaitMon.waits f <> [] ->
  WaitMon.waits_attrs f !! "wait_monitor_acquisition_device" = Some acq_dev ->
  WaitMon.waits_attrs f !! "wait_monitor_acquisition_connection" = Some acq_conn ->
  WaitMon.waits_attrs f !! "wait_monitor_timeout_device" = Some device_name ->
  WaitMon.waits_attrs f !! "wait_monitor_timeout_connection" = Some to_conn ->
  let polarity :=
    default "rising" (WaitMon.waits_attrs f !! "wait_monitor_timeout_trigger_type") in
  let armed := if String.eqb polarity "falling" then 1 else 0 in
  polarity = "rising" \/ polarity = "falling" ->
  exists w1 w2,
    WaitMon.transition_to_buffered w device_name f = (w1, Ok tt) /\
    WaitMon.log w1 =
      WaitMon.log w ++
        [WaitMon.AcquisitionTaskStarted (WaitMon.MAX_name w ++ "/" ++ acq_conn)%string;
         WaitMon.TimeoutTaskCreated (WaitMon.MAX_name w ++ "/" ++ to_conn)%string]
        ++ (if String.eqb polarity "falling" then [WaitMon.WriteDigitalLines 1] else [])
        ++ [WaitMon.ThreadStarted] /\
    WaitMon.send_resume_trigger w1 pulse_width = (w2, Ok tt) /\
    WaitMon.log w2 =
      WaitMon.log w1 ++ [WaitMon.WriteDigitalLines (1 - armed);
                         WaitMon.Sleep pulse_width;
                         WaitMon.WriteDigitalLines armed].
Proof.
  intros Hwaits Had Hac Htd Htc polarity armed Hpol.
  unfold WaitMon.transition_to_buffered.
  destruct (WaitMon.waits f) as [|wt wts] eqn:Hw; [congruence|].
  cbn [length Nat.eqb].
  unfold WaitMon.attr. rewrite Had, Hac, Htd, Htc. cbn [rbind].
  rewrite String.eqb_refl. cbn [orb negb andb].
  replace (match WaitMon.waits_attrs f !! "wait_monitor_timeout_trigger_type" with
           | Some v => v
           | None => "rising"
           end) with polarity
    by (unfold polarity; destruct (WaitMon.waits_attrs f !! _); reflexivity).
  unfold armed. clearbody polarity. clear armed.
  destruct Hpol as [-> | ->];
    (eexists; eexists; split; [reflexivity|];
     cbn [WaitMon.log WaitMon.MAX_name]; split; [reflexivity|];
     unfold WaitMon.send_resume_trigger, WaitMon.emit;
     cbn [WaitMon.timeout_trigger_type WaitMon.log WaitMon.MAX_name WaitMon.abort
          WaitMon.is_wait_monitor_device WaitMon.waits_in_use WaitMon.wait_table
          WaitMon.task_running WaitMon.half_periods];
     cbn; split; reflexivity).
Qed.

Lemma timeout_line_is_armed_and_rearmed_witness :
  exists w1 w2,
    WaitMon.transition_to_buffered Scenario.idle_monitor "ni_card" Example.shot_falling
    = (w1, Ok tt) /\
    WaitMon.log w1 =
      [] ++ [WaitMon.AcquisitionTaskStarted "ni_card/ctr0";
             WaitMon.TimeoutTaskCreated "ni_card/port0/line0"]
         ++ [WaitMon.WriteDigitalLines 1] ++ [WaitMon.ThreadStarted] /\
    WaitMon.send_resume_trigger w1 (F64.dec 1 (-6)) = (w2, Ok tt) /\
    WaitMon.log w2 =
      WaitMon.log w1 ++ [WaitMon.WriteDigitalLines (1 - 1);
                         WaitMon.Sleep (F64.dec 1 (-6));
                         WaitMon.WriteDigitalLines 1].
Proof.
  apply (timeout_line_is_armed_and_rearmed Scenario.idle_monitor "ni_card"
           Example.shot_falling "ni_card" "ctr0" "port0/line0" (F64.dec 1 (-6)));
    first [ reflexivity | discriminate | right; reflexivity ].
Defined.

(** ** Half periods without a partner *)

Lemma cumsum_from_snoc (acc : spec_float) (a : list spec_float) (x : spec_float) :
  exists s, Np.cumsum_from acc (a ++ [x]) = Np.cumsum_from acc a ++ [s].
Proof.
  revert acc. induction a as [|y a IH]; intros acc; cbn [app Np.cumsum_from].
  - eexists. reflexivity.
  - destruct (IH (F64.add acc y)) as [s ->]. eexists. reflexivity.
Qed.

Lemma cumsum_snoc (a : list spec_float) (x : spec_float) :
  exists s, Np.cumsum (a ++ [x]) = Np.cumsum a ++ [s].
Proof.
  destruct a as [|y a]; cbn [app Np.cumsum].
  - eexists. reflexivity.
  - destruct (cumsum_from_snoc y a x) as [s ->]. eexists. reflexivity.
Qed.

Lemma every_second_snoc_odd {A : Type} (n : nat) :
  forall (a : list A) (y : A),
    length a = S (2 * n) -> Np.every_second (a ++ [y]) = Np.every_second a.
Proof.
  induction n as [|n IH]; intros a y Ha.
  - destruct a as [|x [|x' r]]; try discriminate. reflexivity.
  - destruct a as [|x [|x' r]]; try discriminate.
    change (Np.every_second ((x :: x' :: r) ++ [y]))
      with (x :: Np.every_second (r ++ [y])).
    change (Np.every_second (x :: x' :: r)) with (x :: Np.every_second r).
    cbn [length] in Ha. rewrite (IH r y) by lia. reflexivity.
Qed.

(** X15: a half period without a partner is ignored.  When the reader
    thread has recorded an even number of half periods, one more recorded
    after them changes neither the durations nor the flags that are
    resolved, nor whether the resolution fails. *)
Theorem trailing_half_period_is_ignored (hp : list spec_float) (x : spec_float)
    (table : list WaitMon.wait_row) (n : nat) :
  length hp = (2 * n)%nat ->
  WaitMon.resolve (hp ++ [x]) table = WaitMon.resolve hp table.
Proof.
  intros Hlen. unfold WaitMon.resolve.
  destruct (cumsum_snoc hp x) as [s ->].
  unfold Np.insert0 at 1 3.
  change (F64.zero :: Np.cumsum hp ++ [s]) with ((F64.zero :: Np.cumsum hp) ++ [s]).
  rewrite (every_second_snoc_odd n); [reflexivity|].
  cbn [length]. rewrite length_cumsum. lia.
Qed.

Lemma trailing_half_period_is_ignored_witness :
  WaitMon.resolve ([F64.dec 1 (-1); F64.dec 5 (-2)] ++ [F64.dec 2 (-1)]) Scenario.one_wait
  = WaitMon.resolve [F64.dec 1 (-1); F64.dec 5 (-2)] Scenario.one_wait.
Proof.
  apply (trailing_half_period_is_ignored [F64.dec 1 (-1); F64.dec 5 (-2)]
           (F64.dec 2 (-1)) Scenario.one_wait 1).
  reflexivity.
Defined.

(** ** A shot on the acquisition worker *)

Lemma manual_num_samples : Acq.num_samples_for AcqShot.manual_mode_rate = Ok 200.
Proof. vm_compute. reflexivity. Qed.

(** At 1 kHz [start_task] cannot fail on a worker without a task. *)
Lemma start_manual_task (w : Acq.worker) (chans : list string) :
  Acq.task w = None ->
  Acq.start_task w chans AcqShot.manual_mode_rate
  = Ok (Acq.set_next_handle
          (Acq.set_task w
             (Some (Acq.mkTask (Acq.next_handle w) chans AcqShot.manual_mode_rate 200
                      (Acq.buffered_mode w) []))
             (Some (repeat (repeat F64.zero (length chans)) 200)))
          (Acq.next_handle w + 1)).
Proof.
  intros H. unfold Acq.start_task. rewrite H, manual_num_samples. reflexivity.
Qed.

Lemma length_py_range (n : Z) : length (AcqShot.py_range n) = Z.to_nat n.
Proof. unfold AcqShot.py_range. now rewrite length_map, length_seq. Qed.

Lemma py_range_lookup (n : Z) (j : nat) :
  (j < Z.to_nat n)%nat -> AcqShot.py_range n !! j = Some (Z.of_nat j).
Proof.
  intros Hj. unfold AcqShot.py_range. rewrite list_lookup_fmap.
  rewrite lookup_seq_lt by exact Hj. reflexivity.
Qed.

(** X16: [init] leaves the worker in manual mode with a running task on the
    channels [ai0], ..., [ai(num_AI-1)], sampled at 1 kHz with a callback
    every 200 samples into a staging array of 200 rows, one column per
    channel. *)
Theorem init_starts_the_manual_task (cfg : AcqShot.config) (delay : spec_float)
    (handle : Z) (j : nat) :
  (j < Z.to_nat (AcqShot.num_AI cfg))%nat ->
  exists chans,
    AcqShot.init cfg delay handle
    = Ok (Acq.mkWorker delay
            (Some (Acq.mkTask handle chans (F64.of_Z 1000) 200 false []))
            (Some (repeat (repeat F64.zero (Z.to_nat (AcqShot.num_AI cfg))) 200))
            false None None None None (handle + 1)) /\
    length chans = Z.to_nat (AcqShot.num_AI cfg) /\
    chans !! j = Some ("ai" +:+ pretty (Z.of_nat j)).
Proof.
  intros Hj. exists (AcqShot.manual_mode_chans cfg).
  assert (Hlen : length (AcqShot.manual_mode_chans cfg) = Z.to_nat (AcqShot.num_AI cfg)).
  { unfold AcqShot.manual_mode_chans. now rewrite length_map, length_py_range. }
  split.
  - unfold AcqShot.init. rewrite start_manual_task by reflexivity.
    rewrite Hlen. reflexivity.
  - split; [exact Hlen|].
    unfold AcqShot.manual_mode_chans. rewrite list_lookup_fmap.
    rewrite py_range_lookup by exact Hj. reflexivity.
Qed.

Lemma init_starts_the_manual_task_witness :
  exists chans,
    AcqShot.init Example.two_inputs F64.zero 1
    = Ok (Acq.mkWorker F64.zero
            (Some (Acq.mkTask 1 chans (F64.of_Z 1000) 200 false []))
            (Some (repeat (repeat F64.zero (Z.to_nat (AcqShot.num_AI Example.two_inputs))) 200))
            false None None None None (1 + 1)) /\
    length chans = Z.to_nat (AcqShot.num_AI Example.two_inputs) /\
    chans !! 1%nat = Some ("ai" +:+ pretty (Z.of_nat 1)).
Proof.
  apply (init_starts_the_manual_task Example.two_inputs F64.zero 1 1).
  vm_compute. lia.
Defined.

(** X17: [shutdown] never raises, whether a task runs or not; afterwards
    no task runs, a second [shutdown] changes nothing, and the data
    accumulated so far are as they were. *)
Theorem shutdown_is_safe_and_idempotent (w : Acq.worker) :
  exists w',
    AcqShot.shutdown w = Ok w' /\
    Acq.task w' = None /\
    AcqShot.shutdown w' = Ok w' /\
    Acq.acquired_data w' = Acq.acquired_data w /\
    Acq.buffered_mode w' = Acq.buffered_mode w.
Proof.
  unfold AcqShot.shutdown at 1. destruct (Acq.task w) as [t|] eqn:Ht.
  - rewrite (stop_task_running w t Ht). eexists. split; [reflexivity|].
    repeat split.
  - exists w. split; [reflexivity|]. split; [exact Ht|].
    unfold AcqShot.shutdown. rewrite Ht. repeat split.
Qed.

(** X18: a shot without an [AI] table for the device passes the worker by:
    [transition_to_buffered] returns with every attribute as it was and the
    manual-mode task still running, and [transition_to_manual], aborting or
    not, returns [None] and touches neither the worker nor the file. *)
Theorem shot_without_acquisitions (sorted_set : list string -> list string)
    (cfg : AcqShot.config) (w : Acq.worker) (device_name path : string)
    (f : AcqShot.h5file) (group : AcqShot.device_group) (abort : bool) :
  AcqShot.device f = Some group ->
  AcqShot.AI group = None ->
  Acq.buffered_mode w = false ->
  AcqShot.transition_to_buffered sorted_set w device_name path f = (w, Ok tt) /\
  AcqShot.transition_to_manual cfg w f abort = (w, f, Ok None).
Proof.
  intros Hdev HAI Hmode. split.
  - unfold AcqShot.transition_to_buffered. now rewrite Hdev, HAI.
  - unfold AcqShot.transition_to_manual. now rewrite Hmode.
Qed.

Lemma shot_without_acquisitions_witness :
  AcqShot.transition_to_buffered remove_dups Example.manual_worker "ni_card"
    "shot.h5" Example.shot_no_acquisition = (Example.manual_worker, Ok tt) /\
  AcqShot.transition_to_manual Example.two_inputs Example.manual_worker
    Example.shot_no_acquisition false
  = (Example.manual_worker, Example.shot_no_acquisition, Ok None).
Proof.
  apply (shot_without_acquisitions remove_dups Example.two_inputs
           Example.manual_worker "ni_card" "shot.h5" Example.shot_no_acquisition
           (AcqShot.mkGroup None (Some (F64.of_Z 1000))) false); reflexivity.
Defined.

(** What [transition_to_buffered] does when the shot has acquisitions and
    the manual-mode task runs. *)
Lemma transition_to_buffered_running (sorted_set : list string -> list string)
    (w : Acq.worker) (t : Acq.Task) (device_name path : string) (f : AcqShot.h5file)
    (group : AcqShot.device_group) (table : list Acq.acquisition) (rate : spec_float) :
  Acq.task w = Some t ->
  AcqShot.device f = Some group ->
  AcqShot.AI group = Some table ->
  AcqShot.acquisition_rate group = Some rate ->
  AcqShot.transition_to_buffered sorted_set w device_name path f
  = let chans := sorted_set (map Acq.connection table) in
    let w4 := Acq.mkWorker (Acq.AI_start_delay w) None None true (Some path)
                (Some []) (Some rate) (Some chans) (Acq.next_handle w) in
    match Acq.start_task w4 chans rate with
    | Raise e => (w4, Raise e)
    | Ok w5 => (w5, Ok tt)
    end.
Proof.
  intros Ht Hdev HAI Hrate. unfold AcqShot.transition_to_buffered.
  rewrite Hdev, HAI, Hrate.
  rewrite (stop_task_running _ t) by exact Ht. reflexivity.
Qed.

(** X19: a shot that is started and then aborted.  From manual mode with a
    running task, on a shot with acquisitions whose rate [start_task]
    accepts, [transition_to_buffered] puts the worker in buffered mode with
    an empty list of chunks and a task on the shot's channels, armed on the
    clock; the abort that follows discards the per-shot attributes, leaves
    the file as it was and returns the worker to manual mode, with a new
    manual-mode task running. *)
Theorem aborted_shot_returns_to_manual_mode (sorted_set : list string -> list string)
    (cfg : AcqShot.config) (w : Acq.worker) (t : Acq.Task) (device_name path : string)
    (f : AcqShot.h5file) (group : AcqShot.device_group)
    (table : list Acq.acquisition) (rate : spec_float) (n : Z) :
  Acq.task w = Some t ->
  AcqShot.device f = Some group ->
  AcqShot.AI group = Some table ->
  AcqShot.acquisition_rate group = Some rate ->
  Acq.num_samples_for rate = Ok n ->
  0 <= n ->
  let chans := sorted_set (map Acq.connection table) in
  exists w1,
    AcqShot.transition_to_buffered sorted_set w device_name path f = (w1, Ok tt) /\
    Acq.buffered_mode w1 = true /\
    Acq.acquired_data w1 = Some [] /\
    Acq.task w1 = Some (Acq.mkTask (Acq.next_handle w) chans rate n true []) /\
    AcqShot.abort_buffered cfg w1 f
    = (Acq.mkWorker (Acq.AI_start_delay w)
         (Some (Acq.mkTask (Acq.next_handle w + 1) (AcqShot.manual_mode_chans cfg)
                  (F64.of_Z 1000) 200 false []))
         (Some (repeat (repeat F64.zero (length (AcqShot.manual_mode_chans cfg))) 200))
         false None None None None (Acq.next_handle w + 1 + 1),
       f, Ok None).
Proof.
  intros Ht Hdev HAI Hrate Hnum Hn chans.
  rewrite (transition_to_buffered_running sorted_set w t device_name path f group
             table rate Ht Hdev HAI Hrate).
  cbv zeta. fold chans.
  unfold Acq.start_task at 1. cbn [Acq.task]. rewrite Hnum. cbn [rbind].
  unfold Acq.zeros. assert ((n <? 0) = false) as -> by (apply Z.ltb_ge; lia).
  cbn [rbind]. eexists. split; [reflexivity|].
  split; [reflexivity|]. split; [reflexivity|]. split; [reflexivity|].
  unfold AcqShot.abort_buffered, AcqShot.transition_to_manual.
  cbn [Acq.buffered_mode Acq.set_next_handle Acq.set_task negb].
  erewrite stop_task_running by reflexivity.
  rewrite start_manual_task by reflexivity. reflexivity.
Qed.

Lemma aborted_shot_returns_to_manual_mode_witness :
  let chans := remove_dups (map Acq.connection
                 [Acq.mkAcquisition "ai1" "probe" (F64.dec 1 (-1)) (F64.dec 2 (-1));
                  Acq.mkAcquisition "ai0" "pump" (F64.dec 1 (-1)) (F64.dec 3 (-1))]) in
  exists w1,
    AcqShot.transition_to_buffered remove_dups Example.manual_worker "ni_card"
      "shot.h5" (Example.shot_two_traces (F64.of_Z 1000)) = (w1, Ok tt) /\
    Acq.buffered_mode w1 = true /\
    Acq.acquired_data w1 = Some [] /\
    Acq.task w1 = Some (Acq.mkTask (Acq.next_handle Example.manual_worker) chans
                          (F64.of_Z 1000) 200 true []) /\
    AcqShot.abort_buffered Example.two_inputs w1 (Example.shot_two_traces (F64.of_Z 1000))
    = (Acq.mkWorker (Acq.AI_start_delay Example.manual_worker)
         (Some (Acq.mkTask (Acq.next_handle Example.manual_worker + 1)
                  (AcqShot.manual_mode_chans Example.two_inputs)
                  (F64.of_Z 1000) 200 false []))
         (Some (repeat (repeat F64.zero
                          (length (AcqShot.manual_mode_chans Example.two_inputs))) 200))
         false None None None None (Acq.next_handle Example.manual_worker + 1 + 1),
       Example.shot_two_traces (F64.of_Z 1000), Ok None).
Proof.
  apply (aborted_shot_returns_to_manual_mode remove_dups Example.two_inputs
           Example.manual_worker
           (Acq.mkTask 1 ["ai0"; "ai1"] (F64.of_Z 1000) 200 false [])
           "ni_card" "shot.h5" (Example.shot_two_traces (F64.of_Z 1000))
           (AcqShot.mkGroup
              (Some [Acq.mkAcquisition "ai1" "probe" (F64.dec 1 (-1)) (F64.dec 2 (-1));
                     Acq.mkAcquisition "ai0" "pump" (F64.dec 1 (-1)) (F64.dec 3 (-1))])
              (Some (F64.of_Z 1000)))
           _ (F64.of_Z 1000) 200);
    first [ reflexivity | vm_compute; reflexivity | lia ].
Defined.

(** X20: the manual-mode task is restarted before anything of the shot is
    finalised.  From buffered mode with a running task,
    [transition_to_manual] ends, whether it aborts, succeeds or raises
    while it writes the shot's data, with the worker out of buffered mode
    and a new manual-mode task running. *)
Theorem manual_task_is_restarted_first (cfg : AcqShot.config) (w : Acq.worker)
    (t : Acq.Task) (f : AcqShot.h5file) (abort : bool) :
  Acq.buffered_mode w = true ->
  Acq.task w = Some t ->
  let r := AcqShot.transition_to_manual cfg w f abort in
  Acq.buffered_mode (fst (fst r)) = false /\
  Acq.task (fst (fst r))
  = Some (Acq.mkTask (Acq.next_handle w) (AcqShot.manual_mode_chans cfg)
            (F64.of_Z 1000) 200 false []).
Proof.
  intros Hmode Ht. cbv zeta. unfold AcqShot.transition_to_manual.
  rewrite Hmode. cbn [negb]. rewrite (stop_task_running w t Ht).
  rewrite start_manual_task by reflexivity.
  set (w3 := Acq.set_next_handle _ _).
  destruct abort; [split; reflexivity|].
  destruct (Acq.h5_file w3); [|split; reflexivity].
  destruct (existsb _ _); [split; reflexivity|].
  destruct (Acq.buffered_chans w3) as [chans|]; [|split; reflexivity].
  destruct (let* rows := AcqShot.concatenate (Acq.acquired_data w3) in
            AcqShot.view chans rows) as [raw_data|e]; [|split; reflexivity].
  destruct (AcqShot.extract_measurements cfg _ _ raw_data _) as [f2 [u|e]];
    split; reflexivity.
Qed.

Lemma manual_task_is_restarted_first_witness :
  let r := AcqShot.transition_to_manual Example.two_inputs
             (fst (AcqShot.transition_to_buffered remove_dups Example.manual_worker
                     "ni_card" "shot.h5" (Example.shot_two_traces (F64.of_Z 1000))))
             (Example.shot_two_traces (F64.of_Z 1000)) false in
  Acq.buffered_mode (fst (fst r)) = false /\
  Acq.task (fst (fst r))
  = Some (Acq.mkTask 3 (AcqShot.manual_mode_chans Example.two_inputs)
            (F64.of_Z 1000) 200 false []).
Proof.
  apply (manual_task_is_restarted_first Example.two_inputs
           (fst (AcqShot.transition_to_buffered remove_dups Example.manual_worker
                   "ni_card" "shot.h5" (Example.shot_two_traces (F64.of_Z 1000))))
           (Acq.mkTask 2 ["ai1"; "ai0"] (F64.of_Z 1000) 200 true [])).
  - vm_compute. reflexivity.
  - vm_compute. reflexivity.
Defined.

(** X21: a shot that ends before the first callback.  When a shot in
    buffered mode ends without abort and no chunk has been delivered yet,
    [transition_to_manual] creates the device's group under [/data] and
    then raises [ValueError] from [np.concatenate]: no trace is written,
    and the per-shot attributes are not cleared. *)
Theorem shot_without_chunks_raises (cfg : AcqShot.config) (w : Acq.worker)
    (t : Acq.Task) (f : AcqShot.h5file) (path : string) (chans : list string) :
  Acq.buffered_mode w = true ->
  Acq.task w = Some t ->
  Acq.acquired_data w = Some [] ->
  Acq.h5_file w = Some path ->
  Acq.buffered_chans w = Some chans ->
  ~ In (AcqShot.device_name cfg) (AcqShot.data_groups f) ->
  let r := AcqShot.transition_to_manual cfg w f false in
  snd r = Raise (ValueError "need at least one array to concatenate") /\
  snd (fst r)
  = AcqShot.mkFile (AcqShot.device f) (AcqShot.n_waits f)
      (AcqShot.data_groups f ++ [AcqShot.device_name cfg])
      (AcqShot.data_waits f) (AcqShot.traces f) /\
  Acq.acquired_data (fst (fst r)) = Some [] /\
  Acq.buffered_chans (fst (fst r)) = Some chans /\
  Acq.h5_file (fst (fst r)) = Some path.
Proof.
  intros Hmode Ht Hdata Hfile Hchans Hfresh. cbv zeta.
  unfold AcqShot.transition_to_manual.
  rewrite Hmode. cbn [negb]. rewrite (stop_task_running w t Ht).
  rewrite start_manual_task by reflexivity.
  cbn [Acq.set_next_handle Acq.set_task AcqShot.with_shot Acq.h5_file
       Acq.acquired_data Acq.buffered_chans Acq.buffered_rate Acq.AI_start_delay
       Acq.task Acq.read_array Acq.next_handle Acq.buffered_mode].
  rewrite Hfile, Hchans, Hdata.
  assert (existsb (String.eqb (AcqShot.device_name cfg)) (AcqShot.data_groups f) = false)
    as ->.
  { apply not_true_iff_false. intros H. apply existsb_exists in H as (x & Hx & Heq).
    apply String.eqb_eq in Heq. subst x. contradiction. }
  cbn [AcqShot.concatenate rbind fst snd Acq.acquired_data Acq.buffered_chans
       Acq.h5_file].
  repeat split.
Qed.

Lemma shot_without_chunks_raises_witness :
  let w := fst (AcqShot.transition_to_buffered remove_dups Example.manual_worker
                  "ni_card" "shot.h5" (Example.shot_two_traces (F64.of_Z 1000))) in
  let f := Example.shot_two_traces (F64.of_Z 1000) in
  let r := AcqShot.transition_to_manual Example.two_inputs w f false in
  snd r = Raise (ValueError "need at least one array to concatenate") /\
  snd (fst r)
  = AcqShot.mkFile (AcqShot.device f) (AcqShot.n_waits f)
      (AcqShot.data_groups f ++ [AcqShot.device_name Example.two_inputs])
      (AcqShot.data_waits f) (AcqShot.traces f) /\
  Acq.acquired_data (fst (fst r)) = Some [] /\
  Acq.buffered_chans (fst (fst r)) = Some ["ai1"; "ai0"] /\
  Acq.h5_file (fst (fst r)) = Some "shot.h5".
Proof.
  apply (shot_without_chunks_raises Example.two_inputs
           (fst (AcqShot.transition_to_buffered remove_dups Example.manual_worker
                   "ni_card" "shot.h5" (Example.shot_two_traces (F64.of_Z 1000))))
           (Acq.mkTask 2 ["ai1"; "ai0"] (F64.of_Z 1000) 200 true [])
           (Example.shot_two_traces (F64.of_Z 1000)) "shot.h5" ["ai1"; "ai0"]);
    try (vm_compute; reflexivity).
  intros H. exact H.
Defined.

(** X22: a rate that [start_task] rejects.  When the shot's
    [acquisition_rate] times 0.2 s is not a number that [int] accepts,
    [transition_to_buffered] raises after it has stopped the manual-mode
    task and set [buffered_mode]: the worker is left in buffered mode
    without a task, and the [transition_to_manual] that follows, aborting
    or not, raises [RuntimeError('Task not running')] and restarts
    nothing. *)
Theorem rejected_rate_leaves_no_task (sorted_set : list string -> list string)
    (cfg : AcqShot.config) (w : Acq.worker) (t : Acq.Task) (device_name path : string)
    (f : AcqShot.h5file) (group : AcqShot.device_group)
    (table : list Acq.acquisition) (rate : spec_float) (e : exn) (abort : bool) :
  Acq.task w = Some t ->
  AcqShot.device f = Some group ->
  AcqShot.AI group = Some table ->
  AcqShot.acquisition_rate group = Some rate ->
  Acq.num_samples_for rate = Raise e ->
  exists w1,
    AcqShot.transition_to_buffered sorted_set w device_name path f = (w1, Raise e) /\
    Acq.task w1 = None /\
    Acq.buffered_mode w1 = true /\
    AcqShot.transition_to_manual cfg w1 f abort
    = (w1, f, Raise (RuntimeError "Task not running")).
Proof.
  intros Ht Hdev HAI Hrate Hnum.
  rewrite (transition_to_buffered_running sorted_set w t device_name path f group
             table rate Ht Hdev HAI Hrate).
  cbv zeta. unfold Acq.start_task at 1. cbn [Acq.task]. rewrite Hnum. cbn [rbind].
  eexists. split; [reflexivity|]. split; [reflexivity|]. split; [reflexivity|].
  reflexivity.
Qed.

Lemma rejected_rate_leaves_no_task_witness :
  exists w1,
    AcqShot.transition_to_buffered remove_dups Example.manual_worker "ni_card" "shot.h5"
      (Example.shot_two_traces F64.nan)
    = (w1, Raise (ValueError "cannot convert float NaN to integer")) /\
    Acq.task w1 = None /\
    Acq.buffered_mode w1 = true /\
    AcqShot.transition_to_manual Example.two_inputs w1 (Example.shot_two_traces F64.nan) true
    = (w1, Example.shot_two_traces F64.nan, Raise (RuntimeError "Task not running")).
Proof.
  apply (rejected_rate_leaves_no_task remove_dups Example.two_inputs
           Example.manual_worker
           (Acq.mkTask 1 ["ai0"; "ai1"] (F64.of_Z 1000) 200 false [])
           "ni_card" "shot.h5" (Example.shot_two_traces F64.nan)
           (AcqShot.mkGroup
              (Some [Acq.mkAcquisition "ai1" "probe" (F64.dec 1 (-1)) (F64.dec 2 (-1));
                     Acq.mkAcquisition "ai0" "pump" (F64.dec 1 (-1)) (F64.dec 3 (-1))])
              (Some F64.nan))
           [Acq.mkAcquisition "ai1" "probe" (F64.dec 1 (-1)) (F64.dec 2 (-1));
            Acq.mkAcquisition "ai0" "pump" (F64.dec 1 (-1)) (F64.dec 3 (-1))]
           F64.nan (ValueError "cannot convert float NaN to integer") true);
    reflexivity.
Defined.

(** ** The output worker *)

Lemma out_py_range_seqZ (n : Z) : Out.py_range n = seqZ 0 n.
Proof.
  unfold Out.py_range, seqZ. apply map_ext. intros i. lia.
Qed.

Lemma full_ranges_cover (k : nat) :
  flat_map lines_of (map (fun i => (8 * i, 8 * i + 7)) (seqZ 0 (Z.of_nat k)))
  = seqZ 0 (8 * Z.of_nat k).
Proof.
  induction k as [|k IH].
  - reflexivity.
  - rewrite seqZ_S, map_app, flat_map_app, IH. simpl.
    rewrite app_nil_r. unfold lines_of. simpl.
    replace (8 * Z.of_nat (S k)) with (8 * Z.of_nat k + 8) by lia.
    rewrite (seqZ_app 0 (8 * Z.of_nat k) 8) by lia. f_equal. f_equal; lia.
Qed.

Lemma do_ranges_cover (n : Z) :
  0 <= n -> flat_map lines_of (Out.do_ranges n) = seqZ 0 n.
Proof.
  intros Hn. unfold Out.do_ranges. rewrite out_py_range_seqZ.
  pose proof (Z.div_mod n 8 ltac:(lia)) as Hdm.
  pose proof (Z.mod_pos_bound n 8 ltac:(lia)) as Hr.
  assert (Hq : 0 <= n / 8) by (apply Z.div_pos; lia).
  pose proof (full_ranges_cover (Z.to_nat (n / 8))) as Hfull.
  rewrite Z2Nat.id in Hfull by exact Hq.
  destruct (n mod 8 =? 0) eqn:Hz.
  - apply Z.eqb_eq in Hz. rewrite Hfull. f_equal. lia.
  - apply Z.eqb_neq in Hz. rewrite flat_map_app, Hfull. simpl.
    rewrite app_nil_r. unfold lines_of. simpl.
    replace (seqZ 0 n) with (seqZ 0 (8 * (n / 8) + n mod 8)) by (f_equal; lia).
    rewrite (seqZ_app 0 (8 * (n / 8)) (n mod 8)) by lia. f_equal. f_equal; lia.
Qed.

Lemma do_ranges_width (n : Z) :
  0 <= n ->
  Forall (fun r => fst r mod 8 = 0 /\ fst r <= snd r <= fst r + 7 /\ snd r < n)
         (Out.do_ranges n).
Proof.
  intros Hn. unfold Out.do_ranges. rewrite out_py_range_seqZ.
  pose proof (Z.div_mod n 8 ltac:(lia)) as Hdm.
  pose proof (Z.mod_pos_bound n 8 ltac:(lia)) as Hr.
  assert (Hfull : Forall (fun r => fst r mod 8 = 0 /\ fst r <= snd r <= fst r + 7 /\ snd r < n)
                   (map (fun i => (8 * i, 8 * i + 7)) (seqZ 0 (n / 8)))).
  { apply Forall_forall. intros r Hin. apply list_elem_of_fmap in Hin.
    destruct Hin as (i & -> & Hi). apply elem_of_seqZ in Hi. simpl.
    split; [|lia]. rewrite Z.mul_comm. apply Z.mod_mul. lia. }
  destruct (n mod 8 =? 0) eqn:Hz; [exact Hfull|].
  apply Z.eqb_neq in Hz. apply Forall_app. split; [exact Hfull|].
  constructor; [|constructor]. simpl. split; [|lia].
  apply Z.mod_mul. lia.
Qed.

(** X23: the line ranges that [setup_manual_mode_tasks] creates channels for.
    For a port with a number of lines that is not negative, the ranges name
    every line from 0 up to the last exactly once and in order; each range
    starts at a multiple of 8 and holds at most 8 lines. *)
Theorem do_ranges_partition (n : Z) :
  0 <= n ->
  flat_map lines_of (Out.do_ranges n) = seqZ 0 n
  /\ Forall (fun r => fst r mod 8 = 0 /\ fst r <= snd r <= fst r + 7) (Out.do_ranges n).
Proof.
  intros Hn. split; [now apply do_ranges_cover|].
  eapply Forall_impl; [now apply do_ranges_width|].
  intros r (H1 & H2 & _). now split.
Qed.

Lemma do_ranges_partition_witness :
  flat_map lines_of (Out.do_ranges 12) = seqZ 0 12
  /\ Forall (fun r => fst r mod 8 = 0 /\ fst r <= snd r <= fst r + 7) (Out.do_ranges 12).
Proof. apply (do_ranges_partition 12). lia. Defined.

Lemma line_value_testbit (v line : Z) :
  0 <= line -> Out.line_value v line = Z.b2z (Z.testbit v line).
Proof.
  intros Hl. unfold Out.line_value.
  rewrite Z.shiftl_1_l.
  destruct (Z.testbit v line) eqn:Hb; simpl.
  - destruct (Z.land (2 ^ line) v =? 0) eqn:Hz; [|reflexivity].
    apply Z.eqb_eq in Hz.
    assert (Hbit : Z.testbit (Z.land (2 ^ line) v) line = true).
    { rewrite Z.land_spec, Z.pow2_bits_true by lia. exact Hb. }
    rewrite Hz, Z.bits_0 in Hbit. discriminate.
  - replace (Z.land (2 ^ line) v) with 0; [reflexivity|].
    symmetry. apply Z.bits_inj'. intros k Hk.
    rewrite Z.land_spec, Z.bits_0.
    destruct (Z.eq_dec k line) as [->|Hne].
    + rewrite Hb. apply andb_false_r.
    + rewrite Z.pow2_bits_false by lia. reflexivity.
Qed.

Lemma chars_app (s1 s2 : string) : chars (s1 +:+ s2) = chars s1 ++ chars s2.
Proof.
  induction s1 as [|c s1 IH]; [reflexivity|].
  unfold chars in *. simpl. now rewrite IH.
Qed.

Lemma chars_inj (s1 s2 : string) : chars s1 = chars s2 -> s1 = s2.
Proof.
  intros H. rewrite <- (string_of_list_ascii_of_string s1),
    <- (string_of_list_ascii_of_string s2). unfold chars in H. now rewrite H.
Qed.

Lemma pretty_N_char_no_e (n : N) :
  pretty_N_char n <> Ascii.Ascii true false true false false true true false.
Proof. unfold pretty_N_char. repeat case_match; discriminate. Qed.

Lemma pretty_N_go_no_e (x : N) : forall s, no_e s -> no_e (pretty_N_go x s).
Proof.
  induction (N.lt_wf_0 x) as [x _ IH]. intros s Hs.
  destruct (N.eq_dec x 0%N) as [->|Hx].
  - now rewrite pretty_N_go_0.
  - rewrite pretty_N_go_step by lia. apply IH.
    + apply N.div_lt; lia.
    + constructor; [apply pretty_N_char_no_e|exact Hs].
Qed.

Lemma pretty_Z_no_e (z : Z) : 0 <= z -> no_e (pretty z).
Proof.
  intros Hz. destruct z as [|p|p]; [| |lia].
  - repeat constructor; discriminate.
  - change (pretty (Z.pos p)) with (pretty_N_go (N.pos p) EmptyString).
    apply pretty_N_go_no_e. constructor.
Qed.

Lemma line_name_inj (p1 p2 : string) (l1 l2 : Z) :
  0 <= l1 -> 0 <= l2 ->
  Out.line_name p1 l1 = Out.line_name p2 l2 -> p1 = p2 /\ l1 = l2.
Proof.
  intros H1 H2 Heq. apply (f_equal chars) in Heq. unfold Out.line_name in Heq.
  rewrite !chars_app in Heq.
  pose proof (pretty_Z_no_e l1 H1) as D1. pose proof (pretty_Z_no_e l2 H2) as D2.
  unfold no_e in D1, D2.
  change (chars "/line") with (chars "/lin" ++ [Ascii.Ascii true false true false false true true false]) in Heq.
  rewrite !app_assoc in Heq.
  assert (Hsplit : forall (a b a' b' : list Ascii.ascii) e,
             Forall (fun c => c <> e) b -> Forall (fun c => c <> e) b' ->
             (a ++ [e]) ++ b = (a' ++ [e]) ++ b' -> a = a' /\ b = b').
  { clear. intros a b a' b' e Hb Hb' Heq.
    apply app_eq_app in Heq. destruct Heq as (l & [[Ha Hb2]|[Ha Hb2]]).
    - destruct l as [|c l _] using rev_ind.
      + rewrite app_nil_r in Ha. apply app_inj_tail in Ha. simpl in Hb2.
        destruct Ha. now subst.
      + rewrite app_assoc in Ha. apply app_inj_tail in Ha. destruct Ha as [_ <-].
        subst b'. apply Forall_app in Hb'. destruct Hb' as [Hb' _].
        apply Forall_app in Hb'. destruct Hb' as [_ Hb'].
        inversion Hb'; congruence.
    - destruct l as [|c l _] using rev_ind.
      + rewrite app_nil_r in Ha. apply app_inj_tail in Ha. simpl in Hb2.
        destruct Ha. now subst.
      + rewrite app_assoc in Ha. apply app_inj_tail in Ha. destruct Ha as [_ <-].
        subst b. apply Forall_app in Hb. destruct Hb as [Hb _].
        apply Forall_app in Hb. destruct Hb as [_ Hb].
        inversion Hb; congruence. }
  apply Hsplit in Heq; [|exact D1|exact D2].
  destruct Heq as [Hp Hl]. apply app_inv_tail in Hp.
  apply chars_inj in Hp, Hl. split; [exact Hp|].
  now apply pretty_Z_inj in Hl.
Qed.

Lemma fold_insert_other {A : Type} (key : A -> string) (val : A -> Out.final)
    (k : string) (l : list A) :
  forall fv : gmap string Out.final,
  (forall x, In x l -> key x <> k) ->
  fold_left (fun fv x => <[key x := val x]> fv) l fv !! k = fv !! k.
Proof.
  induction l as [|y l IH]; intros fv Hl; [reflexivity|].
  simpl. rewrite IH by (intros x Hx; apply Hl; now right).
  apply lookup_insert_ne. apply Hl. now left.
Qed.

Lemma fold_insert_in {A : Type} (key : A -> string) (val : A -> Out.final)
    (l : list A) :
  forall (x : A) (fv : gmap string Out.final),
  In x l -> (forall y, In y l -> key y = key x -> val y = val x) ->
  fold_left (fun fv x => <[key x := val x]> fv) l fv !! key x = Some (val x).
Proof.
  induction l as [|y l IH]; intros x fv Hin Hl; [destruct Hin|].
  simpl. destruct (in_dec (fun a b => decide (a = b)) (key x) (map key l)) as [Hk|Hk].
  - apply in_map_iff in Hk. destruct Hk as (z & Hz & Hzl).
    rewrite <- Hz, <- (Hl z (or_intror Hzl) Hz).
    apply IH; [exact Hzl|].
    intros y' Hy' Hkey. rewrite (Hl y' (or_intror Hy')) by congruence.
    symmetry. apply Hl; [now right|exact Hz].
  - rewrite fold_insert_other.
    + destruct Hin as [->|Hin]; [apply lookup_insert_eq|].
      exfalso. apply Hk. now apply in_map.
    + intros z Hz Heq. apply Hk. rewrite <- Heq. now apply in_map.
Qed.

Lemma port_final_values_other (port : string) (n v : Z) (fv : gmap string Out.final)
    (k : string) :
  (forall line, 0 <= line < n -> k <> Out.line_name port line) ->
  Out.port_final_values port n v fv !! k = fv !! k.
Proof.
  intros Hk. unfold Out.port_final_values.
  apply (fold_insert_other (Out.line_name port) (fun line => Out.Line (Out.line_value v line))).
  intros line Hin Heq. rewrite out_py_range_seqZ in Hin.
  apply list_elem_of_In, elem_of_seqZ in Hin. apply (Hk line); [lia|now symmetry].
Qed.

Lemma port_final_values_line (port : string) (n v : Z) (fv : gmap string Out.final)
    (line : Z) :
  0 <= line < n ->
  Out.port_final_values port n v fv !! Out.line_name port line
  = Some (Out.Line (Out.line_value v line)).
Proof.
  intros Hl. unfold Out.port_final_values.
  apply (fold_insert_in (Out.line_name port) (fun line => Out.Line (Out.line_value v line))).
  - rewrite out_py_range_seqZ. apply list_elem_of_In, elem_of_seqZ. lia.
  - intros y Hy Heq. rewrite out_py_range_seqZ in Hy.
    apply list_elem_of_In, elem_of_seqZ in Hy.
    apply line_name_inj in Heq; [|lia|lia]. destruct Heq as [_ ->]. reflexivity.
Qed.

Lemma collect_DO_spec {value : Type} (cfg : Out.config) (t : nat) (table : Out.DO_table)
    (names : list (nat * string)) :
  forall (fv0 : gmap string Out.final) (w : Out.worker value),
  Forall (column_ok cfg table) names ->
  exists fv l,
    Out.collect_DO cfg t table names fv0 w = (with_log w (Out.log w ++ l), Out.Return fv)
    /\ (forall k,
          (forall j port p line, In (j, port) names ->
             Out.dict_get (Out.ports cfg) port = Some p -> 0 <= line < Out.num_lines p ->
             k <> Out.line_name port line) ->
          fv !! k = fv0 !! k)
    /\ (NoDup (map snd names) ->
        forall j port p v line, In (j, port) names ->
          Out.dict_get (Out.ports cfg) port = Some p ->
          last (Out.column 0 (Out.DO_rows table) j) = Some v ->
          0 <= line < Out.num_lines p ->
          fv !! Out.line_name port line = Some (Out.Line (Out.line_value v line))).
Proof.
  induction names as [|[j port] rest IH]; intros fv0 w Hok.
  - exists fv0, []. split; [|split].
    + simpl. unfold Out.ret, with_log. rewrite app_nil_r. now destruct w.
    + reflexivity.
    + intros _ ? ? ? ? ? [].
  - inversion Hok as [|? ? (v & p & Hv & Hp) Hrest]; subst. simpl in Hv, Hp.
    destruct (IH (Out.port_final_values port (Out.num_lines p) v fv0)
                 (with_log w (Out.log w ++ [Out.CreateDOChan t (Out.MAX_name cfg +:+ "/" +:+ port)]))
                 Hrest) as (fv & l & Hrun & Hother & Hline).
    exists fv, (Out.CreateDOChan t (Out.MAX_name cfg +:+ "/" +:+ port) :: l).
    split; [|split].
    + simpl. unfold Out.bind at 1. unfold Out.emit at 1.
      unfold Out.bind at 1. unfold Out.last_row. rewrite Hv. unfold Out.ret at 1.
      unfold Out.bind at 1. unfold Out.item, Out.the. rewrite Hp. unfold Out.ret at 1.
      fold (with_log w (Out.log w ++ [Out.CreateDOChan t (Out.MAX_name cfg +:+ "/" +:+ port)])).
      rewrite Hrun. unfold with_log. simpl. now rewrite <- app_assoc.
    + intros k Hk. rewrite Hother.
      * apply port_final_values_other. intros line Hl.
        apply (Hk j port p line); [now left|exact Hp|exact Hl].
      * intros j' port' p' line' Hin Hp' Hl'.
        apply (Hk j' port' p' line'); [now right|exact Hp'|exact Hl'].
    + intros Hnd j' port' p' v' line' Hin Hp' Hv' Hl'.
      simpl in Hnd. apply NoDup_cons in Hnd. destruct Hnd as [Hnotin Hnd].
      destruct Hin as [Heq|Hin].
      * inversion Heq; subst j' port'. rewrite Hp in Hp'. rewrite Hv in Hv'.
        inversion Hp'; inversion Hv'; subst p' v'.
        rewrite Hother; [now apply port_final_values_line|].
        intros j2 port2 p2 line2 Hin2 _ Hl2 Heq2.
        apply line_name_inj in Heq2; [|lia|lia]. destruct Heq2 as [-> _].
        apply Hnotin. apply list_elem_of_In. apply in_map_iff. now exists (j2, port2).
      * now apply (Hline Hnd j' port' p' v' line').
Qed.

Lemma with_log_id {value : Type} (w : Out.worker value) : with_log w (Out.log w) = w.
Proof. now destruct w. Qed.

Lemma for_each_returns {value A : Type} (body : A -> Out.M value unit) (l : list A) :
  (forall x, In x l -> forall w, exists s,
      body x w = (with_log w (Out.log w ++ s), Out.Return tt)) ->
  forall w, exists s, Out.for_each l body w = (with_log w (Out.log w ++ s), Out.Return tt).
Proof.
  induction l as [|x l IH]; intros Hbody w.
  - exists []. simpl. unfold Out.ret. now rewrite app_nil_r, with_log_id.
  - destruct (Hbody x (or_introl eq_refl) w) as (s1 & H1).
    destruct (IH (fun y Hy => Hbody y (or_intror Hy)) (with_log w (Out.log w ++ s1)))
      as (s2 & H2).
    exists (s1 ++ s2). simpl. unfold Out.bind. rewrite H1, H2.
    simpl. now rewrite app_assoc.
Qed.

Lemma write_returns {value : Type} (f : Z -> Out.call) (ty : Out.dtype) (b : Z)
    (w : Out.worker value) :
  Out.width ty = Some b ->
  Out.bind (Out.write_method ty) (fun bits => Out.emit (f bits)) w
  = (with_log w (Out.log w ++ [f b]), Out.Return tt).
Proof.
  intros Hb. unfold Out.bind, Out.write_method, Out.the. rewrite Hb. reflexivity.
Qed.

(** X24: the final values that [program_buffered_DO] returns.  When the
    columns of the table have distinct names, the table has a row, and every
    column is a port of the device with a sample type that has a write method
    and holds the lines of the port, [program_buffered_DO] returns, and the
    final value it reports for a line of a port is the bit of that line in
    the last sample of the port's column. *)
Theorem final_value_of_every_line {value : Type} (cfg : Out.config)
    (table : Out.DO_table) (w : Out.worker value) :
  NoDup (map fst (Out.DO_names table)) ->
  Out.DO_rows table <> [] ->
  Forall (programmable cfg) (Out.DO_names table) ->
  exists w' fv,
    Out.program_buffered_DO cfg (Some table) w = (w', Out.Return fv)
    /\ forall j port ty p v line,
         Out.DO_names table !! j = Some (port, ty) ->
         Out.dict_get (Out.ports cfg) port = Some p ->
         last (Out.column 0 (Out.DO_rows table) j) = Some v ->
         0 <= line < Out.num_lines p ->
         fv !! Out.line_name port line = Some (Out.Line (Z.b2z (Z.testbit v line))).
Proof.
  intros Hnd Hrows Hprog.
  set (names := map (fun jn : nat * (string * Out.dtype) => (fst jn, fst (snd jn)))
                    (Out.indexed_names table)).
  assert (Hin : forall j port, In (j, port) names <->
                  exists ty, Out.DO_names table !! j = Some (port, ty)).
  { intros j port. unfold names, Out.indexed_names. rewrite in_map_iff. split.
    - intros ([j' [port' ty]] & Heq & Hin). simpl in Heq. inversion Heq; subst.
      apply list_elem_of_In, elem_of_lookup_imap in Hin.
      destruct Hin as (i & y & Hy & Hl). inversion Hy; subst. now exists ty.
    - intros (ty & Hl). exists (j, (port, ty)). split; [reflexivity|].
      apply list_elem_of_In. now apply (elem_of_lookup_imap_2 (fun j n => (j, n))). }
  assert (Hsnd : map snd names = map fst (Out.DO_names table)).
  { unfold names, Out.indexed_names. rewrite map_map. simpl.
    change (map (fun x : nat * (string * Out.dtype) => fst (snd x))
                (imap (fun j n => (j, n)) (Out.DO_names table)))
      with ((fun x : nat * (string * Out.dtype) => fst (snd x))
              <$> imap (fun j n => (j, n)) (Out.DO_names table)).
    rewrite fmap_imap. simpl. apply (imap_const fst). }
  assert (Hok : Forall (column_ok cfg table) names).
  { apply List.Forall_forall. intros [j port] Hjp. apply Hin in Hjp.
    destruct Hjp as (ty & Hl). unfold column_ok. simpl.
    assert (Hsome : is_Some (last (Out.column 0 (Out.DO_rows table) j))).
    { apply last_is_Some. unfold Out.column. destruct (Out.DO_rows table); [congruence|].
      discriminate. }
    destruct Hsome as (v & Hv).
    rewrite List.Forall_forall in Hprog.
    destruct (Hprog (port, ty)) as (p & b & Hp & _).
    { apply list_elem_of_In. now apply list_elem_of_lookup_2 with j. }
    now exists v, p. }
  set (t := Out.next_task w).
  set (w1 := Out.mkWorker (Out.AO_task w) (Some t) (Out.AO_data w) (Out.DO_data w)
                          (Out.initial_values w) (S t) (Out.log w ++ [Out.Task t])).
  destruct (collect_DO_spec cfg t table names ∅ w1 Hok) as (fv & l & Hrun & _ & Hline).
  assert (Hwidth : forall x, In x (Out.indexed_names table) ->
                     exists b, Out.width (snd (snd x)) = Some b).
  { intros [j [port ty]] Hjn.
    apply list_elem_of_In, elem_of_lookup_imap in Hjn.
    destruct Hjn as (i & y & Hy & Hl). inversion Hy; subst.
    rewrite List.Forall_forall in Hprog.
    destruct (Hprog (port, ty)) as (p & b & _ & Hb & _).
    { apply list_elem_of_In. now apply list_elem_of_lookup_2 with i. }
    now exists b. }
  assert (Hend : exists w', Out.program_buffered_DO cfg (Some table) w = (w', Out.Return fv)).
  { unfold Out.program_buffered_DO. unfold Out.bind at 1. unfold Out.new_task.
    unfold Out.bind at 1. unfold Out.set_DO_task. simpl.
    unfold Out.bind at 1. fold t. fold names. fold w1. rewrite Hrun.
    unfold Out.bind at 1.
    destruct (Out.static_DO cfg).
    - unfold Out.bind at 1. unfold Out.emit at 1.
      match goal with
      | |- context [Out.for_each ?l ?body ?w2] =>
          assert (Hb : forall x, In x l -> forall w, exists s,
                       body x w = (with_log w (Out.log w ++ s), Out.Return tt))
            by (intros [j [port ty]] Hx w0; destruct (Hwidth _ Hx) as (b & Hb);
                eexists; apply write_returns; exact Hb);
          destruct (for_each_returns body l Hb w2) as (s & Hs)
      end.
      rewrite Hs. eexists. reflexivity.
    - unfold Out.bind at 1. unfold Out.emit at 1. unfold Out.bind at 1.
      match goal with
      | |- context [Out.for_each ?l ?body ?w2] =>
          assert (Hb : forall x, In x l -> forall w, exists s,
                       body x w = (with_log w (Out.log w ++ s), Out.Return tt))
            by (intros [j [port ty]] Hx w0; destruct (Hwidth _ Hx) as (b & Hb);
                eexists; apply write_returns; exact Hb);
          destruct (for_each_returns body l Hb w2) as (s & Hs)
      end.
      rewrite Hs. eexists. reflexivity. }
  destruct Hend as (w' & Hw'). exists w', fv. split; [exact Hw'|].
  intros j port ty p v line Hl Hp Hv Hline'.
  rewrite <- line_value_testbit by lia.
  apply (Hline ltac:(rewrite Hsnd; exact Hnd) j port p v line); try assumption.
  apply Hin. now exists ty.
Qed.

Lemma final_value_of_every_line_witness :
  exists w' fv,
    Out.program_buffered_DO Example.output_card (Some Example.DO_table)
      Example.new_output_worker = (w', Out.Return fv)
    /\ fv !! "port0/line0" = Some (Out.Line 0)
    /\ fv !! "port0/line1" = Some (Out.Line 1).
Proof.
  destruct (final_value_of_every_line Example.output_card Example.DO_table
              Example.new_output_worker) as (w' & fv & Hrun & Hline).
  - apply (bool_decide_unpack _). vm_compute. exact I.
  - discriminate.
  - repeat constructor. exists (Out.mkPort 32 true), 32.
    split; [reflexivity|]. split; [reflexivity|]. simpl. lia.
  - exists w', fv. split; [exact Hrun|]. split.
    + apply (Hline 0%nat "port0" Out.U32 (Out.mkPort 32 true) 6 0);
        first [ reflexivity | simpl; lia ].
    + apply (Hline 0%nat "port0" Out.U32 (Out.mkPort 32 true) 6 1);
        first [ reflexivity | simpl; lia ].
Defined.

Lemma emits_silent {value A : Type} (P : Out.call -> Prop) (m : Out.M value A) :
  (forall w, Out.log (fst (m w)) = Out.log w) -> emits P m.
Proof. intros H w. exists []. rewrite H, app_nil_r. now split. Qed.

Lemma emits_ret {value A : Type} (P : Out.call -> Prop) (a : A) :
  emits P (Out.ret (value := value) a).
Proof. now apply emits_silent. Qed.

Lemma emits_throw {value A : Type} (P : Out.call -> Prop) (e : Out.error) :
  emits P (Out.throw (value := value) (A := A) e).
Proof. now apply emits_silent. Qed.

Lemma emits_the {value A : Type} (P : Out.call -> Prop) (o : option A) (e : exn) :
  emits P (Out.the (value := value) o e).
Proof. apply emits_silent. now destruct o. Qed.

Lemma emits_lift {value A : Type} (P : Out.call -> Prop) (r : result A) :
  emits P (Out.lift (value := value) r).
Proof. apply emits_silent. now destruct r. Qed.

Lemma emits_emit {value : Type} (P : Out.call -> Prop) (c : Out.call) :
  P c -> emits P (Out.emit (value := value) c).
Proof. intros Hc w. exists [c]. split; [reflexivity|]. now constructor. Qed.

Lemma emits_new_task {value : Type} (P : Out.call -> Prop) :
  (forall t, P (Out.Task t)) -> emits P (Out.new_task (value := value)).
Proof. intros Hc w. exists [Out.Task (Out.next_task w)]. split; [reflexivity|]. now constructor. Qed.

Lemma emits_bind {value A B : Type} (P : Out.call -> Prop) (m : Out.M value A)
    (k : A -> Out.M value B) :
  emits P m -> (forall a, emits P (k a)) -> emits P (Out.bind m k).
Proof.
  intros Hm Hk w. unfold Out.bind. destruct (Hm w) as (s1 & H1 & P1).
  destruct (m w) as [w1 [a|e]]; simpl in H1.
  - destruct (Hk a w1) as (s2 & H2 & P2). exists (s1 ++ s2).
    rewrite H2, H1, app_assoc. split; [reflexivity|]. now apply Forall_app.
  - now exists s1.
Qed.

Lemma emits_for_each {value A : Type} (P : Out.call -> Prop) (l : list A)
    (body : A -> Out.M value unit) :
  (forall x, emits P (body x)) -> emits P (Out.for_each l body).
Proof.
  intros Hbody. induction l as [|x l IH]; simpl.
  - apply emits_ret.
  - apply emits_bind; [apply Hbody|]. intros _. exact IH.
Qed.

Lemma emits_store {value A : Type} (P : Out.call -> Prop) (a : option (list A))
    (i : nat) (v : A) :
  emits P (Out.store (value := value) a i v).
Proof.
  unfold Out.store. apply emits_bind; [apply emits_the|]. intros l.
  destruct (Nat.ltb i (length l)); [apply emits_ret|apply emits_throw].
Qed.

Ltac emits_step :=
  first
    [ apply emits_ret | apply emits_throw | apply emits_the | apply emits_lift
    | apply emits_store
    | apply emits_new_task; intros; first [ exact I | auto ]
    | apply emits_emit; first [ exact I | auto ]
    | apply emits_silent; reflexivity
    | apply emits_for_each; intros
    | apply emits_bind; [|intros] ].

Lemma setup_manual_mode_tasks_emits {value : Type} (P : Out.call -> Prop)
    (sorted_ports : list string -> result (list string)) (cfg : Out.config) :
  (forall c, creates c -> P c) ->
  emits P (Out.setup_manual_mode_tasks (value := value) sorted_ports cfg).
Proof.
  intros HP.
  assert (H1 : forall t, P (Out.Task t)) by (intros; now apply HP).
  assert (H2 : forall t c a b, P (Out.CreateAOVoltageChan t c a b)) by (intros; now apply HP).
  assert (H3 : forall t c, P (Out.CreateDOChan t c)) by (intros; now apply HP).
  assert (H4 : forall t, P (Out.StartTask t)) by (intros; now apply HP).
  unfold Out.setup_manual_mode_tasks, Out.item, Out.raise.
  repeat first [ emits_step | case_match ].
Qed.

Lemma program_manual_emits {value : Type} (as_float64 : value -> spec_float)
    (as_uint8 : value -> Z) (cfg : Out.config) (v : gmap string value) :
  emits sets_up (Out.program_manual as_float64 as_uint8 cfg v).
Proof.
  unfold Out.program_manual, Out.raise.
  repeat first [ emits_step | case_match ].
Qed.

Lemma finish_tasks_on_abort {value : Type} (drv : Out.driver)
    (l : list (nat * bool * string)) :
  forall w : Out.worker value,
  Out.for_each l (Out.finish_task drv true) w
  = (with_log w (Out.log w ++ map (fun e => Out.ClearTask (fst (fst e))) l), Out.Return tt).
Proof.
  induction l as [|[[t static] name] l IH]; intros w.
  - simpl. unfold Out.ret. now rewrite app_nil_r, with_log_id.
  - simpl. unfold Out.bind at 1. simpl. rewrite IH. simpl. now rewrite <- app_assoc.
Qed.

(** X25: [transition_to_manual] with [abort] set.  From every state of the
    worker the first calls it makes are one [ClearTask] for each task it
    holds, the analog one first; nothing it does afterwards, whether it
    returns or raises, waits for, stops or clears a task. *)
Theorem aborting_clears_without_stopping {value : Type}
    (as_float64 : value -> spec_float) (as_uint8 : value -> Z)
    (sorted_ports : list string -> result (list string))
    (cfg : Out.config) (drv : Out.driver) (w : Out.worker value) :
  exists rest,
    Out.log (fst (Out.transition_to_manual as_float64 as_uint8 sorted_ports cfg drv true w))
    = Out.log w ++ map (fun e => Out.ClearTask (fst (fst e))) (Out.held_tasks cfg w) ++ rest
    /\ Forall sets_up rest.
Proof.
  unfold Out.transition_to_manual.
  unfold Out.bind at 1. unfold Out.get at 1.
  unfold Out.bind at 1. unfold Out.set_AO_task at 1.
  unfold Out.bind at 1. unfold Out.set_DO_task at 1. simpl.
  unfold Out.bind at 1. rewrite finish_tasks_on_abort.
  match goal with
  | |- context [fst (Out.bind ?m ?k ?w1)] =>
      assert (Hrest : emits sets_up (Out.bind m k))
  end.
  { unfold Out.set_mirror_clock_terminal_connected, Out.raise.
    repeat first [ apply setup_manual_mode_tasks_emits; now intros []
                 | apply program_manual_emits
                 | emits_step | case_match ]. }
  match goal with
  | |- context [fst (Out.bind ?m ?k ?w1)] => destruct (Hrest w1) as (rest & Hlog & Hall)
  end.
  exists rest. split; [|exact Hall]. rewrite Hlog. simpl. now rewrite <- app_assoc.
Qed.

Lemma finish_tasks_normally {value : Type} (drv : Out.driver)
    (l : list (nat * bool * string)) :
  forall w : Out.worker value,
  Forall (finished drv) l ->
  Out.for_each l (Out.finish_task drv false) w
  = (with_log w (Out.log w ++ flat_map (finish_calls drv) l), Out.Return tt).
Proof.
  induction l as [|[[t static] name] l IH]; intros w Hl.
  - simpl. unfold Out.ret. now rewrite app_nil_r, with_log_id.
  - inversion Hl as [|? ? Hx Hl']; subst. simpl.
    unfold Out.bind at 1. unfold finished in Hx. simpl in Hx.
    destruct static.
    + simpl. rewrite IH by exact Hl'. simpl. now rewrite <- !app_assoc.
    + destruct Hx as [Hx|Hx]; [discriminate|].
      simpl. unfold Out.bind, Out.emit. simpl. rewrite Hx. simpl.
      fold (Out.bind (value := value) (A := unit) (B := unit)).
      change (Out.mkWorker (Out.AO_task w) (Out.DO_task w) (Out.AO_data w)
                (Out.DO_data w) (Out.initial_values w) (Out.next_task w) ?l)
        with (with_log w l).
      rewrite IH by exact Hl'. simpl. now rewrite <- !app_assoc.
Qed.

Lemma finish_tasks_unfinished {value : Type} (drv : Out.driver)
    (pre post : list (nat * bool * string)) (t : nat) (name : string) :
  forall w : Out.worker value,
  Forall (finished drv) pre ->
  Out.task_done drv t = false ->
  Out.for_each (pre ++ (t, false, name) :: post) (Out.finish_task drv false) w
  = (with_log w (Out.log w ++ flat_map (finish_calls drv) pre
                 ++ [Out.WaitUntilTaskDone t;
                     Out.Info name (Out.logged (Out.generated drv t))
                                   (Out.logged (Out.write_pos drv t))]),
     Out.Throw (Out.DAQError t)).
Proof.
  intros w Hpre Ht.
  assert (Happ : forall (l1 l2 : list (nat * bool * string)) (w0 : Out.worker value),
             Out.for_each (l1 ++ l2) (Out.finish_task drv false) w0
             = Out.bind (Out.for_each l1 (Out.finish_task drv false))
                        (fun _ => Out.for_each l2 (Out.finish_task drv false)) w0).
  { induction l1 as [|x l1 IH]; intros l2 w0; [reflexivity|].
    simpl. unfold Out.bind.
    destruct (Out.finish_task drv false x w0) as [w1 [[]|e]]; [|reflexivity].
    rewrite IH. reflexivity. }
  rewrite Happ. unfold Out.bind at 1. rewrite finish_tasks_normally by exact Hpre.
  simpl. unfold Out.bind, Out.emit. simpl. rewrite Ht. simpl.
  unfold with_log. simpl. now rewrite <- !app_assoc.
Qed.

(** X26: a task that is not done at the end of a shot.  When
    [transition_to_manual] is called without [abort] and the first of the
    held tasks that is neither static nor done is [t], it raises the error of
    [WaitUntilTaskDone] for [t] after logging the sample counters: [t] is
    neither stopped nor cleared, a task after it is not touched, both task
    attributes are [None] already, and the manual-mode tasks are not set
    up. *)
Theorem unfinished_task_is_left_behind {value : Type}
    (as_float64 : value -> spec_float) (as_uint8 : value -> Z)
    (sorted_ports : list string -> result (list string))
    (cfg : Out.config) (drv : Out.driver) (w : Out.worker value)
    (pre post : list (nat * bool * string)) (t : nat) (name : string) :
  Out.held_tasks cfg w = pre ++ (t, false, name) :: post ->
  Forall (finished drv) pre ->
  Out.task_done drv t = false ->
  Out.transition_to_manual as_float64 as_uint8 sorted_ports cfg drv false w
  = (Out.mkWorker None None (Out.AO_data w) (Out.DO_data w) (Out.initial_values w)
       (Out.next_task w)
       (Out.log w ++ flat_map (finish_calls drv) pre
        ++ [Out.WaitUntilTaskDone t;
            Out.Info name (Out.logged (Out.generated drv t))
                          (Out.logged (Out.write_pos drv t))]),
     Out.Throw (Out.DAQError t)).
Proof.
  intros Hheld Hpre Ht. unfold Out.transition_to_manual.
  unfold Out.bind at 1. unfold Out.get at 1.
  unfold Out.bind at 1. unfold Out.set_AO_task at 1.
  unfold Out.bind at 1. unfold Out.set_DO_task at 1. simpl.
  unfold Out.bind at 1. rewrite Hheld.
  rewrite finish_tasks_unfinished by assumption. reflexivity.
Qed.

Lemma unfinished_task_is_left_behind_witness :
  Out.transition_to_manual Example.as_float64 Example.as_uint8 Example.sorted_ports
    Example.output_card Example.driver_busy false Example.output_worker_in_shot
  = (Out.mkWorker None None (Some (repeat F64.zero 4)) (Some (repeat 0 48)) (Some ∅) 4
       [Out.WaitUntilTaskDone 2; Out.Info "AO" 1 3; Out.StopTask 2; Out.ClearTask 2;
        Out.WaitUntilTaskDone 3; Out.Info "DO" 1 3],
     Out.Throw (Out.DAQError 3)).
Proof.
  apply (unfinished_task_is_left_behind Example.as_float64 Example.as_uint8
           Example.sorted_ports Example.output_card Example.driver_busy
           Example.output_worker_in_shot [(2%nat, false, "AO")] [] 3%nat "DO").
  - reflexivity.
  - constructor; [right; reflexivity|constructor].
  - reflexivity.
Defined.

(** X27: the end of a shot whose tasks have finished.  When every held task
    is static or done, [transition_to_manual] without [abort] waits for
    (unless static), stops and clears each task in turn, and all it does
    afterwards is to disconnect the clock mirror and to create and start the
    manual-mode tasks: no output is written, so the outputs keep the final
    values of the shot. *)
Theorem finished_shot_is_not_reprogrammed {value : Type}
    (as_float64 : value -> spec_float) (as_uint8 : value -> Z)
    (sorted_ports : list string -> result (list string))
    (cfg : Out.config) (drv : Out.driver) (w : Out.worker value) :
  Forall (finished drv) (Out.held_tasks cfg w) ->
  exists rest,
    Out.log (fst (Out.transition_to_manual as_float64 as_uint8 sorted_ports cfg drv false w))
    = Out.log w ++ flat_map (finish_calls drv) (Out.held_tasks cfg w) ++ rest
    /\ Forall restarts rest.
Proof.
  intros Hheld. unfold Out.transition_to_manual.
  unfold Out.bind at 1. unfold Out.get at 1.
  unfold Out.bind at 1. unfold Out.set_AO_task at 1.
  unfold Out.bind at 1. unfold Out.set_DO_task at 1. simpl.
  unfold Out.bind at 1. rewrite finish_tasks_normally by exact Hheld.
  match goal with
  | |- context [fst (Out.bind ?m ?k ?w1)] =>
      assert (Hrest : emits restarts (Out.bind m k))
  end.
  { unfold Out.set_mirror_clock_terminal_connected, Out.raise.
    repeat first [ apply setup_manual_mode_tasks_emits; now intros []
                 | emits_step | case_match ]. }
  match goal with
  | |- context [fst (Out.bind ?m ?k ?w1)] => destruct (Hrest w1) as (rest & Hlog & Hall)
  end.
  exists rest. split; [|exact Hall]. rewrite Hlog. simpl. now rewrite <- app_assoc.
Qed.

Lemma finished_shot_is_not_reprogrammed_witness :
  exists rest,
    Out.log (fst (Out.transition_to_manual Example.as_float64 Example.as_uint8
                    Example.sorted_ports Example.output_card Example.driver_done false
                    Example.output_worker_in_shot))
    = [Out.WaitUntilTaskDone 2; Out.Info "AO" (-1) (-1); Out.StopTask 2; Out.ClearTask 2;
       Out.WaitUntilTaskDone 3; Out.Info "DO" (-1) (-1); Out.StopTask 3; Out.ClearTask 3]
      ++ rest
    /\ Forall restarts rest.
Proof.
  apply (finished_shot_is_not_reprogrammed Example.as_float64 Example.as_uint8
           Example.sorted_ports Example.output_card Example.driver_done
           Example.output_worker_in_shot).
  constructor; [right; reflexivity|].
  constructor; [right; reflexivity|constructor].
Defined.

Lemma final_row_lookup (names : list string) (row : list spec_float) (i : nat)
    (name : string) (x : spec_float) :
  NoDup names -> names !! i = Some name -> row !! i = Some x ->
  (list_to_map (reverse (zip names (map Out.Volts row))) : gmap string Out.final) !! name
  = Some (Out.Volts x).
Proof.
  intros Hnd Hn Hx. apply elem_of_list_to_map_1'.
  - intros y Hy. rewrite elem_of_reverse in Hy.
    apply list_elem_of_lookup in Hy. destruct Hy as (j & Hj).
    apply lookup_zip_with_Some in Hj. destruct Hj as (n' & y' & Heq & Hn' & Hy').
    inversion Heq; subst n' y'.
    assert (j = i) by (eapply NoDup_lookup; eauto). subst j.
    change (map Out.Volts row) with (Out.Volts <$> row) in Hy'.
    rewrite list_lookup_fmap, Hx in Hy'. simpl in Hy'. congruence.
  - rewrite elem_of_reverse. apply list_elem_of_lookup. exists i.
    apply lookup_zip_with_Some. exists name, (Out.Volts x). split; [reflexivity|].
    split; [exact Hn|].
    change (map Out.Volts row) with (Out.Volts <$> row).
    now rewrite list_lookup_fmap, Hx.
Qed.

(** X28: the last row of the analog table.  For a table with a row at least
    and distinct column names, on a card whose analog outputs are not static,
    [program_buffered_AO] returns; it creates one task, configures the
    sample clock for all rows but the last, writes exactly those rows without
    autostart and then starts the task; the last row is not written, and is
    what is reported as the final value of each channel. *)
Theorem final_row_is_reported_not_written {value : Type} (cfg : Out.config)
    (table : Out.AO_table) (samples : list (list spec_float))
    (final_row : list spec_float) (w : Out.worker value) :
  Out.AO_rows table = samples ++ [final_row] ->
  Out.static_AO cfg = false ->
  NoDup (Out.AO_names table) ->
  exists w' fv,
    Out.program_buffered_AO cfg (Some table) w = (w', Out.Return fv)
    /\ Out.AO_task w' = Some (Out.next_task w)
    /\ Out.log w'
       = Out.log w
         ++ [Out.Task (Out.next_task w);
             Out.CreateAOVoltageChan (Out.next_task w)
               (Out.join ", " (map (fun c => Out.MAX_name cfg +:+ "/" +:+ c)
                                   (Out.AO_names table)))
               (Out.Vmin cfg) (Out.Vmax cfg);
             Out.CfgSampClkTiming (Out.next_task w) (Out.clock_terminal cfg)
               (Out.clock_limit cfg) (Z.of_nat (length samples));
             Out.WriteAnalogF64 (Out.next_task w) (Z.of_nat (length samples)) false samples;
             Out.StartTask (Out.next_task w)]
    /\ forall i name x,
         Out.AO_names table !! i = Some name -> final_row !! i = Some x ->
         fv !! name = Some (Out.Volts x).
Proof.
  intros Hrows Hstatic Hnd. unfold Out.program_buffered_AO.
  unfold Out.bind, Out.new_task, Out.set_AO_task, Out.emit, Out.last_row. simpl.
  rewrite Hrows, last_snoc, Hstatic. simpl.
  rewrite removelast_last, length_app. simpl.
  replace (Z.of_nat (length samples + 1) - 1) with (Z.of_nat (length samples)) by lia.
  eexists. eexists. split; [reflexivity|]. simpl. split; [reflexivity|].
  split; [now rewrite <- !app_assoc|].
  intros i name x Hn Hx. now apply final_row_lookup with i.
Qed.

Lemma final_row_is_reported_not_written_witness :
  exists w' fv,
    Out.program_buffered_AO Example.output_card (Some Example.AO_table)
      Example.new_output_worker = (w', Out.Return fv)
    /\ Out.AO_task w' = Some 0%nat
    /\ Out.log w'
       = [Out.Task 0;
          Out.CreateAOVoltageChan 0 "ni_card/ao0, ni_card/ao1" (F64.of_Z (-10)) (F64.of_Z 10);
          Out.CfgSampClkTiming 0 "/ni_card/PFI0" (F64.of_Z 1000000) 2;
          Out.WriteAnalogF64 0 2 false
            [[F64.zero; F64.of_Z 1]; [F64.dec 5 (-1); F64.of_Z 2]];
          Out.StartTask 0]
    /\ forall i name x,
         ["ao0"; "ao1"] !! i = Some name -> [F64.dec 5 (-1); F64.of_Z 2] !! i = Some x ->
         fv !! name = Some (Out.Volts x).
Proof.
  apply (final_row_is_reported_not_written Example.output_card Example.AO_table
           [[F64.zero; F64.of_Z 1]; [F64.dec 5 (-1); F64.of_Z 2]]
           [F64.dec 5 (-1); F64.of_Z 2] Example.new_output_worker).
  - reflexivity.
  - reflexivity.
  - apply (bool_decide_unpack _). vm_compute. exact I.
Defined.

(** X29: a shot file without a group for the device.
    [transition_to_buffered] raises [KeyError] only after it has stored the
    initial values and stopped and cleared the manual-mode tasks: the worker
    is left without any task, and no task is created. *)
Theorem missing_group_leaves_no_task {value : Type} (cfg : Out.config)
    (device_name : string) (initial : gmap string value) (w : Out.worker value) :
  Out.transition_to_buffered cfg device_name None initial w
  = (Out.mkWorker None None (Out.AO_data w) (Out.DO_data w) (Some initial)
       (Out.next_task w)
       (Out.log w
        ++ flat_map (fun e => [Out.StopTask (fst (fst e)); Out.ClearTask (fst (fst e))])
                    (Out.held_tasks cfg w)),
     Out.Throw (Out.Python (KeyError device_name))).
Proof.
  unfold Out.transition_to_buffered, Out.stop_and_clear_tasks, Out.held_tasks,
    Out.get_output_tables, Out.the, Out.raise, Out.throw, Out.bind,
    Out.set_initial_values, Out.get, Out.emit, Out.set_AO_task, Out.set_DO_task, Out.ret.
  destruct w as [[a|] [d|] ? ? ? ? lg]; simpl;
    rewrite <- ?app_assoc, ?app_nil_r; reflexivity.
Qed.
